(** * A retrieval pipeline: chunker, vector store, lexical fallback, orchestrator

    Shallow embedding of [text_chunker.py], [embedding_system.py],
    [vector_store.py] and [rag_pipeline.py].

    Conventions of the embedding.
    - A Python [str] is a list of characters; a character is a code point
      below 256 (the type [ascii]), which is closed under [str.lower].
    - A Python [int] is a [Z]; list positions are [nat].
    - A Python [float] (and a [numpy.float64]) is a binary64 [float].
    - An exception is a value of [exn]; code that can raise returns
      [exn + A].
    - The two remote services (embeddings, chat completion) are oracles;
      [numpy.argsort] is a function known by its contract. *)

From Stdlib Require Import List ZArith Lia Bool Ascii Floats.
From Stdlib Require Import Permutation Sorted.
From Stdlib Require String DecimalString.
Import ListNotations String.StringSyntax.

Delimit Scope string_scope with string.
Bind Scope string_scope with String.string.

Local Open Scope Z_scope.

(* ================================================================== *)
(** ** Part I. Definitions                                             *)
(* ================================================================== *)

(** *** Python strings and sequences *)

Module Py.

Definition str := list ascii.

(** A string literal of the source. *)
Definition lit (s : String.string) : str := String.list_ascii_of_string s.

Definition code (c : ascii) : N := N_of_ascii c.

(** [str.isspace] on one character, for code points below 256. *)
Definition isspace (c : ascii) : bool :=
  let n := code c in
  ((9 <=? n) && (n <=? 13) || (28 <=? n) && (n <=? 32)
   || (n =? 133) || (n =? 160))%N.

(** [str.lower] on one character, for code points below 256:
    A-Z and the Latin-1 capitals (all of U+00C0..U+00DE but the
    multiplication sign) move up by 32. *)
Definition lower_char (c : ascii) : ascii :=
  let n := code c in
  if ((65 <=? n) && (n <=? 90)
      || (192 <=? n) && (n <=? 222) && negb (n =? 215))%N
  then ascii_of_N (n + 32) else c.

Definition lower (s : str) : str := map lower_char s.

Fixpoint lstrip (s : str) : str :=
  match s with
  | c :: s' => if isspace c then lstrip s' else s
  | [] => []
  end.

Definition rstrip (s : str) : str := rev (lstrip (rev s)).

(** [s.strip()] *)
Definition strip (s : str) : str := rstrip (lstrip s).

(** [s.split()]: the maximal runs of non-space characters, in order.
    [cur] is the run being read, reversed. *)
Fixpoint split_aux (s : str) (cur : str) : list str :=
  match s with
  | [] => match cur with [] => [] | _ => [rev cur] end
  | c :: s' =>
      if isspace c
      then match cur with
           | [] => split_aux s' []
           | _ => rev cur :: split_aux s' []
           end
      else split_aux s' (c :: cur)
  end.

Definition split (s : str) : list str := split_aux s [].

Fixpoint startswith (s sub : str) : bool :=
  match sub, s with
  | [], _ => true
  | _ :: _, [] => false
  | a :: sub', b :: s' => Ascii.eqb a b && startswith s' sub'
  end.

(** [sub in s] on strings. *)
Fixpoint contains (sub s : str) : bool :=
  startswith s sub ||
  match s with
  | [] => false
  | _ :: s' => contains sub s'
  end.

(** [len(l)] *)
Definition len {A} (l : list A) : Z := Z.of_nat (length l).

(** How a slice bound is read against a sequence of length [n]:
    a negative bound counts from the end, and the result is clamped
    to [0..n]. *)
Definition clamp (n i : Z) : Z :=
  if i <? 0 then Z.max (n + i) 0 else Z.min i n.

(** [l[i:j]] *)
Definition slice {A} (l : list A) (i j : Z) : list A :=
  let lo := Z.to_nat (clamp (len l) i) in
  let hi := Z.to_nat (clamp (len l) j) in
  skipn lo (firstn hi l).

(** [l[i:]] *)
Definition slice_from {A} (l : list A) (i : Z) : list A :=
  skipn (Z.to_nat (clamp (len l) i)) l.

(** [l[:j]] *)
Definition slice_to {A} (l : list A) (j : Z) : list A :=
  firstn (Z.to_nat (clamp (len l) j)) l.

(** [rfind_aux c s i lo hi acc]: the last position [p >= i] of [c] with
    [lo <= p < hi], reading [s] from position [i]; [acc] when none. *)
Fixpoint rfind_aux (c : ascii) (s : str) (i lo hi acc : Z) : Z :=
  match s with
  | [] => acc
  | x :: s' =>
      rfind_aux c s' (i + 1) lo hi
        (if (lo <=? i) && (i <? hi) && Ascii.eqb x c then i else acc)
  end.

(** [s.rfind(c, start, end)] for a one-character [c]: the highest index
    in [s[start:end]] where [c] occurs, [-1] when there is none. *)
Definition rfind (s : str) (c : ascii) (start end_ : Z) : Z :=
  rfind_aux c s 0 (clamp (len s) start) (clamp (len s) end_) (-1).

(** [str(n)] for a natural number. *)
Definition str_of_nat (n : nat) : str :=
  lit (DecimalString.NilZero.string_of_uint (Nat.to_uint n)).

(** [sep.join(parts)] *)
Fixpoint join (sep : str) (parts : list str) : str :=
  match parts with
  | [] => []
  | [p] => p
  | p :: ps => p ++ sep ++ join sep ps
  end.

(** Truth value of a sequence: non-empty. *)
Definition nonempty {A} (l : list A) : bool :=
  match l with [] => false | _ => true end.

Definition nl : str := ["010"%char].

End Py.

(** *** Records passed between the components *)

(** The values a document's metadata mapping holds. *)
Inductive MetaValue : Type :=
| MStr (s : Py.str)
| MInt (n : Z).

Definition Metadata := list (Py.str * MetaValue).

(** A loaded document: the dict [DocumentLoader] builds, with its keys
    ['content'], ['source'], ['type'] and ['metadata']. *)
Module Document.
Record t : Type := mk {
  content : Py.str;
  source : Py.str;
  type : Py.str;
  metadata : Metadata
}.
End Document.

(** A chunk: the dict [_split_single_document] builds. *)
Module Chunk.
Record t : Type := mk {
  content : Py.str;
  source : Py.str;
  chunk_id : Z;
  start_char : Z;
  end_char : Z;
  metadata : Metadata
}.
End Chunk.

(** *** text_chunker.py *)

Module TextChunker.

Record t : Type := mk {
  chunk_size : Z;
  chunk_overlap : Z
}.

(** [TextChunker()] *)
Definition default : t := mk 1000 200.

Section Split.
Variable self : t.
Variable document : Document.t.

(** The right end of the window that starts at [start]: moved back to
    just after the last sentence boundary of the window, when there is
    one behind [start] and the window is not the last. *)
Definition window_end (start : Z) : Z :=
  let content := Document.content document in
  let end_ := start + chunk_size self in
  if end_ <? Py.len content then
    let last_period := Py.rfind content "."%char start end_ in
    let last_exclamation := Py.rfind content "!"%char start end_ in
    let last_question := Py.rfind content "?"%char start end_ in
    let sentence_end :=
      Z.max (Z.max last_period last_exclamation) last_question in
    if start <? sentence_end then sentence_end + 1 else end_
  else end_.

(** One pass through the body of the [while] loop. *)
Definition loop_body (start : Z) (chunks : list Chunk.t) : Z * list Chunk.t :=
  let content := Document.content document in
  let end_ := window_end start in
  let chunk_content := Py.strip (Py.slice content start end_) in
  let chunks' :=
    if Py.nonempty chunk_content
    then chunks ++ [ {| Chunk.content := chunk_content;
                        Chunk.source := Document.source document;
                        Chunk.chunk_id := Py.len chunks;
                        Chunk.start_char := start;
                        Chunk.end_char := end_;
                        Chunk.metadata := Document.metadata document |} ]
    else chunks in
  (Z.max (start + 1) (end_ - chunk_overlap self), chunks').

(** The [while start < len(content)] loop, with the number of passes
    made so far; [None] when [fuel] passes were not enough. *)
Fixpoint loop (fuel : nat) (start : Z) (chunks : list Chunk.t) (passes : nat)
  : option (list Chunk.t * nat) :=
  if start <? Py.len (Document.content document) then
    match fuel with
    | O => None
    | S fuel' =>
        let '(start', chunks') := loop_body start chunks in
        loop fuel' start' chunks' (S passes)
    end
  else Some (chunks, passes).

(** The loop from [start = 0], with as many passes allowed as the
    content has characters (always enough: [loop_enough_fuel]). *)
Definition run : option (list Chunk.t * nat) :=
  loop (length (Document.content document)) 0 [] 0.

(** Number of passes of the loop. *)
Definition iterations : option nat := option_map snd run.

Definition _split_single_document : list Chunk.t :=
  match run with
  | Some (chunks, _) => chunks
  | None => []
  end.

End Split.

Definition split_documents (self : t) (documents : list Document.t)
  : list Chunk.t :=
  flat_map (_split_single_document self) documents.

End TextChunker.

(** [ceil(a / b)] for [b > 0]. *)
Definition ceil_div (a b : Z) : Z := (a + b - 1) / b.


(** *** Exceptions, truth values, floats *)

Inductive exn : Type :=
| ValueError (msg : Py.str)
| IndexError (msg : Py.str)
| Exception (msg : Py.str).

(** What [_generate_single_embedding] returns: [None], or the list of
    floats of the service's answer. *)
Definition Embedding := option (list float).

(** [if embedding:] is taken for a non-empty list only. *)
Definition truthy (e : Embedding) : bool :=
  match e with
  | Some (_ :: _) => true
  | _ => false
  end.

(** The list behind a truthy embedding. *)
Definition vector_of (e : Embedding) : list float :=
  match e with
  | Some v => v
  | None => []
  end.

(** Ascending order of [numpy] sorts on floats: NaN sorts last. *)
Definition fle (x y : float) : bool :=
  (PrimFloat.is_nan y || (x <=? y))%float.

(** The contract of [numpy.argsort] on a list of floats: the positions
    of the list, each once, in ascending order of the values they hold.
    The order among equal values is left open. *)
Definition argsort_spec (argsort : list float -> list nat) : Prop :=
  forall xs : list float,
    Permutation (argsort xs) (seq 0 (length xs)) /\
    StronglySorted
      (fun i j => fle (nth i xs nan) (nth j xs nan) = true) (argsort xs).

(** A stable insertion sort on positions, one function that meets
    [argsort_spec]. *)
Fixpoint insert_index (xs : list float) (i : nat) (l : list nat) : list nat :=
  match l with
  | [] => [i]
  | j :: l' =>
      if fle (nth i xs nan) (nth j xs nan) then i :: l
      else j :: insert_index xs i l'
  end.

Definition stable_argsort (xs : list float) : list nat :=
  fold_right (insert_index xs) [] (seq 0 (length xs)).

(** *** vector_store.py *)

Module SimpleVectorStore.

Record t : Type := mk {
  embeddings : list (list float);
  chunks : list Chunk.t;
  metadata : list Metadata
}.

(** [SimpleVectorStore()] *)
Definition empty : t := mk [] [] [].

(** [[0.0] * 1536] *)
Definition placeholder : list float := repeat 0%float 1536.

(** The three [append]s of one pass of either loop of [add_chunks]. *)
Definition append (self : t) (chunk : Chunk.t) (embedding : list float) : t :=
  {| chunks := chunks self ++ [chunk];
     embeddings := embeddings self ++ [embedding];
     metadata := metadata self ++ [Chunk.metadata chunk] |}.

Definition add_chunks (self : t) (chunks : list Chunk.t)
    (embeddings : list Embedding) : t :=
  if negb (Py.nonempty embeddings) then
    fold_left (fun self chunk => append self chunk placeholder) chunks self
  else
    fold_left
      (fun self '(chunk, embedding) =>
         append self chunk
           (if truthy embedding then vector_of embedding else placeholder))
      (combine chunks embeddings) self.

(** The [ValueError] of [np.dot] for arrays of [n] and [m] elements. *)
Definition shapes_not_aligned (n m : nat) : exn :=
  ValueError
    (Py.lit "shapes (" ++ Py.str_of_nat n ++ Py.lit ",) and ("
       ++ Py.str_of_nat m ++ Py.lit ",) not aligned: "
       ++ Py.str_of_nat n ++ Py.lit " (dim 0) != "
       ++ Py.str_of_nat m ++ Py.lit " (dim 0)").

(** [np.dot] on two one-dimensional arrays: a [ValueError] when the
    lengths differ.  For equal lengths the value here is the sum of the
    products, each rounded, added from the left.  [numpy] hands the sum
    to its BLAS, which fixes neither the order of the additions nor
    whether a product is rounded before it is added, so for inexact
    products the last bits of the code's value may differ from this
    one.  No property below rests on the value: the properties use
    that [dot] raises exactly when the lengths differ, and the examples
    use vectors of small integers, whose products and sums are exact in
    any order. *)
Definition dot (a b : list float) : exn + float :=
  if (length a =? length b)%nat then
    inr (fold_left (fun acc '(x, y) => acc + x * y) (combine a b) 0)%float
  else inl (shapes_not_aligned (length a) (length b)).

(** [np.linalg.norm] on a one-dimensional array: [sqrt(dot(x, x))],
    the sum taken as in [dot].  The properties use of its value only
    that the norm of a vector of zeros is zero, which holds in any
    order of the additions. *)
Definition norm (a : list float) : float :=
  sqrt (fold_left (fun acc x => acc + x * x) a 0)%float.

Definition _cosine_similarity (vec1 vec2 : list float) : exn + float :=
  match dot vec1 vec2 with
  | inl e => inl e
  | inr dot_product =>
      let norm1 := norm vec1 in
      let norm2 := norm vec2 in
      if ((norm1 =? 0) || (norm2 =? 0))%float then inr 0%float
      else inr (dot_product / (norm1 * norm2))%float
  end.

(** The first loop of [search]: one similarity per stored embedding,
    the first exception ending the loop. *)
Fixpoint similarities_of (query_embedding : list float)
    (embeddings : list (list float)) : exn + list float :=
  match embeddings with
  | [] => inr []
  | embedding :: rest =>
      match _cosine_similarity query_embedding embedding with
      | inl e => inl e
      | inr sim =>
          match similarities_of query_embedding rest with
          | inl e => inl e
          | inr sims => inr (sim :: sims)
          end
      end
  end.

(** The second loop of [search]. *)
Fixpoint collect (chunks : list Chunk.t) (similarities : list float)
    (top_indices : list nat) : exn + list (Chunk.t * float) :=
  match top_indices with
  | [] => inr []
  | idx :: rest =>
      match nth_error similarities idx with
      | None => inl (IndexError (Py.lit "list index out of range"))
      | Some sim =>
          if (0 <? sim)%float then
            match nth_error chunks idx with
            | None => inl (IndexError (Py.lit "list index out of range"))
            | Some chunk =>
                match collect chunks similarities rest with
                | inl e => inl e
                | inr results => inr ((chunk, sim) :: results)
                end
            end
          else collect chunks similarities rest
      end
  end.

Section Search.
Variable argsort : list float -> list nat.

(** [np.argsort(similarities)[-top_k:][::-1]] *)
Definition top_indices (similarities : list float) (top_k : Z) : list nat :=
  rev (Py.slice_from (argsort similarities) (- top_k)).

Definition search (self : t) (query_embedding : list float) (top_k : Z)
  : exn + list (Chunk.t * float) :=
  if negb (Py.nonempty (embeddings self)) then inr []
  else
    match similarities_of query_embedding (embeddings self) with
    | inl e => inl e
    | inr similarities =>
        collect (chunks self) similarities (top_indices similarities top_k)
    end.

End Search.

End SimpleVectorStore.

(** *** The world outside: the two services and what was called *)

(** Calls that leave a mark: a request to the embedding service, a
    request to the chat service, and the two ways of retrieval. *)
Inductive Event : Type :=
| EvEmbed (text : Py.str)
| EvChat (prompt : Py.str)
| EvVectorSearch (query_embedding : list float) (top_k : Z)
| EvTextSearch (question : Py.str) (top_k : Z).

Record World : Type := mkWorld {
  embed_calls : nat;
  chat_calls : nat;
  trace : list Event
}.

(** A computation that may call the services and may raise. *)
Definition M (A : Type) : Type := World -> World * (exn + A).

Definition ret {A} (a : A) : M A := fun w => (w, inr a).

Definition raise {A} (e : exn) : M A := fun w => (w, inl e).

Definition bind {A B} (m : M A) (k : A -> M B) : M B :=
  fun w =>
    match m w with
    | (w', inl e) => (w', inl e)
    | (w', inr a) => k a w'
    end.

(** [try: m  except Exception as e: handler e] *)
Definition try_except {A} (m : M A) (handler : exn -> M A) : M A :=
  fun w =>
    match m w with
    | (w', inl e) => handler e w'
    | (w', inr a) => (w', inr a)
    end.

Definition log (ev : Event) : M unit :=
  fun w => ({| embed_calls := embed_calls w;
               chat_calls := chat_calls w;
               trace := trace w ++ [ev] |}, inr tt).

Definition lift {A} (r : exn + A) : M A := fun w => (w, r).

Notation "x <- m ;; k" := (bind m (fun x => k))
  (at level 61, m at next level, right associativity).
Notation "m ;;; k" := (bind m (fun _ => k))
  (at level 61, right associativity).

(** *** embedding_system.py *)

Module EmbeddingSystem.

Section WithService.
(** The embedding service: what its [n]-th request answers for a text,
    [None] when the request raises. *)
Variable embed_api : nat -> Py.str -> option (list float).

Definition _generate_single_embedding (text : Py.str) : M Embedding :=
  fun w =>
    ({| embed_calls := S (embed_calls w);
        chat_calls := chat_calls w;
        trace := trace w ++ [EvEmbed text] |},
     inr (embed_api (embed_calls w) text)).

(** The loop of [generate_embeddings], [embeddings] being the list
    built so far. *)
Fixpoint generate_loop (texts : list Py.str) (embeddings : list Embedding)
  : M (list Embedding) :=
  match texts with
  | [] => ret embeddings
  | text :: rest =>
      embedding <- _generate_single_embedding text ;;
      generate_loop rest
        (if truthy embedding then embeddings ++ [embedding] else embeddings)
  end.

Definition generate_embeddings (texts : list Py.str) : M (list Embedding) :=
  generate_loop texts [].

End WithService.

End EmbeddingSystem.

(** *** rag_pipeline.py *)

(** One retrieved entry: the dict with keys ['chunk'], ['similarity'],
    ['content'] and ['source']. *)
Module Retrieved.
Record t : Type := mk {
  chunk : Chunk.t;
  similarity : float;
  content : Py.str;
  source : Py.str
}.
End Retrieved.

(** What [query] returns. *)
Module QueryResponse.
Record t : Type := mk {
  response : Py.str;
  sources : list Retrieved.t;
  question : Py.str
}.
End QueryResponse.

(** [results.sort(key=lambda x: x['similarity'], reverse=True)]: a
    stable sort, larger similarities first. *)
Fixpoint insert_desc (x : Retrieved.t) (l : list Retrieved.t)
  : list Retrieved.t :=
  match l with
  | [] => [x]
  | y :: l' =>
      if (Retrieved.similarity x <? Retrieved.similarity y)%float
      then y :: insert_desc x l'
      else x :: l
  end.

Definition sort_desc (l : list Retrieved.t) : list Retrieved.t :=
  fold_right insert_desc [] l.

Module RAGPipeline.

Record t : Type := mk {
  text_chunker : TextChunker.t;
  vector_store : SimpleVectorStore.t;
  is_initialized : bool
}.

(** [RAGPipeline(data_dir)], the loader and the services left outside. *)
Definition new : t :=
  mk TextChunker.default SimpleVectorStore.empty false.

Definition not_initialized_msg : Py.str :=
  Py.lit "RAG system not initialized. Call initialize() first.".

Definition nothing_relevant_msg : Py.str :=
  Py.lit "I couldn't find any relevant information to answer your question.".

(** The entry [_basic_text_search] and [query] build for a chunk. *)
Definition entry (chunk : Chunk.t) (score : float) : Retrieved.t :=
  {| Retrieved.chunk := chunk;
     Retrieved.similarity := score;
     Retrieved.content := Chunk.content chunk;
     Retrieved.source := Chunk.source chunk |}.

(** The loop of [_basic_text_search] over the stored chunks. *)
Fixpoint text_matches (question_lower : Py.str) (chunks : list Chunk.t)
  : list Retrieved.t :=
  match chunks with
  | [] => []
  | chunk :: rest =>
      let content_lower := Py.lower (Chunk.content chunk) in
      if Py.contains question_lower content_lower then
        entry chunk 1%float :: text_matches question_lower rest
      else if existsb (fun word => Py.contains word content_lower)
                (Py.split question_lower) then
        entry chunk 0.5%float :: text_matches question_lower rest
      else text_matches question_lower rest
  end.

Definition _basic_text_search (self : t) (question : Py.str) (top_k : Z)
  : M (list Retrieved.t) :=
  log (EvTextSearch question top_k) ;;;
  let question_lower := Py.lower question in
  let results :=
    text_matches question_lower
      (SimpleVectorStore.chunks (vector_store self)) in
  ret (Py.slice_to (sort_desc results) top_k).

(** The loop of [generate_response] that fills [context_parts]; [i] is
    the number of the first entry. *)
Fixpoint context_parts (i : nat) (retrieved_chunks : list Retrieved.t)
  : list Py.str :=
  match retrieved_chunks with
  | [] => []
  | result :: rest =>
      let chunk := Retrieved.chunk result in
      (Py.lit "Source " ++ Py.str_of_nat i ++ Py.lit " ("
         ++ Chunk.source chunk ++ Py.lit "):" ++ Py.nl
         ++ Chunk.content chunk)
      :: context_parts (S i) rest
  end.

Definition prompt_of (question context : Py.str) : Py.str :=
  Py.lit "Based on the following information, provide a comprehensive and accurate answer to the question."
  ++ Py.nl ++ Py.nl
  ++ Py.lit "Context Information:" ++ Py.nl
  ++ context ++ Py.nl ++ Py.nl
  ++ Py.lit "Question: " ++ question ++ Py.nl ++ Py.nl
  ++ Py.lit "Instructions:" ++ Py.nl
  ++ Py.lit "- Use only the information provided in the context" ++ Py.nl
  ++ Py.lit "- If the context doesn't contain enough information to fully answer the question, say so" ++ Py.nl
  ++ Py.lit "- Provide a clear, well-structured answer" ++ Py.nl
  ++ Py.lit "- Cite the sources when possible" ++ Py.nl ++ Py.nl
  ++ Py.lit "Answer:".

(** The loop of [_format_basic_response], [response] being the text
    built so far. *)
Fixpoint format_loop (i : nat) (retrieved_chunks : list Retrieved.t)
    (response : Py.str) : Py.str :=
  match retrieved_chunks with
  | [] => response
  | result :: rest =>
      let chunk := Retrieved.chunk result in
      format_loop (S i) rest
        (response ++ Py.str_of_nat i ++ Py.lit ". From "
           ++ Chunk.source chunk ++ Py.lit ":" ++ Py.nl
           ++ Chunk.content chunk ++ Py.nl ++ Py.nl)
  end.

Definition _format_basic_response (question : Py.str)
    (retrieved_chunks : list Retrieved.t) : Py.str :=
  if negb (Py.nonempty retrieved_chunks) then
    Py.lit "No relevant information found."
  else
    let response :=
      Py.lit "Based on the available information, here's what I found about '"
      ++ question ++ Py.lit "':" ++ Py.nl ++ Py.nl in
    let response := format_loop 1 retrieved_chunks response in
    response
    ++ Py.lit "Note: This is a basic summary. For a more coherent answer, please ensure your OpenAI API key is configured.".

Section WithServices.
Variable embed_api : nat -> Py.str -> option (list float).
(** The chat service: what its [n]-th request answers for a prompt, on
    the left the text of the exception when the request raises. *)
Variable chat_api : nat -> Py.str -> Py.str + Py.str.
Variable argsort : list float -> list nat.

Definition initialize (self : t) (documents : list Document.t) : M t :=
  let chunks := TextChunker.split_documents (text_chunker self) documents in
  let chunk_texts := map Chunk.content chunks in
  embeddings <- EmbeddingSystem.generate_embeddings embed_api chunk_texts ;;
  let valid :=
    filter (fun '(chunk, embedding) => truthy embedding)
      (combine chunks embeddings) in
  let valid_chunks := map fst valid in
  let valid_embeddings := map snd valid in
  if negb (Py.nonempty valid_chunks) then
    ret {| text_chunker := text_chunker self;
           vector_store :=
             SimpleVectorStore.add_chunks (vector_store self) chunks [];
           is_initialized := true |}
  else
    ret {| text_chunker := text_chunker self;
           vector_store :=
             SimpleVectorStore.add_chunks (vector_store self)
               valid_chunks valid_embeddings;
           is_initialized := true |}.

Definition _generate_with_openai (prompt : Py.str) : M Py.str :=
  fun w =>
    let w' := {| embed_calls := embed_calls w;
                 chat_calls := S (chat_calls w);
                 trace := trace w ++ [EvChat prompt] |} in
    match chat_api (chat_calls w) prompt with
    | inl e => (w', inl (Exception (Py.lit "OpenAI API error: " ++ e)))
    | inr content => (w', inr (Py.strip content))
    end.

Definition generate_response (question : Py.str)
    (retrieved_chunks : list Retrieved.t) : M Py.str :=
  if negb (Py.nonempty retrieved_chunks) then ret nothing_relevant_msg
  else
    let context := Py.join (Py.nl ++ Py.nl) (context_parts 1 retrieved_chunks) in
    let prompt := prompt_of question context in
    try_except (_generate_with_openai prompt)
      (fun _ => ret (_format_basic_response question retrieved_chunks)).

(** The call [self.vector_store.search(question_embedding, top_k)]. *)
Definition vector_search (self : t) (question_embedding : list float)
    (top_k : Z) : M (list (Chunk.t * float)) :=
  log (EvVectorSearch question_embedding top_k) ;;;
  lift (SimpleVectorStore.search argsort (vector_store self)
          question_embedding top_k).

Definition query (self : t) (question : Py.str) (top_k : Z)
  : M QueryResponse.t :=
  if negb (is_initialized self) then raise (ValueError not_initialized_msg)
  else
    question_embeddings <-
      EmbeddingSystem.generate_embeddings embed_api [question] ;;
    retrieved_chunks <-
      match question_embeddings with
      | [] => _basic_text_search self question top_k
      | question_embedding :: _ =>
          if negb (truthy question_embedding) then
            _basic_text_search self question top_k
          else
            search_results <-
              vector_search self (vector_of question_embedding) top_k ;;
            ret (map (fun '(chunk, score) => entry chunk score) search_results)
      end ;;
    generated_response <- generate_response question retrieved_chunks ;;
    ret {| QueryResponse.response := generated_response;
           QueryResponse.sources := retrieved_chunks;
           QueryResponse.question := question |}.

End WithServices.

End RAGPipeline.

(** The world before any call. *)
Definition world0 : World := mkWorld 0 0 [].

(** *** Vocabulary of the properties *)

(** Content without ".", "!" and "?". *)
Definition no_boundary (s : Py.str) : Prop :=
  ~ In "."%char s /\ ~ In "!"%char s /\ ~ In "?"%char s.

(** [fle] read on the specification of binary64 values. *)
Definition sfle (a b : spec_float) : bool :=
  match b with
  | S754_nan => true
  | _ => SFleb a b
  end.

(** The chunk that stands for no chunk where a position is read with a
    default. *)
Definition no_chunk : Chunk.t := Chunk.mk [] [] 0 0 0 [].

(** What [collect] returns for positions that exist: the positions of
    positive similarity, in the order given, each with its chunk. *)
Definition picked (chunks : list Chunk.t) (similarities : list float)
    (top_indices : list nat) : list (Chunk.t * float) :=
  map (fun i => (nth i chunks no_chunk, nth i similarities nan))
    (filter (fun i => (0 <? nth i similarities nan)%float) top_indices).

(** A store the query fits: as many chunks as embeddings, and every
    stored embedding as long as the query. *)
Definition fits (self : SimpleVectorStore.t) (query_embedding : list float)
  : Prop :=
  length (SimpleVectorStore.chunks self)
    = length (SimpleVectorStore.embeddings self) /\
  Forall (fun e => length e = length query_embedding)
    (SimpleVectorStore.embeddings self).

(** The stores [add_chunks] builds from the empty one. *)
Inductive built : SimpleVectorStore.t -> Prop :=
| built_empty : built SimpleVectorStore.empty
| built_add self chunks embeddings :
    built self ->
    built (SimpleVectorStore.add_chunks self chunks embeddings).

(** Larger scores first. *)
Definition descending (results : list (Chunk.t * float)) : Prop :=
  StronglySorted (fun a b => (snd b <=? snd a)%float = true) results.

(** The answers of the service to requests for [texts], the first of
    them being request number [n]. *)
Fixpoint answers (embed_api : nat -> Py.str -> option (list float))
    (n : nat) (texts : list Py.str) : list Embedding :=
  match texts with
  | [] => []
  | text :: rest => embed_api n text :: answers embed_api (S n) rest
  end.

(** The world after one request per text. *)
Definition after_embedding (w : World) (texts : list Py.str) : World :=
  {| embed_calls := embed_calls w + length texts;
     chat_calls := chat_calls w;
     trace := trace w ++ map EvEmbed texts |}.

(** The vector stored for an embedding given to [add_chunks]. *)
Definition stored_vector (e : Embedding) : list float :=
  if truthy e then vector_of e else SimpleVectorStore.placeholder.

(** [sub] occurs in [s]. *)
Definition occurs (sub s : Py.str) : Prop :=
  exists pre post, s = pre ++ sub ++ post.

(** An event of the chat service. *)
Definition is_chat (ev : Event) : Prop :=
  match ev with
  | EvChat _ => True
  | _ => False
  end.

(** What [_basic_text_search] returns, whatever the world. *)
Definition text_search_result (self : RAGPipeline.t) (question : Py.str)
    (top_k : Z) : list Retrieved.t :=
  Py.slice_to
    (sort_desc
       (RAGPipeline.text_matches (Py.lower question)
          (SimpleVectorStore.chunks (RAGPipeline.vector_store self))))
    top_k.

(** The length of the vectors of the embedding model the code names
    ([text-embedding-ada-002]), which is also the length of the
    placeholder. *)
Definition dimension : nat := 1536.

(** The embedding service answers with vectors of that length. *)
Definition service_dimension
    (embed_api : nat -> Py.str -> option (list float)) : Prop :=
  forall n text v, embed_api n text = Some v -> v <> [] ->
    length v = dimension.

(** Chunks and embeddings are aligned and every stored vector has the
    length of the model. *)
Definition store_ok (self : SimpleVectorStore.t) : Prop :=
  length (SimpleVectorStore.chunks self)
    = length (SimpleVectorStore.embeddings self) /\
  Forall (fun e => length e = dimension) (SimpleVectorStore.embeddings self).

(** The pipelines a caller can hold: a new one, and what [initialize]
    returns on one of them. *)
Inductive reachable (embed_api : nat -> Py.str -> option (list float))
  : RAGPipeline.t -> Prop :=
| reachable_new : reachable embed_api RAGPipeline.new
| reachable_initialize self documents w w' self' :
    reachable embed_api self ->
    RAGPipeline.initialize embed_api self documents w = (w', inr self') ->
    reachable embed_api self'.






Definition two_levels (results : list Retrieved.t) : Prop :=
  Forall (fun r => Retrieved.similarity r = 1%float \/
                   Retrieved.similarity r = 0.5%float) results.

(** *** Data of the examples *)

(** A document whose every window of three characters is cut back at a
    full stop. *)
Definition doc_full_stops : Document.t :=
  Document.mk (Py.lit "a.a.a.a.a.a.") (Py.lit "stops.txt") (Py.lit "text") [].

(** A document without a sentence boundary. *)
Definition doc_plain : Document.t :=
  Document.mk (Py.lit "abcdefghij") (Py.lit "plain.txt") (Py.lit "text") [].

Definition chunk_alpha : Chunk.t :=
  Chunk.mk (Py.lit "alpha") (Py.lit "a.txt") 0 0 1000 [].

Definition chunk_beta : Chunk.t :=
  Chunk.mk (Py.lit "beta") (Py.lit "b.txt") 0 0 1000 [].

(** A store of one chunk, with the embedding [[1.0]]. *)
Definition store_one : SimpleVectorStore.t :=
  SimpleVectorStore.mk [[1%float]] [chunk_alpha] [[]].

(** The store [add_chunks] builds from two chunks and no embeddings:
    placeholders only. *)
Definition store_basic : SimpleVectorStore.t :=
  SimpleVectorStore.add_chunks SimpleVectorStore.empty
    [chunk_alpha; chunk_beta] [].

(** A store of three chunks with vectors of length two. *)
Definition store_three : SimpleVectorStore.t :=
  SimpleVectorStore.add_chunks SimpleVectorStore.empty
    [chunk_alpha; chunk_beta; chunk_beta]
    [Some [1; 0]; Some [0; 1]; Some [-1; 0]]%float.

(** A service whose first request fails and whose later requests answer
    [[1.0]]. *)
Definition api_first_fails : nat -> Py.str -> option (list float) :=
  fun n _ => match n with O => None | S _ => Some [1%float] end.

(** A service that fails twice and then answers with vectors of length
    two. *)
Definition api_recovers : nat -> Py.str -> option (list float) :=
  fun n _ =>
    match n with
    | O | S O => None
    | _ => Some [1; 0]%float
    end.

(** A service that always fails. *)
Definition api_down : nat -> Py.str -> option (list float) :=
  fun _ _ => None.

Definition doc_alpha : Document.t :=
  Document.mk (Py.lit "alpha") (Py.lit "a.txt") (Py.lit "text") [].

Definition doc_beta : Document.t :=
  Document.mk (Py.lit "beta") (Py.lit "b.txt") (Py.lit "text") [].

(** A chat service that always raises. *)
Definition chat_down : nat -> Py.str -> Py.str + Py.str :=
  fun _ _ => inl (Py.lit "connection refused").

(** A pipeline that [initialize] left in basic mode, with two chunks. *)
Definition pipeline_basic : RAGPipeline.t :=
  {| RAGPipeline.text_chunker := TextChunker.default;
     RAGPipeline.vector_store := store_basic;
     RAGPipeline.is_initialized := true |}.

(** A service that answers every request with a vector of the length
    of the model, 1536 ones. *)
Definition api_ones : nat -> Py.str -> option (list float) :=
  fun _ _ => Some (repeat 1%float 1536).

(** The pipeline [initialize] returns for [doc_alpha] and [doc_beta]
    with that service: two chunks, each with its vector. *)
Definition pipeline_ones : RAGPipeline.t :=
  {| RAGPipeline.text_chunker := TextChunker.default;
     RAGPipeline.vector_store :=
       SimpleVectorStore.add_chunks SimpleVectorStore.empty
         [chunk_alpha; chunk_beta]
         [Some (repeat 1%float 1536); Some (repeat 1%float 1536)];
     RAGPipeline.is_initialized := true |}.

(** Three passages: the question "The Sky", lower-cased, occurs in
    [chunk_sky]; its token "the" occurs in [chunk_sea]; neither it nor
    a token of it occurs in [chunk_grass]. *)
Definition chunk_grass : Chunk.t :=
  Chunk.mk (Py.lit "Grass is green.") (Py.lit "g.txt") 0 0 1000 [].

Definition chunk_sky : Chunk.t :=
  Chunk.mk (Py.lit "The sky is blue.") (Py.lit "s.txt") 0 0 1000 [].

Definition chunk_sea : Chunk.t :=
  Chunk.mk (Py.lit "Over the sea.") (Py.lit "o.txt") 0 0 1000 [].

Definition pipeline_three : RAGPipeline.t :=
  {| RAGPipeline.text_chunker := TextChunker.default;
     RAGPipeline.vector_store :=
       SimpleVectorStore.add_chunks SimpleVectorStore.empty
         [chunk_grass; chunk_sea; chunk_sky] [];
     RAGPipeline.is_initialized := true |}.

(** *** Further vocabulary: chunks *)

(** One of the three characters at which a window may be cut. *)
Definition is_boundary (c : ascii) : Prop :=
  c = "."%char \/ c = "!"%char \/ c = "?"%char.

(** What every chunk cut from [document] by a chunker [self] has: the
    source and the metadata of the document, a start inside the
    content, the end of the window that starts there, and as content
    the stripped text of that window, which is not empty. *)
Definition chunk_of (self : TextChunker.t) (document : Document.t)
    (chunk : Chunk.t) : Prop :=
  Chunk.source chunk = Document.source document /\
  Chunk.metadata chunk = Document.metadata document /\
  0 <= Chunk.start_char chunk < Py.len (Document.content document) /\
  Chunk.end_char chunk
    = TextChunker.window_end self document (Chunk.start_char chunk) /\
  Chunk.content chunk
    = Py.strip (Py.slice (Document.content document)
                  (Chunk.start_char chunk) (Chunk.end_char chunk)) /\
  Chunk.content chunk <> [].

(** The invariant of the chunking loop: [start] is not negative; the
    chunks made so far are chunks of the document, numbered from 0 in
    the order they were made, at strictly increasing starts, all of
    them before [start]. *)
Definition chunks_so_far (self : TextChunker.t) (document : Document.t)
    (start : Z) (chunks : list Chunk.t) : Prop :=
  0 <= start /\
  Forall (chunk_of self document) chunks /\
  map Chunk.chunk_id chunks = map Z.of_nat (seq 0 (length chunks)) /\
  StronglySorted Z.lt (map Chunk.start_char chunks) /\
  Forall (fun chunk => Chunk.start_char chunk < start) chunks.

(** A document of ten characters with a full stop in the middle. *)
Definition doc_two_parts : Document.t :=
  Document.mk (Py.lit "ab. cdefgh") (Py.lit "parts.txt") (Py.lit "text")
    [(Py.lit "filename", MStr (Py.lit "parts.txt"))].

(** A document of white space only. *)
Definition doc_blank : Document.t :=
  Document.mk (Py.lit "   ") (Py.lit "blank.txt") (Py.lit "text") [].

(** A service that answers every request with [[1.0; 2.0]]. *)
Definition api_up : nat -> Py.str -> option (list float) :=
  fun _ _ => Some [1; 2]%float.

(** A chat service that answers every prompt with the same text. *)
Definition chat_up : nat -> Py.str -> Py.str + Py.str :=
  fun _ _ => inr (Py.lit "  Alpha is the first letter. ").

(** *** Further vocabulary: the pipeline *)

(** The prompt [generate_response] builds for a question and retrieved
    entries. *)
Definition prompt_for (question : Py.str) (retrieved : list Retrieved.t)
  : Py.str :=
  RAGPipeline.prompt_of question
    (Py.join (Py.nl ++ Py.nl) (RAGPipeline.context_parts 1 retrieved)).

(** The world after one request to the chat service. *)
Definition after_chat (w : World) (prompt : Py.str) : World :=
  {| embed_calls := embed_calls w;
     chat_calls := S (chat_calls w);
     trace := trace w ++ [EvChat prompt] |}.

(** The world after [query] has asked for the embedding of the question
    and called the store's [search]. *)
Definition after_vector_search (w : World) (question : Py.str)
    (question_embedding : list float) (top_k : Z) : World :=
  {| embed_calls := S (embed_calls w);
     chat_calls := chat_calls w;
     trace := trace w ++ [EvEmbed question;
                          EvVectorSearch question_embedding top_k] |}.

(** The world after [query] has asked for the embedding of the question
    and called [_basic_text_search]. *)
Definition after_text_search (w : World) (question : Py.str) (top_k : Z)
  : World :=
  {| embed_calls := S (embed_calls w);
     chat_calls := chat_calls w;
     trace := trace w ++ [EvEmbed question; EvTextSearch question top_k] |}.

(** The entries [query] makes of the results of [search]. *)
Definition entries_of (results : list (Chunk.t * float)) : list Retrieved.t :=
  map (fun '(chunk, score) => RAGPipeline.entry chunk score) results.

(** An entry is well formed for a store: its chunk is stored, and its
    content and source are the chunk's. *)
Definition entry_of_store (self : SimpleVectorStore.t) (r : Retrieved.t)
  : Prop :=
  In (Retrieved.chunk r) (SimpleVectorStore.chunks self) /\
  Retrieved.content r = Chunk.content (Retrieved.chunk r) /\
  Retrieved.source r = Chunk.source (Retrieved.chunk r).

(** *** document_loader.py *)

(** A path that [data_dir.rglob('*')] yields, by what the loader reads
    of it: [str(file_path)], [file_path.name] and [file_path.suffix]. *)
Module FilePath.
Record t : Type := mk {
  text : Py.str;
  name : Py.str;
  suffix : Py.str
}.
End FilePath.

(** The files behind the loader: the paths under [data_dir] in the
    order [rglob] yields them, and what the three readers give for a
    path, [None] standing for an exception.
    - [read_text]: [open(path, 'r', encoding='utf-8').read()];
    - [pdf_pages]: the pages of [PdfReader(path)], each with what its
      [extract_text()] gives;
    - [docx_paragraphs]: the [text] of each paragraph of
      [Document(path)]. *)
Module Files.
Record t : Type := mk {
  listing : list FilePath.t;
  read_text : FilePath.t -> option Py.str;
  pdf_pages : FilePath.t -> option (list (option Py.str));
  docx_paragraphs : FilePath.t -> option (list Py.str)
}.
End Files.

Module DocumentLoader.

(** [self.supported_extensions] *)
Definition supported_extensions : list Py.str :=
  [Py.lit ".txt"; Py.lit ".pdf"; Py.lit ".docx"].

(** Equality of two strings. *)
Definition str_eqb (a b : Py.str) : bool :=
  if list_eq_dec Ascii.ascii_dec a b then true else false.

(** [x in self.supported_extensions] *)
Definition supported (x : Py.str) : bool :=
  existsb (str_eqb x) supported_extensions.

Section WithFiles.
Variable files : Files.t.

Definition _load_text_file (file_path : FilePath.t) : option Document.t :=
  match Files.read_text files file_path with
  | None => None
  | Some content =>
      Some {| Document.content := content;
              Document.source := FilePath.text file_path;
              Document.type := Py.lit "text";
              Document.metadata :=
                [(Py.lit "filename", MStr (FilePath.name file_path));
                 (Py.lit "size", MInt (Py.len content))] |}
  end.

(** The loop of [_load_pdf_file] over the pages, [page_num] being the
    index of the first page of [pages]; [None] when [extract_text]
    raises. *)
Fixpoint pdf_content (page_num : nat) (pages : list (option Py.str))
    (content : Py.str) : option Py.str :=
  match pages with
  | [] => Some content
  | None :: _ => None
  | Some page_text :: rest =>
      pdf_content (S page_num) rest
        (if Py.nonempty page_text
         then content ++ Py.nl ++ Py.lit "--- Page "
                ++ Py.str_of_nat (page_num + 1) ++ Py.lit " ---" ++ Py.nl
                ++ page_text ++ Py.nl
         else content)
  end.

Definition _load_pdf_file (file_path : FilePath.t) : option Document.t :=
  match Files.pdf_pages files file_path with
  | None => None
  | Some pages =>
      match pdf_content 0 pages [] with
      | None => None
      | Some content =>
          if negb (Py.nonempty (Py.strip content)) then None
          else
            Some {| Document.content := Py.strip content;
                    Document.source := FilePath.text file_path;
                    Document.type := Py.lit "pdf";
                    Document.metadata :=
                      [(Py.lit "filename", MStr (FilePath.name file_path));
                       (Py.lit "pages", MInt (Py.len pages));
                       (Py.lit "size", MInt (Py.len content))] |}
      end
  end.

(** The loop of [_load_docx_file] over the paragraphs. *)
Fixpoint docx_content (paragraphs : list Py.str) (content : Py.str)
  : Py.str :=
  match paragraphs with
  | [] => content
  | text :: rest =>
      docx_content rest
        (if Py.nonempty (Py.strip text) then content ++ text ++ Py.nl
         else content)
  end.

Definition _load_docx_file (file_path : FilePath.t) : option Document.t :=
  match Files.docx_paragraphs files file_path with
  | None => None
  | Some paragraphs =>
      let content := docx_content paragraphs [] in
      if negb (Py.nonempty (Py.strip content)) then None
      else
        Some {| Document.content := Py.strip content;
                Document.source := FilePath.text file_path;
                Document.type := Py.lit "docx";
                Document.metadata :=
                  [(Py.lit "filename", MStr (FilePath.name file_path));
                   (Py.lit "paragraphs", MInt (Py.len paragraphs));
                   (Py.lit "size", MInt (Py.len content))] |}
  end.

(** The dispatch on the lower-cased suffix; [None] for an exception of
    the reader and for any other suffix. *)
Definition _load_single_document (file_path : FilePath.t)
  : option Document.t :=
  let suffix := Py.lower (FilePath.suffix file_path) in
  if str_eqb suffix (Py.lit ".txt") then _load_text_file file_path
  else if str_eqb suffix (Py.lit ".pdf") then _load_pdf_file file_path
  else if str_eqb suffix (Py.lit ".docx") then _load_docx_file file_path
  else None.

(** The loop of [load_documents] over the paths. *)
Fixpoint load_paths (paths : list FilePath.t) : list Document.t :=
  match paths with
  | [] => []
  | file_path :: rest =>
      if supported (Py.lower (FilePath.suffix file_path)) then
        match _load_single_document file_path with
        | Some doc => doc :: load_paths rest
        | None => load_paths rest
        end
      else load_paths rest
  end.

Definition load_documents : list Document.t :=
  load_paths (Files.listing files).

End WithFiles.

End DocumentLoader.

(** *** Further vocabulary: loaded documents *)

(** The type the loader gives a document, by the lower-cased suffix of
    its path. *)
Definition type_of_suffix (suffix_lower doc_type : Py.str) : Prop :=
  (suffix_lower = Py.lit ".txt" /\ doc_type = Py.lit "text") \/
  (suffix_lower = Py.lit ".pdf" /\ doc_type = Py.lit "pdf") \/
  (suffix_lower = Py.lit ".docx" /\ doc_type = Py.lit "docx").

(** The value of a key in a metadata list. *)
Fixpoint meta_get (key : Py.str) (metadata : Metadata) : option MetaValue :=
  match metadata with
  | [] => None
  | (k, v) :: rest =>
      if DocumentLoader.str_eqb k key then Some v else meta_get key rest
  end.

(** Files for the examples: a text file, a file with an upper-case
    suffix whose reader raises, a PDF of two pages of which the first
    has no text, a file of another kind, and a blank text file. *)
Definition path_notes : FilePath.t :=
  FilePath.mk (Py.lit "data/notes.txt") (Py.lit "notes.txt") (Py.lit ".txt").

Definition path_broken : FilePath.t :=
  FilePath.mk (Py.lit "data/broken.TXT") (Py.lit "broken.TXT") (Py.lit ".TXT").

Definition path_paper : FilePath.t :=
  FilePath.mk (Py.lit "data/paper.PDF") (Py.lit "paper.PDF") (Py.lit ".PDF").

Definition path_image : FilePath.t :=
  FilePath.mk (Py.lit "data/image.png") (Py.lit "image.png") (Py.lit ".png").

Definition path_blank : FilePath.t :=
  FilePath.mk (Py.lit "data/blank.txt") (Py.lit "blank.txt") (Py.lit ".txt").

Definition files_example : Files.t :=
  {| Files.listing :=
       [path_notes; path_broken; path_paper; path_image; path_blank];
     Files.read_text := fun p =>
       if DocumentLoader.str_eqb (FilePath.name p) (Py.lit "notes.txt")
       then Some (Py.lit "The sky is blue. ")
       else if DocumentLoader.str_eqb (FilePath.name p) (Py.lit "blank.txt")
       then Some (Py.lit "  ")
       else None;
     Files.pdf_pages := fun _ => Some [Some []; Some (Py.lit "Grass. ")];
     Files.docx_paragraphs := fun _ => None |}.

(** *** main.py *)

Module Main.

(** How [main] ends: by the input "quit"; by the [EOFError] of
    [input()] when no line is left, which [main] does not catch; or by
    an exception of the pipeline, which it does not catch either. *)
Inductive ending : Type :=
| Quit
| EndOfInput
| Raised (e : exn).

Section WithServices.
Variable embed_api : nat -> Py.str -> option (list float).
Variable chat_api : nat -> Py.str -> Py.str + Py.str.
Variable argsort : list float -> list nat.

(** The [while True] loop over the lines [input()] returns.  What is
    printed is left out; the results of [rag.query] are returned in
    their place, in order. *)
Fixpoint loop (rag : RAGPipeline.t) (lines : list Py.str)
  : World -> World * (ending * list QueryResponse.t) :=
  fun w =>
    match lines with
    | [] => (w, (EndOfInput, []))
    | line :: rest =>
        let question := Py.strip line in
        if DocumentLoader.str_eqb (Py.lower question) (Py.lit "quit")
        then (w, (Quit, []))
        else if Py.nonempty question then
          match RAGPipeline.query embed_api chat_api argsort rag question 5 w
          with
          | (w', inl e) => (w', (Raised e, []))
          | (w', inr result) =>
              let '(w'', (how, results)) := loop rag rest w' in
              (w'', (how, result :: results))
          end
        else loop rag rest w
    end.

(** [main()], for the files under "data" and the lines typed, from
    [rag.initialize()] on.  The constructor [RAGPipeline("data")],
    which builds the clients of the two services, is not part of the
    model: [RAGPipeline.new] is the object it returns. *)
Definition main (files : Files.t) (lines : list Py.str)
  : World -> World * (ending * list QueryResponse.t) :=
  fun w =>
    match RAGPipeline.initialize embed_api RAGPipeline.new
            (DocumentLoader.load_documents files) w with
    | (w', inl e) => (w', (Raised e, []))
    | (w', inr rag) => loop rag lines w'
    end.

End WithServices.

End Main.

(** *** Further vocabulary: the command line *)

(** A line that ends the loop of [main]. *)
Definition is_quit (line : Py.str) : bool :=
  DocumentLoader.str_eqb (Py.lower (Py.strip line)) (Py.lit "quit").

(** The questions [main] puts to the pipeline when nothing raises: the
    stripped lines before the first quit line that are not empty. *)
Fixpoint asked (lines : list Py.str) : list Py.str :=
  match lines with
  | [] => []
  | line :: rest =>
      if is_quit line then []
      else if Py.nonempty (Py.strip line) then Py.strip line :: asked rest
      else asked rest
  end.

(** The invariant of the chunking loop for what the windows cover:
    every character before [start] that is no white space lies in the
    window of one of the chunks made so far. *)
Definition covered_so_far (document : Document.t) (start : Z)
    (chunks : list Chunk.t) : Prop :=
  0 <= start /\
  forall p c,
    Z.of_nat p < start ->
    nth_error (Document.content document) p = Some c ->
    Py.isspace c = false ->
    exists chunk,
      In chunk chunks /\
      Chunk.start_char chunk <= Z.of_nat p < Chunk.end_char chunk.

(* ================================================================== *)
(** ** Part II. Properties                                             *)
(* ================================================================== *)

(** *** The string operations on examples *)

Example lower_example :
  Py.lower (Py.lit "The SKY, 42!") = Py.lit "the sky, 42!".
Proof. reflexivity. Qed.

Example split_example :
  Py.split (Py.lit "  the   sky is ") = [Py.lit "the"; Py.lit "sky"; Py.lit "is"].
Proof. reflexivity. Qed.

Example strip_example :
  Py.strip (Py.lit "  The sky. ") = Py.lit "The sky.".
Proof. reflexivity. Qed.

Example contains_example :
  Py.contains (Py.lit "sky") (Py.lit "the sky is") = true /\
  Py.contains (Py.lit "sea") (Py.lit "the sky is") = false.
Proof. split; reflexivity. Qed.

Example str_of_nat_example :
  Py.str_of_nat 0 = Py.lit "0" /\ Py.str_of_nat 12 = Py.lit "12".
Proof. split; reflexivity. Qed.

Example rfind_example :
  Py.rfind (Py.lit "a.b.c") "."%char 0 4 = 3 /\
  Py.rfind (Py.lit "a.b.c") "."%char 0 3 = 1 /\
  Py.rfind (Py.lit "a.b.c") "!"%char 0 5 = -1.
Proof. repeat split; reflexivity. Qed.

Example slice_example :
  Py.slice (Py.lit "abcdef") 2 100 = Py.lit "cdef" /\
  Py.slice_to [1; 2; 3] 2 = [1; 2] /\
  Py.slice_to [1; 2; 3] 0 = [] /\
  Py.slice_from [1; 2; 3] (- 2) = [2; 3] /\
  Py.slice_from [1; 2; 3] (- 0) = [1; 2; 3].
Proof. repeat split; reflexivity. Qed.

(** The chunks of the two-sentence document of the end-to-end scenario,
    with [chunk_size = 20] and [chunk_overlap = 5]. *)
Example split_two_sentences :
  map Chunk.content
    (TextChunker._split_single_document (TextChunker.mk 20 5)
       (Document.mk (Py.lit "The sky is blue. The grass is green.")
          (Py.lit "sky.txt") (Py.lit "text") []))
  = [Py.lit "The sky is blue."; Py.lit "blue."; Py.lit "lue.";
     Py.lit "ue."; Py.lit "e."; Py.lit ". The grass is green";
     Py.lit "green."].
Proof. vm_compute. reflexivity. Qed.

(** *** The chunking loop *)

Section ChunkerFacts.
Variable self : TextChunker.t.
Variable document : Document.t.

Let content := Document.content document.

Lemma loop_unfold fuel start chunks passes :
  TextChunker.loop self document fuel start chunks passes =
  if start <? Py.len content then
    match fuel with
    | O => None
    | S fuel' =>
        TextChunker.loop self document fuel'
          (fst (TextChunker.loop_body self document start chunks))
          (snd (TextChunker.loop_body self document start chunks))
          (S passes)
    end
  else Some (chunks, passes).
Proof. destruct fuel; reflexivity. Qed.

(** The [max(start + 1, ...)] guard: every pass moves [start] forward. *)
Lemma loop_body_advances start chunks :
  start + 1 <= fst (TextChunker.loop_body self document start chunks).
Proof. unfold TextChunker.loop_body; simpl; lia. Qed.

(** Fuel that covers the distance to the end of the content is enough,
    and the passes made are at most that distance. *)
Lemma loop_enough_fuel fuel : forall start chunks passes,
  Py.len content - start <= Z.of_nat fuel ->
  exists chunks' n,
    TextChunker.loop self document fuel start chunks passes
      = Some (chunks', n) /\
    Z.of_nat n <= Z.of_nat passes + Z.max 0 (Py.len content - start).
Proof.
  induction fuel as [|fuel IH]; intros start chunks passes Hfuel;
    rewrite loop_unfold.
  - destruct (Z.ltb_spec start (Py.len content)); [lia|].
    exists chunks, passes; split; [reflexivity | lia].
  - destruct (Z.ltb_spec start (Py.len content)) as [Hlt|Hge].
    + pose proof (loop_body_advances start chunks) as Hadv.
      destruct (IH (fst (TextChunker.loop_body self document start chunks))
                   (snd (TextChunker.loop_body self document start chunks))
                   (S passes)) as (chunks' & n & Hrun & Hn); [lia|].
      exists chunks', n; split; [exact Hrun | lia].
    + exists chunks, passes; split; [reflexivity | lia].
Qed.

(** A character that does not occur is not found. *)
Lemma rfind_aux_absent c s : forall i lo hi acc,
  ~ In c s -> Py.rfind_aux c s i lo hi acc = acc.
Proof.
  induction s as [|x s IH]; intros i lo hi acc Hnot; simpl; [reflexivity|].
  rewrite IH by (intro; apply Hnot; now right).
  destruct (Ascii.eqb_spec x c) as [->|_].
  - exfalso; apply Hnot; now left.
  - now rewrite andb_false_r.
Qed.

Lemma rfind_absent c s start end_ :
  ~ In c s -> Py.rfind s c start end_ = -1.
Proof. intro H; unfold Py.rfind; now apply rfind_aux_absent. Qed.

Lemma window_end_no_boundary start :
  no_boundary content -> 0 <= start ->
  TextChunker.window_end self document start
    = start + TextChunker.chunk_size self.
Proof.
  intros (Hp & He & Hq) Hstart; unfold TextChunker.window_end.
  fold content.
  rewrite !rfind_absent by assumption.
  destruct (_ <? Py.len content); [|reflexivity].
  destruct (Z.ltb_spec start (Z.max (Z.max (-1) (-1)) (-1))); [lia|reflexivity].
Qed.

Lemma ceil_div_step x d :
  0 < d -> 1 <= x -> ceil_div x d = 1 + Z.max 0 (ceil_div (x - d) d).
Proof.
  intros Hd Hx; unfold ceil_div.
  replace (x + d - 1) with (x - d + d - 1 + 1 * d) by lia.
  rewrite Z.div_add by lia.
  assert (0 <= (x - d + d - 1) / d) by (apply Z.div_pos; lia).
  lia.
Qed.

Lemma ceil_div_nonpos x d : 0 < d -> x <= 0 -> ceil_div x d <= 0.
Proof.
  intros Hd Hx; unfold ceil_div.
  assert ((x + d - 1) / d < 1); [|lia].
  apply Z.div_lt_upper_bound; lia.
Qed.

(** Without a sentence boundary every pass moves [start] by
    [chunk_size - chunk_overlap], so the passes are counted exactly. *)
Lemma loop_no_boundary_count fuel : forall start chunks passes chunks' n,
  no_boundary content ->
  0 < TextChunker.chunk_size self - TextChunker.chunk_overlap self ->
  0 <= start ->
  TextChunker.loop self document fuel start chunks passes
    = Some (chunks', n) ->
  Z.of_nat n =
    Z.of_nat passes +
    Z.max 0 (ceil_div (Py.len content - start)
               (TextChunker.chunk_size self - TextChunker.chunk_overlap self)).
Proof.
  induction fuel as [|fuel IH]; intros start chunks passes chunks' n Hnb Hd Hs;
    rewrite loop_unfold;
    destruct (Z.ltb_spec start (Py.len content)) as [Hlt|Hge];
    try discriminate.
  - intros [= _ <-].
    pose proof (ceil_div_nonpos (Py.len content - start) _ Hd); lia.
  - intro Hrun. apply IH in Hrun; try assumption.
    + rewrite Hrun.
      unfold TextChunker.loop_body; cbn [fst].
      rewrite window_end_no_boundary by assumption.
      rewrite (ceil_div_step (Py.len content - start)) by lia.
      replace (Z.max (start + 1)
                 (start + TextChunker.chunk_size self
                  - TextChunker.chunk_overlap self))
        with (start + (TextChunker.chunk_size self
                       - TextChunker.chunk_overlap self)) by lia.
      replace (Py.len content
               - (start + (TextChunker.chunk_size self
                           - TextChunker.chunk_overlap self)))
        with (Py.len content - start
              - (TextChunker.chunk_size self
                 - TextChunker.chunk_overlap self)) by lia.
      lia.
    + pose proof (loop_body_advances start chunks); lia.
  - intros [= _ <-].
    pose proof (ceil_div_nonpos (Py.len content - start) _ Hd); lia.
Qed.

End ChunkerFacts.

(** C4, as the claim states it, fails: with [chunk_size = 3] and
    [chunk_overlap = 0] the twelve characters of [doc_full_stops] take
    six passes of the loop, one more than [ceil(12 / 3) + 1 = 5],
    because every full window is cut back to two characters. *)
Lemma chunk_bound_counterexample :
  1 <= TextChunker.chunk_size (TextChunker.mk 3 0) /\
  0 <= TextChunker.chunk_overlap (TextChunker.mk 3 0)
    < TextChunker.chunk_size (TextChunker.mk 3 0) /\
  TextChunker.iterations (TextChunker.mk 3 0) doc_full_stops = Some 6%nat /\
  ceil_div (Py.len (Document.content doc_full_stops)) (3 - 0) + 1 < 6.
Proof. vm_compute. repeat split; try discriminate; reflexivity. Qed.

(** C4, amended: for every content and every configuration the chunking
    loop of [_split_single_document] terminates after at most
    [len(content)] passes (each pass moves [start] forward by at least
    one); and when [chunk_size >= 1], [0 <= chunk_overlap < chunk_size]
    and the content holds no ".", "!" or "?", so that no window is cut
    back, it makes exactly [ceil(len(content) / (chunk_size -
    chunk_overlap))] passes. *)
Theorem chunk_loop_terminates (self : TextChunker.t) (document : Document.t) :
  exists chunks n,
    TextChunker.run self document = Some (chunks, n) /\
    TextChunker.iterations self document = Some n /\
    TextChunker._split_single_document self document = chunks /\
    (n <= length (Document.content document))%nat /\
    (1 <= TextChunker.chunk_size self ->
     0 <= TextChunker.chunk_overlap self < TextChunker.chunk_size self ->
     no_boundary (Document.content document) ->
     Z.of_nat n =
       ceil_div (Py.len (Document.content document))
         (TextChunker.chunk_size self - TextChunker.chunk_overlap self)).
Proof.
  destruct (loop_enough_fuel self document
              (length (Document.content document)) 0 [] 0)
    as (chunks & n & Hrun & Hn); [unfold Py.len; lia|].
  exists chunks, n.
  unfold TextChunker.iterations, TextChunker._split_single_document,
    TextChunker.run.
  rewrite Hrun; repeat split; try reflexivity.
  - unfold Py.len in Hn; lia.
  - intros Hcs Hov Hnb.
    apply loop_no_boundary_count in Hrun; try assumption; try lia.
    rewrite Hrun.
    assert (0 <= ceil_div (Py.len (Document.content document) - 0)
                   (TextChunker.chunk_size self
                    - TextChunker.chunk_overlap self)).
    { unfold ceil_div, Py.len. apply Z.div_pos; lia. }
    rewrite Z.sub_0_r in *. lia.
Qed.

(** The amended C4 at [doc_plain], ten characters without a boundary,
    with [chunk_size = 4] and [chunk_overlap = 1]: four passes. *)
Lemma chunk_loop_terminates_witness :
  exists chunks n,
    TextChunker.run (TextChunker.mk 4 1) doc_plain = Some (chunks, n) /\
    (n <= 10)%nat /\ Z.of_nat n = 4.
Proof.
  destruct (chunk_loop_terminates (TextChunker.mk 4 1) doc_plain)
    as (chunks & n & Hrun & _ & _ & Hle & Hexact).
  exists chunks, n. split; [exact Hrun|]. split; [exact Hle|].
  rewrite Hexact.
  - reflexivity.
  - simpl; lia.
  - simpl; lia.
  - unfold no_boundary, doc_plain; simpl.
    repeat split; intro H; repeat (destruct H as [H|H]; [discriminate H|]);
      exact H.
Defined.

(** *** The order of floats that sorting uses *)

Lemma sfle_trans a b c :
  sfle a b = true -> sfle b c = true -> sfle a c = true.
Proof.
  unfold sfle, SFleb, SFcompare.
  destruct a as [sa|sa| |sa ma ea], b as [sb|sb| |sb mb eb],
    c as [sc|sc| |sc mc ec];
    try destruct sa; try destruct sb; try destruct sc;
    try (intros; congruence); try reflexivity.
  all: change (PosDef.Pos.compare_cont Eq) with Pos.compare.
  all: destruct (Z.compare_spec ea eb); destruct (Z.compare_spec eb ec);
    destruct (Z.compare_spec ea ec); try lia; try congruence;
    destruct (Pos.compare_spec ma mb); destruct (Pos.compare_spec mb mc);
    destruct (Pos.compare_spec ma mc); simpl; try lia; try congruence.
Qed.

Lemma sfle_total a b : sfle a b = true \/ sfle b a = true.
Proof.
  unfold sfle, SFleb, SFcompare.
  destruct a as [sa|sa| |sa ma ea], b as [sb|sb| |sb mb eb];
    try destruct sa; try destruct sb; auto.
  all: change (PosDef.Pos.compare_cont Eq) with Pos.compare.
  all: rewrite (Z.compare_antisym ea eb), (Pos.compare_antisym ma mb);
    destruct (ea ?= eb)%Z; simpl; auto;
    destruct (ma ?= mb)%positive; simpl; auto.
Qed.

Lemma is_nan_SF x :
  PrimFloat.is_nan x =
  match Prim2SF x with S754_nan => true | _ => false end.
Proof.
  unfold PrimFloat.is_nan. rewrite eqb_spec. unfold SFeqb, SFcompare.
  destruct (Prim2SF x) as [s|s| |s m e]; try destruct s; try reflexivity.
  all: change (PosDef.Pos.compare_cont Eq) with Pos.compare;
    rewrite Z.compare_refl, Pos.compare_refl; reflexivity.
Qed.

Lemma fle_sfle x y : fle x y = sfle (Prim2SF x) (Prim2SF y).
Proof.
  unfold fle, sfle. rewrite is_nan_SF, leb_spec.
  destruct (Prim2SF y); reflexivity.
Qed.

Lemma fle_trans x y z : fle x y = true -> fle y z = true -> fle x z = true.
Proof. rewrite !fle_sfle. apply sfle_trans. Qed.

Lemma fle_total x y : fle x y = true \/ fle y x = true.
Proof. rewrite !fle_sfle. apply sfle_total. Qed.

(** A value that is greater than zero is not NaN, and anything that
    follows it in the ascending order is greater than zero or NaN. *)
Lemma fle_pos x y :
  (0 <? x)%float = true -> fle x y = true ->
  (0 <? y)%float = true \/ PrimFloat.is_nan y = true.
Proof.
  rewrite fle_sfle, !ltb_spec, is_nan_SF.
  unfold sfle, SFleb, SFltb, SFcompare.
  change (Prim2SF 0) with (S754_zero false).
  destruct (Prim2SF x) as [sa|sa| |sa ma ea], (Prim2SF y) as [sb|sb| |sb mb eb];
    try destruct sa; try destruct sb; simpl; auto; try discriminate.
Qed.

(** *** The insertion sort meets the contract of [argsort] *)

Section ArgsortFacts.
Variable xs : list float.

Let R (i j : nat) : Prop := fle (nth i xs nan) (nth j xs nan) = true.

Lemma insert_index_perm i l : Permutation (insert_index xs i l) (i :: l).
Proof.
  induction l as [|j l IH]; simpl; [reflexivity|].
  destruct (fle _ _); [reflexivity|].
  rewrite IH. apply perm_swap.
Qed.

Lemma insert_index_sorted i l :
  StronglySorted R l -> StronglySorted R (insert_index xs i l).
Proof.
  induction 1 as [|j l Hs IH Hall]; simpl.
  - repeat constructor.
  - destruct (fle (nth i xs nan) (nth j xs nan)) eqn:Hij.
    + constructor; [constructor; assumption|].
      constructor; [exact Hij|].
      eapply Forall_impl; [|exact Hall].
      intros k Hjk. unfold R in *. eapply fle_trans; eassumption.
    + constructor; [exact IH|].
      apply (Permutation_Forall (Permutation_sym (insert_index_perm i l))).
      constructor; [|exact Hall].
      destruct (fle_total (nth i xs nan) (nth j xs nan)) as [H|H];
        [congruence | exact H].
Qed.

End ArgsortFacts.

Lemma stable_argsort_meets_spec : argsort_spec stable_argsort.
Proof.
  intro xs; unfold stable_argsort.
  induction (seq 0 (length xs)) as [|i l [IHp IHs]]; simpl.
  - split; constructor.
  - split.
    + rewrite insert_index_perm. now constructor.
    + now apply insert_index_sorted.
Qed.

(** *** Strongly sorted lists *)

Section SortedFacts.
Context {A : Type}.
Implicit Types R : A -> A -> Prop.

Lemma StronglySorted_app R l1 l2 :
  StronglySorted R l1 -> StronglySorted R l2 ->
  (forall x y, In x l1 -> In y l2 -> R x y) ->
  StronglySorted R (l1 ++ l2).
Proof.
  induction 1 as [|x l1 Hs IH Hall]; intros H2 Hcross; simpl; [exact H2|].
  constructor.
  - apply IH; [exact H2|]. intros; apply Hcross; [now right | assumption].
  - apply Forall_app; split; [exact Hall|].
    apply Forall_forall; intros y Hy. apply Hcross; [now left | exact Hy].
Qed.

Lemma StronglySorted_skipn R n : forall l,
  StronglySorted R l -> StronglySorted R (skipn n l).
Proof.
  induction n as [|n IH]; intros l Hs; [exact Hs|].
  destruct l as [|x l]; [exact Hs|].
  simpl. apply IH. now inversion Hs.
Qed.

Lemma StronglySorted_filter R f l :
  StronglySorted R l -> StronglySorted R (filter f l).
Proof.
  induction 1 as [|x l Hs IH Hall]; simpl; [constructor|].
  destruct (f x); [|exact IH].
  constructor; [exact IH|].
  apply Forall_forall; intros y Hy. apply filter_In in Hy as [Hy _].
  rewrite Forall_forall in Hall. now apply Hall.
Qed.

Lemma StronglySorted_rev R l :
  StronglySorted R l -> StronglySorted (fun x y => R y x) (rev l).
Proof.
  induction 1 as [|x l Hs IH Hall]; simpl; [constructor|].
  apply StronglySorted_app; [exact IH | repeat constructor |].
  intros a b Ha [<-|[]]. apply in_rev in Ha.
  rewrite Forall_forall in Hall. now apply Hall.
Qed.

Lemma StronglySorted_weaken R R' (P : A -> Prop) l :
  (forall x y, P x -> P y -> R x y -> R' x y) ->
  Forall P l -> StronglySorted R l -> StronglySorted R' l.
Proof.
  intros Himp HP. induction 1 as [|x l Hs IH Hall]; [constructor|].
  inversion HP as [|? ? Px Pl]; subst.
  constructor; [now apply IH|].
  rewrite Forall_forall in *. intros y Hy. apply Himp; auto.
Qed.

End SortedFacts.

Lemma StronglySorted_map {A B} (f : A -> B) (R : B -> B -> Prop) l :
  StronglySorted (fun x y => R (f x) (f y)) l ->
  StronglySorted R (map f l).
Proof.
  induction 1 as [|x l Hs IH Hall]; simpl; constructor; [exact IH|].
  now apply Forall_map.
Qed.

(** *** Slices *)

Lemma slice_to_firstn {A} (l : list A) k :
  0 <= k -> Py.slice_to l k = firstn (Z.to_nat k) l.
Proof.
  intro Hk; unfold Py.slice_to, Py.clamp, Py.len.
  destruct (Z.ltb_spec k 0); [lia|].
  destruct (Z.le_gt_cases k (Z.of_nat (length l))).
  - now rewrite Z.min_l.
  - rewrite Z.min_r by lia. rewrite Nat2Z.id.
    rewrite firstn_all. symmetry. apply firstn_all2. lia.
Qed.


(** [l[-k:]] keeps the last [k] elements when [k >= 1] ... *)
Lemma slice_from_last {A} (l : list A) k :
  1 <= k -> Py.slice_from l (- k) = skipn (length l - Z.to_nat k) l.
Proof.
  intro Hk; unfold Py.slice_from, Py.clamp, Py.len.
  destruct (Z.ltb_spec (- k) 0); [|lia].
  f_equal. lia.
Qed.

(** ... and all of them when [k = 0]. *)
Lemma slice_from_minus_zero {A} (l : list A) : Py.slice_from l (- 0) = l.
Proof.
  unfold Py.slice_from, Py.clamp, Py.len; simpl.
  now rewrite Z.min_l by lia.
Qed.

(** *** Cosine similarity *)

Lemma norm_zeros n : SimpleVectorStore.norm (repeat 0%float n) = 0%float.
Proof.
  unfold SimpleVectorStore.norm.
  assert (H : fold_left (fun acc x => acc + x * x)%float
                (repeat 0%float n) 0%float = 0%float).
  { induction n as [|n IH]; simpl; [reflexivity|].
    replace (0 + 0 * 0)%float with 0%float by reflexivity. exact IH. }
  rewrite H. reflexivity.
Qed.

Lemma norm_placeholder :
  SimpleVectorStore.norm SimpleVectorStore.placeholder = 0%float.
Proof. apply norm_zeros. Qed.

Lemma cosine_defined q e :
  length e = length q ->
  exists s, SimpleVectorStore._cosine_similarity q e = inr s.
Proof.
  intro Hlen. unfold SimpleVectorStore._cosine_similarity, SimpleVectorStore.dot.
  rewrite Hlen, Nat.eqb_refl.
  destruct (_ || _); eexists; reflexivity.
Qed.

(** A stored vector of norm zero scores zero, whatever the query. *)
Lemma cosine_zero_norm q e s :
  SimpleVectorStore._cosine_similarity q e = inr s ->
  (SimpleVectorStore.norm e =? 0)%float = true -> s = 0%float.
Proof.
  unfold SimpleVectorStore._cosine_similarity.
  destruct (SimpleVectorStore.dot q e); [discriminate|].
  intros H Hz. rewrite Hz, orb_true_r in H. congruence.
Qed.

(** The guard of [_cosine_similarity]: zero when either norm is zero. *)
Lemma cosine_zero_either q e s :
  SimpleVectorStore._cosine_similarity q e = inr s ->
  (SimpleVectorStore.norm q =? 0)%float = true \/
  (SimpleVectorStore.norm e =? 0)%float = true ->
  s = 0%float.
Proof.
  unfold SimpleVectorStore._cosine_similarity.
  destruct (SimpleVectorStore.dot q e); [discriminate|].
  intros H [Hz|Hz]; rewrite Hz in H; [|rewrite orb_true_r in H];
    simpl in H; congruence.
Qed.

Lemma cosine_positive q e s :
  SimpleVectorStore._cosine_similarity q e = inr s ->
  (0 <? s)%float = true ->
  (SimpleVectorStore.norm e =? 0)%float = false.
Proof.
  intros Hcos Hpos.
  destruct (SimpleVectorStore.norm e =? 0)%float eqn:Hz; [|reflexivity].
  rewrite (cosine_zero_norm q e s Hcos Hz) in Hpos. discriminate Hpos.
Qed.

Lemma positive_not_nan x :
  (0 <? x)%float = true -> PrimFloat.is_nan x = false.
Proof.
  rewrite ltb_spec, is_nan_SF. unfold SFltb, SFcompare.
  change (Prim2SF 0) with (S754_zero false).
  destruct (Prim2SF x); try reflexivity; discriminate.
Qed.

(** *** The two loops of [search] *)

Lemma similarities_of_defined q embeddings :
  Forall (fun e => length e = length q) embeddings ->
  exists sims,
    SimpleVectorStore.similarities_of q embeddings = inr sims /\
    Forall2 (fun e s => SimpleVectorStore._cosine_similarity q e = inr s)
      embeddings sims.
Proof.
  induction 1 as [|e embeddings He _ (sims & Hs & Hall)]; simpl.
  - exists []; split; [reflexivity | constructor].
  - destruct (cosine_defined q e He) as (s & Hcos).
    rewrite Hcos, Hs. exists (s :: sims); split; [reflexivity|].
    now constructor.
Qed.

Lemma Forall2_nth_error {A B} (P : A -> B -> Prop) l1 l2 :
  Forall2 P l1 l2 -> forall i b,
  nth_error l2 i = Some b -> exists a, nth_error l1 i = Some a /\ P a b.
Proof.
  induction 1 as [|a b l1 l2 Hab _ IH]; intros [|i] b' Hi;
    simpl in *; try discriminate.
  - injection Hi as <-. now exists a.
  - now apply IH.
Qed.

Lemma collect_defined chunks sims idxs :
  Forall (fun i => (i < length sims)%nat /\ (i < length chunks)%nat) idxs ->
  SimpleVectorStore.collect chunks sims idxs = inr (picked chunks sims idxs).
Proof.
  unfold picked.
  induction 1 as [|i idxs [Hs Hc] _ IH]; simpl; [reflexivity|].
  rewrite (nth_error_nth' sims nan Hs), (nth_error_nth' chunks no_chunk Hc).
  rewrite IH. destruct (0 <? nth i sims nan)%float; reflexivity.
Qed.

(** *** [add_chunks] *)

Lemma add_placeholders chunks : forall self,
  fold_left
    (fun self chunk =>
       SimpleVectorStore.append self chunk SimpleVectorStore.placeholder)
    chunks self
  = {| SimpleVectorStore.chunks := SimpleVectorStore.chunks self ++ chunks;
       SimpleVectorStore.embeddings :=
         SimpleVectorStore.embeddings self
         ++ repeat SimpleVectorStore.placeholder (length chunks);
       SimpleVectorStore.metadata :=
         SimpleVectorStore.metadata self ++ map Chunk.metadata chunks |}.
Proof.
  induction chunks as [|chunk rest IH]; intro self; simpl.
  - destruct self; simpl. now rewrite !app_nil_r.
  - rewrite IH. unfold SimpleVectorStore.append; simpl.
    now rewrite <- !app_assoc.
Qed.

(** With no embeddings given, every chunk is stored with a placeholder. *)
Lemma add_chunks_basic self chunks :
  SimpleVectorStore.add_chunks self chunks []
  = {| SimpleVectorStore.chunks := SimpleVectorStore.chunks self ++ chunks;
       SimpleVectorStore.embeddings :=
         SimpleVectorStore.embeddings self
         ++ repeat SimpleVectorStore.placeholder (length chunks);
       SimpleVectorStore.metadata :=
         SimpleVectorStore.metadata self ++ map Chunk.metadata chunks |}.
Proof. unfold SimpleVectorStore.add_chunks; simpl. apply add_placeholders. Qed.

Lemma add_pairs pairs : forall self,
  fold_left
    (fun self '(chunk, embedding) =>
       SimpleVectorStore.append self chunk
         (if truthy embedding then vector_of embedding
          else SimpleVectorStore.placeholder))
    pairs self
  = {| SimpleVectorStore.chunks :=
         SimpleVectorStore.chunks self ++ map fst pairs;
       SimpleVectorStore.embeddings :=
         SimpleVectorStore.embeddings self
         ++ map (fun p => stored_vector (snd p)) pairs;
       SimpleVectorStore.metadata :=
         SimpleVectorStore.metadata self
         ++ map (fun p => Chunk.metadata (fst p)) pairs |}.
Proof.
  induction pairs as [|[chunk e] rest IH]; intro self; simpl.
  - destruct self; simpl. now rewrite !app_nil_r.
  - rewrite IH. unfold SimpleVectorStore.append, stored_vector; simpl.
    now rewrite <- !app_assoc.
Qed.

(** With embeddings given, the chunks are stored pairwise with them, as
    far as the shorter list goes. *)
Lemma add_chunks_pairs self chunks embeddings :
  embeddings <> [] ->
  SimpleVectorStore.add_chunks self chunks embeddings
  = {| SimpleVectorStore.chunks :=
         SimpleVectorStore.chunks self
         ++ map fst (combine chunks embeddings);
       SimpleVectorStore.embeddings :=
         SimpleVectorStore.embeddings self
         ++ map (fun p => stored_vector (snd p)) (combine chunks embeddings);
       SimpleVectorStore.metadata :=
         SimpleVectorStore.metadata self
         ++ map (fun p => Chunk.metadata (fst p))
              (combine chunks embeddings) |}.
Proof.
  intro Hne. unfold SimpleVectorStore.add_chunks.
  destruct embeddings; [congruence|]. cbn [Py.nonempty negb].
  apply add_pairs.
Qed.

Lemma filter_all {A} (f : A -> bool) l :
  Forall (fun x => f x = true) l -> filter f l = l.
Proof. induction 1 as [|x l Hx _ IH]; simpl; [|rewrite Hx, IH]; reflexivity. Qed.

Lemma filter_none {A} (f : A -> bool) l :
  Forall (fun x => f x = false) l -> filter f l = [].
Proof. induction 1 as [|x l Hx _ IH]; simpl; [|rewrite Hx, IH]; reflexivity. Qed.

Lemma combine_fst_firstn {A B} (l1 : list A) : forall (l2 : list B),
  map fst (combine l1 l2) = firstn (length l2) l1.
Proof.
  induction l1 as [|a l1 IH]; intros [|b l2]; simpl; try reflexivity.
  now rewrite IH.
Qed.

Lemma combine_snd_firstn {A B} (l1 : list A) : forall (l2 : list B),
  map snd (combine l1 l2) = firstn (length l1) l2.
Proof.
  induction l1 as [|a l1 IH]; intros [|b l2]; simpl; try reflexivity.
  now rewrite IH.
Qed.

(** *** [search] *)

Section SearchFacts.
Variable argsort : list float -> list nat.
Hypothesis argsort_ok : argsort_spec argsort.

Lemma argsort_in_range sims i :
  In i (argsort sims) -> (i < length sims)%nat.
Proof.
  intro Hi. destruct (argsort_ok sims) as [Hperm _].
  apply (Permutation_in _ Hperm), in_seq in Hi. lia.
Qed.

Lemma top_indices_in sims k i :
  In i (SimpleVectorStore.top_indices argsort sims k) ->
  In i (argsort sims).
Proof.
  unfold SimpleVectorStore.top_indices, Py.slice_from.
  intro Hi. apply in_rev in Hi.
  rewrite <- (firstn_skipn (Z.to_nat (Py.clamp (Py.len (argsort sims)) (- k)))
                (argsort sims)).
  apply in_or_app. now right.
Qed.

Lemma top_indices_length sims k :
  1 <= k -> Py.len (SimpleVectorStore.top_indices argsort sims k) <= k.
Proof.
  intro Hk. unfold SimpleVectorStore.top_indices, Py.len.
  rewrite length_rev, slice_from_last, length_skipn by assumption. lia.
Qed.

Lemma top_indices_sorted sims k :
  1 <= k ->
  StronglySorted
    (fun i j => fle (nth j sims nan) (nth i sims nan) = true)
    (SimpleVectorStore.top_indices argsort sims k).
Proof.
  intro Hk. unfold SimpleVectorStore.top_indices.
  rewrite slice_from_last by assumption.
  apply (StronglySorted_rev
           (fun i j => fle (nth i sims nan) (nth j sims nan) = true)).
  apply StronglySorted_skipn. apply argsort_ok.
Qed.

Lemma picked_descending chunks sims idxs :
  StronglySorted
    (fun i j => fle (nth j sims nan) (nth i sims nan) = true) idxs ->
  descending (picked chunks sims idxs).
Proof.
  intro Hs. unfold descending, picked.
  apply StronglySorted_map; cbn [snd].
  apply (StronglySorted_weaken
           (fun i j => fle (nth j sims nan) (nth i sims nan) = true) _
           (fun i => (0 <? nth i sims nan)%float = true)).
  - intros i j Hi _ Hfle. unfold fle in Hfle.
    now rewrite (positive_not_nan _ Hi) in Hfle.
  - apply Forall_forall. intros i Hi. now apply filter_In in Hi.
  - now apply StronglySorted_filter.
Qed.

(** For [top_k >= 1] and a store the query fits, [search] returns; it
    returns at most [top_k] entries, larger scores first, every score
    greater than zero; every entry is a stored chunk with the cosine
    similarity of the embedding stored at its position; and that
    embedding has a norm other than zero, so it is no placeholder. *)
Theorem search_top_k (self : SimpleVectorStore.t) (q : list float) (k : Z) :
  fits self q -> 1 <= k ->
  exists results,
    SimpleVectorStore.search argsort self q k = inr results /\
    Py.len results <= k /\
    descending results /\
    Forall (fun r =>
      (0 <? snd r)%float = true /\
      exists i e,
        nth_error (SimpleVectorStore.chunks self) i = Some (fst r) /\
        nth_error (SimpleVectorStore.embeddings self) i = Some e /\
        SimpleVectorStore._cosine_similarity q e = inr (snd r) /\
        (SimpleVectorStore.norm e =? 0)%float = false /\
        e <> SimpleVectorStore.placeholder) results.
Proof.
  intros [Hlen Hdim] Hk. unfold SimpleVectorStore.search.
  destruct (negb (Py.nonempty (SimpleVectorStore.embeddings self))) eqn:Hne.
  { exists []. repeat split; try constructor. unfold Py.len; simpl; lia. }
  destruct (similarities_of_defined q _ Hdim) as (sims & Hsims & Hall).
  rewrite Hsims.
  pose proof (Forall2_length Hall) as Hlen2.
  set (idxs := SimpleVectorStore.top_indices argsort sims k).
  assert (Hrange : Forall (fun i => (i < length sims)%nat /\
                     (i < length (SimpleVectorStore.chunks self))%nat) idxs).
  { apply Forall_forall. intros i Hi.
    apply top_indices_in, argsort_in_range in Hi. lia. }
  rewrite (collect_defined _ _ _ Hrange).
  exists (picked (SimpleVectorStore.chunks self) sims idxs).
  split; [reflexivity|]. split; [|split].
  - pose proof (top_indices_length sims k Hk) as Hl. fold idxs in Hl.
    unfold picked, Py.len in *. rewrite length_map.
    pose proof (filter_length_le
                  (fun i => (0 <? nth i sims nan)%float) idxs). lia.
  - apply picked_descending. now apply top_indices_sorted.
  - unfold picked. apply Forall_map, Forall_forall. intros i Hi.
    apply filter_In in Hi as [Hi Hpos]. cbn [fst snd].
    rewrite Forall_forall in Hrange. destruct (Hrange i Hi) as [His Hic].
    split; [exact Hpos|].
    destruct (Forall2_nth_error _ _ _ Hall i _ (nth_error_nth' sims nan His))
      as (e & He & Hcos).
    exists i, e. split; [now apply nth_error_nth'|].
    split; [exact He|]. split; [exact Hcos|].
    pose proof (cosine_positive _ _ _ Hcos Hpos) as Hnorm.
    split; [exact Hnorm|].
    intros ->. now rewrite norm_placeholder in Hnorm.
Qed.

(** An empty store answers every query with the empty list. *)
Lemma search_empty (q : list float) (k : Z) :
  SimpleVectorStore.search argsort SimpleVectorStore.empty q k = inr [].
Proof. reflexivity. Qed.

(** The positions of a one-element list, sorted: position 0. *)
Lemma argsort_singleton x : argsort [x] = [0%nat].
Proof.
  destruct (argsort_ok [x]) as [Hperm _]. simpl in Hperm.
  now apply Permutation_sym, Permutation_length_1_inv in Hperm.
Qed.

End SearchFacts.

(** For a store the query fits [search] returns for every [top_k], also
    for zero and below. *)
Lemma search_defined argsort (self : SimpleVectorStore.t) (q : list float)
    (k : Z) :
  argsort_spec argsort -> fits self q ->
  exists results, SimpleVectorStore.search argsort self q k = inr results.
Proof.
  intros Hspec [Hlen Hdim]. unfold SimpleVectorStore.search.
  destruct (negb _); [now exists []|].
  destruct (similarities_of_defined q _ Hdim) as (sims & Hsims & Hall).
  rewrite Hsims. pose proof (Forall2_length Hall) as Hlen2.
  eexists. apply collect_defined, Forall_forall. intros i Hi.
  apply top_indices_in, (argsort_in_range _ Hspec) in Hi. lia.
Qed.

(** At [top_k = 0] the slice [[-0:]] is the whole list of sorted
    positions, so [search] on the one-chunk store [store_one] with the
    query [[1.0]] returns the stored chunk with score [1.0]: one entry,
    more than [top_k]. *)
Theorem search_top_k_zero (argsort : list float -> list nat) :
  argsort_spec argsort ->
  SimpleVectorStore.search argsort store_one [1%float] 0
    = inr [(chunk_alpha, 1%float)] /\
  ~ Py.len [(chunk_alpha, 1%float)] <= 0.
Proof.
  intro Hspec. split; [|unfold Py.len; simpl; lia].
  unfold SimpleVectorStore.search, SimpleVectorStore.top_indices. simpl.
  change (- 0) with 0.
  replace (SimpleVectorStore._cosine_similarity [1%float] [1%float])
    with (@inr exn float 1%float) by reflexivity.
  rewrite (argsort_singleton _ Hspec). reflexivity.
Qed.

Lemma search_top_k_zero_witness :
  SimpleVectorStore.search stable_argsort store_one [1%float] 0
    = inr [(chunk_alpha, 1%float)] /\
  ~ Py.len [(chunk_alpha, 1%float)] <= 0.
Proof. exact (search_top_k_zero stable_argsort stable_argsort_meets_spec). Defined.

(** C5, as the claim states it, fails: [store_basic] is the store
    [add_chunks] builds when no embeddings are given, two chunks with
    the placeholder of length 1536 each; [search] with a query vector
    of length two raises the [ValueError] of [np.dot] at the first
    placeholder, where the claim has the similarity defined as 0 and
    the empty sequence returned. *)
Lemma search_placeholder_counterexample :
  built store_basic /\
  SimpleVectorStore.embeddings store_basic
    = [SimpleVectorStore.placeholder; SimpleVectorStore.placeholder] /\
  SimpleVectorStore.search stable_argsort store_basic [1; 0]%float 5
    = inl (SimpleVectorStore.shapes_not_aligned 2 1536).
Proof.
  split; [apply built_add, built_empty|].
  split; vm_compute; reflexivity.
Qed.

Lemma built_aligned self :
  built self ->
  length (SimpleVectorStore.chunks self)
    = length (SimpleVectorStore.embeddings self).
Proof.
  induction 1 as [|self chunks embeddings _ IH]; [reflexivity|].
  destruct embeddings as [|e embeddings].
  - rewrite add_chunks_basic. cbn [SimpleVectorStore.chunks SimpleVectorStore.embeddings].
    rewrite !length_app, repeat_length. lia.
  - rewrite add_chunks_pairs by discriminate.
    cbn [SimpleVectorStore.chunks SimpleVectorStore.embeddings].
    rewrite !length_app, !length_map. lia.
Qed.

(** C5, amended: for every store built by [add_chunks] whose stored
    vectors all have the length of the query vector, and every
    [top_k >= 1], [search] returns a sequence of at most [top_k]
    entries, larger cosine similarities first, every score greater than
    zero; it is empty when the store is empty; every entry is a stored
    chunk with the similarity of the vector stored at its position, and
    that vector has a norm other than zero, so an all-zero placeholder
    never appears (its norm is zero, and its similarity to any query of
    its length is defined as zero). *)
Theorem search_returns_top_k
    (argsort : list float -> list nat) (self : SimpleVectorStore.t)
    (query_embedding : list float) (top_k : Z) :
  argsort_spec argsort ->
  built self ->
  Forall (fun e => length e = length query_embedding)
    (SimpleVectorStore.embeddings self) ->
  1 <= top_k ->
  exists results,
    SimpleVectorStore.search argsort self query_embedding top_k
      = inr results /\
    Py.len results <= top_k /\
    descending results /\
    (SimpleVectorStore.embeddings self = [] -> results = []) /\
    SimpleVectorStore.norm SimpleVectorStore.placeholder = 0%float /\
    (forall e s,
       SimpleVectorStore._cosine_similarity query_embedding e = inr s ->
       (SimpleVectorStore.norm query_embedding =? 0)%float = true \/
       (SimpleVectorStore.norm e =? 0)%float = true ->
       s = 0%float) /\
    Forall (fun r =>
      (0 <? snd r)%float = true /\
      exists i e,
        nth_error (SimpleVectorStore.chunks self) i = Some (fst r) /\
        nth_error (SimpleVectorStore.embeddings self) i = Some e /\
        SimpleVectorStore._cosine_similarity query_embedding e
          = inr (snd r) /\
        (SimpleVectorStore.norm e =? 0)%float = false /\
        e <> SimpleVectorStore.placeholder) results.
Proof.
  intros Hspec Hbuilt Hdim Hk.
  destruct (search_top_k argsort Hspec self query_embedding top_k)
    as (results & Hrun & Hlen & Hdesc & Hall);
    [split; [now apply built_aligned | exact Hdim] | exact Hk |].
  exists results. split; [exact Hrun|]. split; [exact Hlen|].
  split; [exact Hdesc|]. split; [|split; [apply norm_placeholder|split]].
  - intros Hempty. destruct results as [|r results]; [reflexivity|].
    inversion Hall as [|? ? (_ & i & e & _ & He & _) _]; subst.
    rewrite Hempty in He. destruct i; discriminate He.
  - intros e s. apply cosine_zero_either.
  - exact Hall.
Qed.

Lemma search_returns_top_k_witness :
  exists results,
    SimpleVectorStore.search stable_argsort store_three [1; 0]%float 5
      = inr results /\
    Py.len results <= 5 /\ descending results.
Proof.
  destruct (search_returns_top_k stable_argsort store_three [1; 0]%float 5)
    as (results & Hrun & Hlen & Hdesc & _).
  - exact stable_argsort_meets_spec.
  - apply built_add, built_empty.
  - repeat constructor.
  - lia.
  - exists results. repeat split; assumption.
Defined.

Example search_three :
  SimpleVectorStore.search stable_argsort store_three [1; 0]%float 5
    = inr [(chunk_alpha, 1%float)].
Proof. vm_compute. reflexivity. Qed.

(** *** [generate_embeddings] *)

Section EmbeddingFacts.
Variable embed_api : nat -> Py.str -> option (list float).

Lemma generate_loop_spec texts : forall embeddings w,
  EmbeddingSystem.generate_loop embed_api texts embeddings w =
  (after_embedding w texts,
   inr (embeddings ++ filter truthy (answers embed_api (embed_calls w) texts))).
Proof.
  induction texts as [|text rest IH]; intros embeddings w.
  - simpl. unfold ret, after_embedding. destruct w; simpl.
    now rewrite Nat.add_0_r, !app_nil_r.
  - cbn [EmbeddingSystem.generate_loop answers filter].
    unfold bind at 1.
    unfold EmbeddingSystem._generate_single_embedding at 1.
    rewrite IH. unfold after_embedding. cbn [embed_calls chat_calls trace].
    f_equal.
    + f_equal; [simpl; lia|]. now rewrite <- app_assoc.
    + destruct (truthy (embed_api (embed_calls w) text));
        [now rewrite <- app_assoc | reflexivity].
Qed.

(** [generate_embeddings] never raises; it returns the truthy answers
    of the service, in order, and nothing for the others. *)
Lemma generate_embeddings_spec texts w :
  EmbeddingSystem.generate_embeddings embed_api texts w =
  (after_embedding w texts,
   inr (filter truthy (answers embed_api (embed_calls w) texts))).
Proof. unfold EmbeddingSystem.generate_embeddings. now rewrite generate_loop_spec. Qed.

Lemma answers_length texts :
  forall n, length (answers embed_api n texts) = length texts.
Proof. induction texts; intro n; simpl; auto. Qed.

Lemma answers_nth_error texts : forall n i text,
  nth_error texts i = Some text ->
  nth_error (answers embed_api n texts) i = Some (embed_api (n + i) text).
Proof.
  induction texts as [|t rest IH]; intros n [|i] text Hi; simpl in *;
    try discriminate.
  - injection Hi as ->. now rewrite Nat.add_0_r.
  - rewrite (IH _ _ _ Hi). do 2 f_equal. lia.
Qed.

End EmbeddingFacts.

(** C1, as the claim states it, fails: for two texts of which the
    first fails, [generate_embeddings] returns one entry, the embedding
    of the second text at position 0; no marker stands for the first
    text, and the result is shorter than the input. *)
Lemma generate_embeddings_counterexample :
  answers api_first_fails 0 [Py.lit "a"; Py.lit "b"]
    = [None; Some [1%float]] /\
  EmbeddingSystem.generate_embeddings api_first_fails
    [Py.lit "a"; Py.lit "b"] world0
  = (mkWorld 2 0 [EvEmbed (Py.lit "a"); EvEmbed (Py.lit "b")],
     inr [Some [1%float]]) /\
  length [Some [1%float]] <> length [Py.lit "a"; Py.lit "b"].
Proof. repeat split; try reflexivity. discriminate. Qed.

Lemma filter_length_all {A} (f : A -> bool) l :
  length (filter f l) = length l -> Forall (fun x => f x = true) l.
Proof.
  induction l as [|x l IH]; simpl; [constructor|].
  destruct (f x) eqn:Hx; simpl; intro H.
  - constructor; [exact Hx | apply IH; lia].
  - pose proof (filter_length_le f l). lia.
Qed.

(** C1, amended: for every sequence of texts [generate_embeddings]
    makes one request per text, in order, whatever fails, and does not
    raise; it returns, in the order of the texts, the answers that are
    non-empty vectors and no entry for a text whose request raised or
    answered nothing or the empty vector.  So the result is aligned
    with the texts exactly when no text failed. *)
Theorem generate_embeddings_returns_successes
    (embed_api : nat -> Py.str -> option (list float))
    (texts : list Py.str) (w : World) :
  exists w' embeddings,
    EmbeddingSystem.generate_embeddings embed_api texts w
      = (w', inr embeddings) /\
    embed_calls w' = (embed_calls w + length texts)%nat /\
    trace w' = trace w ++ map EvEmbed texts /\
    embeddings = filter truthy (answers embed_api (embed_calls w) texts) /\
    Forall (fun e => truthy e = true) embeddings /\
    (length embeddings <= length texts)%nat /\
    (length embeddings = length texts <->
     Forall (fun e => truthy e = true)
       (answers embed_api (embed_calls w) texts)).
Proof.
  do 2 eexists. split; [apply generate_embeddings_spec|].
  split; [reflexivity|]. split; [reflexivity|]. split; [reflexivity|].
  split; [|split].
  - apply Forall_forall. intros e He. now apply filter_In in He.
  - rewrite <- (answers_length embed_api texts (embed_calls w)).
    apply filter_length_le.
  - rewrite <- (answers_length embed_api texts (embed_calls w)). split.
    + apply filter_length_all.
    + intro Hall. now rewrite filter_all.
Qed.

(** *** [initialize] *)

Section InitializeFacts.
Variable embed_api : nat -> Py.str -> option (list float).

(** What [initialize] does: it never raises; with [good] the truthy
    answers of the service for the chunk texts, in order, it stores
    every chunk with a placeholder when [good] is empty, and otherwise
    the first [len(good)] chunks, the i-th of them with the i-th
    element of [good]. *)
Lemma initialize_spec (self : RAGPipeline.t) documents w :
  let chunks :=
    TextChunker.split_documents (RAGPipeline.text_chunker self) documents in
  let texts := map Chunk.content chunks in
  let good := filter truthy (answers embed_api (embed_calls w) texts) in
  RAGPipeline.initialize embed_api self documents w =
  (after_embedding w texts,
   inr {| RAGPipeline.text_chunker := RAGPipeline.text_chunker self;
          RAGPipeline.vector_store :=
            match good with
            | [] =>
                SimpleVectorStore.add_chunks
                  (RAGPipeline.vector_store self) chunks []
            | _ :: _ =>
                SimpleVectorStore.add_chunks (RAGPipeline.vector_store self)
                  (firstn (length good) chunks) good
            end;
          RAGPipeline.is_initialized := true |}).
Proof.
  intros chunks texts good. unfold RAGPipeline.initialize.
  fold chunks. fold texts. unfold bind.
  rewrite generate_embeddings_spec. fold good.
  assert (Hgood : Forall (fun e => truthy e = true) good).
  { apply Forall_forall. intros e He. now apply filter_In in He. }
  assert (Hlen : (length good <= length chunks)%nat).
  { unfold good. rewrite <- (length_map Chunk.content chunks). fold texts.
    rewrite <- (answers_length embed_api texts (embed_calls w)).
    apply filter_length_le. }
  assert (Hvalid :
    filter (fun '(_, embedding) => truthy embedding) (combine chunks good)
    = combine chunks good).
  { apply filter_all, Forall_forall. intros [c e] Hin.
    apply in_combine_r in Hin. rewrite Forall_forall in Hgood. auto. }
  rewrite Hvalid, combine_fst_firstn, combine_snd_firstn.
  destruct good as [|e good'].
  - reflexivity.
  - destruct chunks as [|c chunks']; [simpl in Hlen; lia|].
    cbn [length firstn Py.nonempty negb]. unfold ret.
    rewrite (firstn_all2 good') by (simpl in Hlen; lia).
    reflexivity.
Qed.

End InitializeFacts.

(** C2 at two one-chunk documents of which the embedding fails for the
    first and succeeds for the second: [initialize] stores the first
    chunk, whose embedding failed, with the vector generated for the
    text of the second, and leaves out the second chunk. *)
Theorem initialize_pairs_wrong_chunk :
  TextChunker.split_documents TextChunker.default [doc_alpha; doc_beta]
    = [chunk_alpha; chunk_beta] /\
  answers api_first_fails 0 [Chunk.content chunk_alpha; Chunk.content chunk_beta]
    = [None; Some [1%float]] /\
  RAGPipeline.initialize api_first_fails RAGPipeline.new
    [doc_alpha; doc_beta] world0
  = (mkWorld 2 0 [EvEmbed (Py.lit "alpha"); EvEmbed (Py.lit "beta")],
     inr {| RAGPipeline.text_chunker := TextChunker.default;
            RAGPipeline.vector_store :=
              SimpleVectorStore.mk [[1%float]] [chunk_alpha] [[]];
            RAGPipeline.is_initialized := true |}).
Proof. repeat split; vm_compute; reflexivity. Qed.

Lemma answers_all_fail embed_api texts : forall n,
  (forall i text, nth_error texts i = Some text ->
     truthy (embed_api (n + i)%nat text) = false) ->
  Forall (fun e => truthy e = false) (answers embed_api n texts).
Proof.
  induction texts as [|t rest IH]; intros n H; simpl; constructor.
  - specialize (H 0%nat t eq_refl). now rewrite Nat.add_0_r in H.
  - apply IH. intros i text Hi. specialize (H (S i) text Hi).
    now replace (S n + i)%nat with (n + S i)%nat by lia.
Qed.

(** C3: whatever the documents, when the embedding fails for every
    chunk, [initialize] returns without raising; the store then holds,
    after what it held before, all chunks, one all-zero vector of
    length 1536 per chunk, and the chunks' metadata; and the pipeline
    is initialized. *)
Theorem initialize_degrades_to_basic_mode
    (embed_api : nat -> Py.str -> option (list float))
    (self : RAGPipeline.t) (documents : list Document.t) (w : World) :
  (forall i chunk,
     nth_error
       (TextChunker.split_documents (RAGPipeline.text_chunker self) documents)
       i = Some chunk ->
     truthy (embed_api (embed_calls w + i)%nat (Chunk.content chunk)) = false) ->
  exists w',
    RAGPipeline.initialize embed_api self documents w =
    (w',
     inr {| RAGPipeline.text_chunker := RAGPipeline.text_chunker self;
            RAGPipeline.vector_store :=
              {| SimpleVectorStore.chunks :=
                   SimpleVectorStore.chunks (RAGPipeline.vector_store self)
                   ++ TextChunker.split_documents
                        (RAGPipeline.text_chunker self) documents;
                 SimpleVectorStore.embeddings :=
                   SimpleVectorStore.embeddings (RAGPipeline.vector_store self)
                   ++ repeat (repeat 0%float 1536)
                        (length (TextChunker.split_documents
                                   (RAGPipeline.text_chunker self) documents));
                 SimpleVectorStore.metadata :=
                   SimpleVectorStore.metadata (RAGPipeline.vector_store self)
                   ++ map Chunk.metadata
                        (TextChunker.split_documents
                           (RAGPipeline.text_chunker self) documents) |};
            RAGPipeline.is_initialized := true |}).
Proof.
  intro Hfail. eexists. rewrite initialize_spec.
  rewrite filter_none.
  - rewrite add_chunks_basic. reflexivity.
  - apply answers_all_fail. intros i text Hi.
    rewrite nth_error_map in Hi.
    destruct (nth_error _ i) as [chunk|] eqn:Hc; [|discriminate].
    injection Hi as <-. now apply Hfail.
Qed.

Lemma initialize_degrades_to_basic_mode_witness :
  exists w',
    RAGPipeline.initialize api_down RAGPipeline.new [doc_alpha; doc_beta]
      world0 =
    (w',
     inr {| RAGPipeline.text_chunker := TextChunker.default;
            RAGPipeline.vector_store :=
              {| SimpleVectorStore.chunks := [chunk_alpha; chunk_beta];
                 SimpleVectorStore.embeddings :=
                   [repeat 0%float 1536; repeat 0%float 1536];
                 SimpleVectorStore.metadata := [[]; []] |};
            RAGPipeline.is_initialized := true |}).
Proof.
  exact (initialize_degrades_to_basic_mode api_down RAGPipeline.new
           [doc_alpha; doc_beta] world0 (fun _ _ _ => eq_refl)).
Defined.

(** *** Substrings *)

Lemma startswith_spec sub : forall s,
  Py.startswith s sub = true <-> exists post, s = sub ++ post.
Proof.
  induction sub as [|a sub IH]; intros s; simpl.
  - split; [intros _; now exists s | intros _; destruct s; reflexivity].
  - destruct s as [|b s]; simpl.
    + split; [discriminate | intros (post & H); discriminate H].
    + rewrite andb_true_iff, IH. split.
      * intros [Hab (post & ->)]. apply Ascii.eqb_eq in Hab as ->.
        now exists post.
      * intros (post & H). injection H as -> ->.
        split; [apply Ascii.eqb_refl | now exists post].
Qed.

Lemma contains_unfold sub s :
  Py.contains sub s =
  Py.startswith s sub ||
  match s with [] => false | _ :: s' => Py.contains sub s' end.
Proof. destruct s; reflexivity. Qed.

(** [sub in s] decides [occurs sub s]. *)
Lemma contains_spec sub : forall s,
  Py.contains sub s = true <-> occurs sub s.
Proof.
  induction s as [|c s IH]; rewrite contains_unfold, orb_true_iff,
    startswith_spec.
  - split.
    + intros [(post & H)|H]; [|discriminate]. now exists [], post.
    + intros (pre & post & H). left.
      destruct pre; [now exists post | discriminate H].
  - rewrite IH. split.
    + intros [(post & H)|(pre & post & ->)]; [now exists [], post|].
      now exists (c :: pre), post.
    + intros (pre & post & H). destruct pre as [|c' pre].
      * left. now exists post.
      * right. injection H as -> ->. now exists pre, post.
Qed.

Lemma contains_empty s : Py.contains [] s = true.
Proof. rewrite contains_unfold. destruct s; reflexivity. Qed.

Lemma occurs_refl s : occurs s s.
Proof. exists [], []. now rewrite app_nil_r. Qed.

Lemma occurs_app_l sub a b : occurs sub a -> occurs sub (a ++ b).
Proof.
  intros (pre & post & ->). exists pre, (post ++ b).
  now rewrite <- !app_assoc.
Qed.

Lemma occurs_app_r sub a b : occurs sub b -> occurs sub (a ++ b).
Proof.
  intros (pre & post & ->). exists (a ++ pre), post.
  now rewrite <- !app_assoc.
Qed.

Create HintDb occurs.
#[local] Hint Resolve occurs_refl occurs_app_l occurs_app_r : occurs.

(** *** [generate_response] and its fallback *)

(** The text [format_loop] adds names the source and the content of
    every retrieved chunk. *)
Lemma format_loop_spec retrieved : forall i response,
  exists added,
    RAGPipeline.format_loop i retrieved response = response ++ added /\
    forall r, In r retrieved ->
      occurs (Chunk.source (Retrieved.chunk r)) added /\
      occurs (Chunk.content (Retrieved.chunk r)) added.
Proof.
  induction retrieved as [|x rest IH]; intros i response;
    cbn [RAGPipeline.format_loop].
  - exists []. split; [now rewrite app_nil_r | intros r []].
  - destruct (IH (S i)
       (response ++ Py.str_of_nat i ++ Py.lit ". From "
          ++ Chunk.source (Retrieved.chunk x) ++ Py.lit ":" ++ Py.nl
          ++ Chunk.content (Retrieved.chunk x) ++ Py.nl ++ Py.nl))
      as (added & Heq & Hall).
    eexists. split.
    + rewrite Heq, <- app_assoc. reflexivity.
    + intros r [<-|Hr].
      * split; apply occurs_app_l.
        -- do 2 apply occurs_app_r. auto with occurs.
        -- do 5 apply occurs_app_r. auto with occurs.
      * destruct (Hall r Hr). split; auto with occurs.
Qed.

Lemma format_basic_response_mentions question retrieved r :
  In r retrieved ->
  occurs (Chunk.source (Retrieved.chunk r))
    (RAGPipeline._format_basic_response question retrieved) /\
  occurs (Chunk.content (Retrieved.chunk r))
    (RAGPipeline._format_basic_response question retrieved).
Proof.
  intro Hr. unfold RAGPipeline._format_basic_response.
  destruct retrieved as [|x rest]; [destruct Hr|].
  cbn [Py.nonempty negb].
  match goal with |- context [RAGPipeline.format_loop ?i ?l ?acc] =>
    destruct (format_loop_spec l i acc) as (added & -> & Hall)
  end.
  destruct (Hall r Hr).
  split; apply occurs_app_l, occurs_app_r; assumption.
Qed.

(** [generate_response] never raises, asks the embedding service
    nothing, and leaves at most a chat request in the trace. *)
Lemma generate_response_returns chat_api question retrieved w :
  exists w' answer evs,
    RAGPipeline.generate_response chat_api question retrieved w
      = (w', inr answer) /\
    embed_calls w' = embed_calls w /\
    trace w' = trace w ++ evs /\ Forall is_chat evs.
Proof.
  unfold RAGPipeline.generate_response.
  destruct (negb (Py.nonempty retrieved)).
  - exists w, RAGPipeline.nothing_relevant_msg, [].
    unfold ret. now rewrite app_nil_r.
  - unfold try_except, RAGPipeline._generate_with_openai.
    destruct (chat_api (chat_calls w) _); unfold ret;
      do 3 eexists; (split; [reflexivity|]); cbn [embed_calls trace];
      repeat split; repeat constructor.
Qed.

(** C9: with no retrieved passage [generate_response] returns the fixed
    message and leaves the world as it was: no request to the chat
    service.  With at least one retrieved passage and a chat service
    that raises, it does not raise: it returns the text of
    [_format_basic_response], in which the source and the content of
    every retrieved passage occur. *)
Theorem generate_response_fallback
    (chat_api : nat -> Py.str -> Py.str + Py.str)
    (question : Py.str) (retrieved : list Retrieved.t) (w : World) :
  (retrieved = [] ->
   RAGPipeline.generate_response chat_api question retrieved w
     = (w, inr RAGPipeline.nothing_relevant_msg)) /\
  (retrieved <> [] ->
   (forall prompt, exists e, chat_api (chat_calls w) prompt = inl e) ->
   exists w' answer,
     RAGPipeline.generate_response chat_api question retrieved w
       = (w', inr answer) /\
     answer = RAGPipeline._format_basic_response question retrieved /\
     forall r, In r retrieved ->
       Py.contains (Chunk.source (Retrieved.chunk r)) answer = true /\
       Py.contains (Chunk.content (Retrieved.chunk r)) answer = true).
Proof.
  split.
  - intros ->. reflexivity.
  - intros Hne Hdown. unfold RAGPipeline.generate_response.
    destruct retrieved as [|x rest]; [congruence|].
    cbn [Py.nonempty negb].
    unfold try_except, RAGPipeline._generate_with_openai.
    match goal with |- context [chat_api (chat_calls w) ?p] =>
      destruct (Hdown p) as (e & ->)
    end.
    unfold ret. do 2 eexists. split; [reflexivity|]. split; [reflexivity|].
    intros r Hr. rewrite !contains_spec.
    now apply format_basic_response_mentions.
Qed.

Lemma generate_response_fallback_witness :
  exists w' answer,
    RAGPipeline.generate_response chat_down (Py.lit "what is alpha?")
      [RAGPipeline.entry chunk_alpha 1%float;
       RAGPipeline.entry chunk_beta 0.5%float] world0
      = (w', inr answer) /\
    Py.contains (Py.lit "a.txt") answer = true /\
    Py.contains (Py.lit "b.txt") answer = true /\
    Py.contains (Py.lit "alpha") answer = true /\
    Py.contains (Py.lit "beta") answer = true.
Proof.
  destruct (generate_response_fallback chat_down (Py.lit "what is alpha?")
              [RAGPipeline.entry chunk_alpha 1%float;
               RAGPipeline.entry chunk_beta 0.5%float] world0)
    as [_ H].
  destruct H as (w' & answer & Hrun & _ & Hall).
  - discriminate.
  - intro prompt. now exists (Py.lit "connection refused").
  - exists w', answer. split; [exact Hrun|].
    destruct (Hall (RAGPipeline.entry chunk_alpha 1%float)) as [H1 H2];
      [now left|].
    destruct (Hall (RAGPipeline.entry chunk_beta 0.5%float)) as [H3 H4];
      [right; now left|].
    repeat split; assumption.
Defined.

(** *** [query] *)

Lemma basic_text_search_run self question top_k w :
  RAGPipeline._basic_text_search self question top_k w =
  ({| embed_calls := embed_calls w;
      chat_calls := chat_calls w;
      trace := trace w ++ [EvTextSearch question top_k] |},
   inr (text_search_result self question top_k)).
Proof. reflexivity. Qed.

Section QueryFacts.
Variable embed_api : nat -> Py.str -> option (list float).
Variable chat_api : nat -> Py.str -> Py.str + Py.str.
Variable argsort : list float -> list nat.

(** On an initialized pipeline, when the service gives nothing truthy
    for the question, [query] returns the result of the text search,
    and its trace is the request for the embedding, the text search,
    and then events of the chat service only. *)
Lemma query_falls_back self question top_k w :
  RAGPipeline.is_initialized self = true ->
  truthy (embed_api (embed_calls w) question) = false ->
  exists w' answer evs,
    RAGPipeline.query embed_api chat_api argsort self question top_k w =
    (w', inr {| QueryResponse.response := answer;
                QueryResponse.sources :=
                  text_search_result self question top_k;
                QueryResponse.question := question |}) /\
    trace w' =
      trace w ++ [EvEmbed question; EvTextSearch question top_k] ++ evs /\
    Forall is_chat evs.
Proof.
  intros Hinit Hfail. unfold RAGPipeline.query. rewrite Hinit.
  cbn [negb]. unfold bind at 1. rewrite generate_embeddings_spec.
  cbn [answers filter]. rewrite Hfail.
  unfold bind at 1. rewrite basic_text_search_run.
  unfold bind at 1.
  match goal with |- context [RAGPipeline.generate_response _ ?q ?r ?w0] =>
    destruct (generate_response_returns chat_api q r w0)
      as (w' & answer & evs & -> & _ & Htrace & Hchat)
  end.
  exists w', answer, evs. unfold ret. split; [reflexivity|].
  split; [|exact Hchat].
  rewrite Htrace. cbn [trace after_embedding map].
  now rewrite <- !app_assoc.
Qed.

(** On an initialized pipeline whose store a truthy question embedding
    fits, [query] returns. *)
Lemma query_by_vector self question top_k w v :
  argsort_spec argsort ->
  RAGPipeline.is_initialized self = true ->
  embed_api (embed_calls w) question = Some v -> v <> [] ->
  fits (RAGPipeline.vector_store self) v ->
  exists w' response,
    RAGPipeline.query embed_api chat_api argsort self question top_k w
      = (w', inr response).
Proof.
  intros Hspec Hinit Hv Hne Hfits. unfold RAGPipeline.query. rewrite Hinit.
  cbn [negb]. unfold bind at 1. rewrite generate_embeddings_spec.
  cbn [answers filter]. rewrite Hv.
  destruct v as [|x v]; [congruence|]. cbn [truthy negb vector_of].
  destruct (search_defined argsort _ (x :: v) top_k Hspec Hfits)
    as (results & Hsearch).
  unfold bind at 1. unfold RAGPipeline.vector_search.
  unfold bind at 1. unfold log, lift, bind at 1. rewrite Hsearch.
  unfold ret at 1. unfold bind at 1.
  match goal with |- context [RAGPipeline.generate_response _ ?q ?r ?w0] =>
    destruct (generate_response_returns chat_api q r w0)
      as (w' & answer & evs & -> & _)
  end.
  unfold ret. now do 2 eexists.
Qed.

End QueryFacts.

(** C6: on an initialized pipeline, when the request for the embedding
    of the question raises or answers nothing ([None]) or answers the
    empty vector, [query] returns a response whose sources are what
    [_basic_text_search] returns for the question over the stored
    chunks; the calls it makes include that text search and no call of
    the store's [search]. *)
Theorem query_uses_text_search_without_embedding
    (embed_api : nat -> Py.str -> option (list float))
    (chat_api : nat -> Py.str -> Py.str + Py.str)
    (argsort : list float -> list nat)
    (self : RAGPipeline.t) (question : Py.str) (top_k : Z) (w : World) :
  RAGPipeline.is_initialized self = true ->
  embed_api (embed_calls w) question = None \/
  embed_api (embed_calls w) question = Some [] ->
  exists w' response evs,
    RAGPipeline.query embed_api chat_api argsort self question top_k w
      = (w', inr response) /\
    (forall w0,
       snd (RAGPipeline._basic_text_search self question top_k w0)
         = inr (QueryResponse.sources response)) /\
    trace w' = trace w ++ evs /\
    In (EvTextSearch question top_k) evs /\
    forall query_embedding k, ~ In (EvVectorSearch query_embedding k) evs.
Proof.
  intros Hinit Hfail.
  assert (Hfalsy : truthy (embed_api (embed_calls w) question) = false)
    by (destruct Hfail as [-> | ->]; reflexivity).
  destruct (query_falls_back embed_api chat_api argsort self question top_k w
              Hinit Hfalsy)
    as (w' & answer & evs & Hrun & Htrace & Hchat).
  do 3 eexists. split; [exact Hrun|]. split; [reflexivity|].
  split; [exact Htrace|]. split; [right; now left|].
  intros v k [H|[H|H]]; try discriminate H.
  rewrite Forall_forall in Hchat. exact (Hchat _ H).
Qed.

Lemma query_uses_text_search_without_embedding_witness :
  exists w' response evs,
    RAGPipeline.query api_down chat_down stable_argsort pipeline_basic
      (Py.lit "alpha") 5 world0 = (w', inr response) /\
    (forall w0,
       snd (RAGPipeline._basic_text_search pipeline_basic (Py.lit "alpha") 5 w0)
         = inr (QueryResponse.sources response)) /\
    trace w' = trace world0 ++ evs /\
    In (EvTextSearch (Py.lit "alpha") 5) evs /\
    forall query_embedding k, ~ In (EvVectorSearch query_embedding k) evs.
Proof.
  exact (query_uses_text_search_without_embedding api_down chat_down
           stable_argsort pipeline_basic (Py.lit "alpha") 5 world0
           eq_refl (or_introl eq_refl)).
Defined.

(** *** The states of the pipeline *)

Lemma placeholder_dimension :
  length SimpleVectorStore.placeholder = dimension.
Proof. apply repeat_length. Qed.

Lemma add_chunks_ok self chunks embeddings :
  store_ok self ->
  Forall (fun e => truthy e = true -> length (vector_of e) = dimension)
    embeddings ->
  store_ok (SimpleVectorStore.add_chunks self chunks embeddings).
Proof.
  intros [Hlen Hdim] Hembs.
  destruct embeddings as [|e embeddings].
  - rewrite add_chunks_basic. split; cbn.
    + rewrite !length_app, repeat_length. lia.
    + apply Forall_app. split; [exact Hdim|].
      apply Forall_forall. intros v Hv. apply repeat_spec in Hv as ->.
      apply placeholder_dimension.
  - rewrite add_chunks_pairs by discriminate. split; cbn [SimpleVectorStore.chunks SimpleVectorStore.embeddings].
    + rewrite !length_app, !length_map. lia.
    + apply Forall_app. split; [exact Hdim|].
      apply Forall_map, Forall_forall. intros [c e'] Hin.
      apply in_combine_r in Hin. cbn [snd]. unfold stored_vector.
      rewrite Forall_forall in Hembs.
      destruct (truthy e') eqn:Ht; [now apply Hembs|].
      apply placeholder_dimension.
Qed.

Lemma answers_dimension embed_api texts : forall n,
  service_dimension embed_api ->
  Forall (fun e => truthy e = true -> length (vector_of e) = dimension)
    (answers embed_api n texts).
Proof.
  induction texts as [|t rest IH]; intros n Hdim; simpl; constructor; auto.
  destruct (embed_api n t) as [v|] eqn:Hv; [|discriminate].
  intros Ht. apply (Hdim n t v Hv). intros ->. discriminate Ht.
Qed.

(** Every pipeline a caller can hold has a well-formed store. *)
Lemma reachable_store_ok embed_api self :
  service_dimension embed_api -> reachable embed_api self ->
  store_ok (RAGPipeline.vector_store self).
Proof.
  intros Hdim. induction 1 as [|self documents w w' self' _ IH Hinit].
  - split; [reflexivity | constructor].
  - rewrite initialize_spec in Hinit. injection Hinit as _ <-.
    cbn [RAGPipeline.vector_store].
    match goal with |- context [filter truthy ?a] =>
      assert (Hgood : Forall (fun e => truthy e = true ->
                                length (vector_of e) = dimension)
                        (filter truthy a))
    end.
    { apply Forall_forall. intros e He. apply filter_In in He as [He _].
      pose proof (answers_dimension embed_api
                    (map Chunk.content
                       (TextChunker.split_documents
                          (RAGPipeline.text_chunker self) documents))
                    (embed_calls w) Hdim) as Hall.
      rewrite Forall_forall in Hall. now apply Hall. }
    destruct (filter truthy _); apply add_chunks_ok; auto.
Qed.

(** C8, as the claim states it, fails in its last part: with a service
    that is down while [initialize] runs, so that the store holds
    placeholders of length 1536, and that answers the question with a
    vector of length two afterwards, [query] on the initialized
    pipeline raises the [ValueError] of [np.dot]. *)
Lemma query_dimension_counterexample :
  RAGPipeline.initialize api_recovers RAGPipeline.new [doc_alpha; doc_beta]
    world0
  = (mkWorld 2 0 [EvEmbed (Py.lit "alpha"); EvEmbed (Py.lit "beta")],
     inr pipeline_basic) /\
  RAGPipeline.is_initialized pipeline_basic = true /\
  RAGPipeline.query api_recovers chat_down stable_argsort pipeline_basic
    (Py.lit "alpha") 5
    (mkWorld 2 0 [EvEmbed (Py.lit "alpha"); EvEmbed (Py.lit "beta")])
  = (mkWorld 3 0 [EvEmbed (Py.lit "alpha"); EvEmbed (Py.lit "beta");
                  EvEmbed (Py.lit "alpha");
                  EvVectorSearch [1; 0]%float 5],
     inl (SimpleVectorStore.shapes_not_aligned 2 1536)).
Proof. repeat split; vm_compute; reflexivity. Qed.

(** C8, amended: for every service, [query] on a pipeline that is not
    initialized raises the [ValueError], returns no response and calls
    nothing (the world is as it was), and [initialize] on any pipeline
    returns an initialized pipeline.  When the embedding service
    answers with vectors of length 1536, the length of the placeholder,
    that [ValueError] is the only way an operation of the pipeline
    raises: on every pipeline a caller can hold, [query] on an
    initialized pipeline returns a response. *)
Theorem query_raises_only_before_initialize
    (embed_api : nat -> Py.str -> option (list float))
    (chat_api : nat -> Py.str -> Py.str + Py.str)
    (argsort : list float -> list nat)
    (self : RAGPipeline.t) (question : Py.str) (top_k : Z) (w : World) :
  (RAGPipeline.is_initialized self = false ->
   RAGPipeline.query embed_api chat_api argsort self question top_k w
     = (w, inl (ValueError RAGPipeline.not_initialized_msg))) /\
  (forall documents, exists w' self',
     RAGPipeline.initialize embed_api self documents w = (w', inr self') /\
     RAGPipeline.is_initialized self' = true) /\
  (argsort_spec argsort ->
   service_dimension embed_api ->
   reachable embed_api self ->
   RAGPipeline.is_initialized self = true ->
   exists w' response,
     RAGPipeline.query embed_api chat_api argsort self question top_k w
       = (w', inr response)).
Proof.
  split; [|split].
  - intros Hinit. unfold RAGPipeline.query. now rewrite Hinit.
  - intros documents. rewrite initialize_spec.
    do 2 eexists. split; reflexivity.
  - intros Hspec Hdim Hreach Hinit.
    destruct (truthy (embed_api (embed_calls w) question)) eqn:Ht.
    + destruct (embed_api (embed_calls w) question) as [v|] eqn:Hv;
        [|discriminate].
      assert (Hne : v <> []) by (intros ->; discriminate).
      apply (query_by_vector embed_api chat_api argsort self question top_k w v);
        auto.
      destruct (reachable_store_ok embed_api self Hdim Hreach) as [Hlen Hall].
      split; [exact Hlen|].
      rewrite (Hdim _ _ _ Hv Hne). exact Hall.
    + destruct (query_falls_back embed_api chat_api argsort self question
                  top_k w Hinit Ht) as (w' & answer & _ & Hrun & _).
      do 2 eexists. exact Hrun.
Qed.

Lemma api_ones_dimension : service_dimension api_ones.
Proof.
  intros n text v H _.
  assert (Hv : v = repeat 1%float 1536) by (unfold api_ones in H; congruence).
  rewrite Hv. apply repeat_length.
Qed.

Lemma pipeline_ones_reachable : reachable api_ones pipeline_ones.
Proof.
  apply (reachable_initialize api_ones RAGPipeline.new
           [doc_alpha; doc_beta] world0
           (mkWorld 2 0 [EvEmbed (Py.lit "alpha"); EvEmbed (Py.lit "beta")])).
  - constructor.
  - vm_compute. reflexivity.
Qed.

(** With the service [api_ones] the question gets a vector of length
    1536 and [query] goes through the vector search, over the two
    vectors [initialize] stored; it returns both chunks (their
    similarities are equal, and the reversed order of [stable_argsort]
    puts the later one first). *)
Example query_ones_vector_path :
  let run :=
    RAGPipeline.query api_ones chat_down stable_argsort pipeline_ones
      (Py.lit "alpha") 5 world0 in
  trace (fst run)
    = [EvEmbed (Py.lit "alpha"); EvVectorSearch (repeat 1%float 1536) 5;
       EvChat (prompt_for (Py.lit "alpha")
                 (match snd run with
                  | inr response => QueryResponse.sources response
                  | inl _ => []
                  end))] /\
  match snd run with
  | inr response =>
      map Retrieved.chunk (QueryResponse.sources response)
        = [chunk_beta; chunk_alpha]
  | inl _ => False
  end.
Proof. vm_compute. split; reflexivity. Qed.

Lemma query_raises_only_before_initialize_witness :
  RAGPipeline.query api_ones chat_down stable_argsort RAGPipeline.new
    (Py.lit "alpha") 5 world0
  = (world0, inl (ValueError RAGPipeline.not_initialized_msg)) /\
  exists w' response,
    RAGPipeline.query api_ones chat_down stable_argsort pipeline_ones
      (Py.lit "alpha") 5 world0 = (w', inr response).
Proof.
  split.
  - exact (proj1 (query_raises_only_before_initialize api_ones chat_down
                    stable_argsort RAGPipeline.new (Py.lit "alpha") 5 world0)
                 eq_refl).
  - exact (proj2 (proj2 (query_raises_only_before_initialize api_ones
                    chat_down stable_argsort pipeline_ones (Py.lit "alpha")
                    5 world0))
                 stable_argsort_meets_spec api_ones_dimension
                 pipeline_ones_reachable eq_refl).
Defined.

(** *** The lexical fallback search *)



(** Inserting an exact match puts it in front. *)
Lemma insert_desc_exact x l :
  Retrieved.similarity x = 1%float -> two_levels l ->
  insert_desc x l = x :: l.
Proof.
  intros Hx Hl. destruct l as [|y l]; [reflexivity|]. simpl.
  inversion Hl as [|? ? [Hy|Hy] _]; subst; rewrite Hx, Hy; reflexivity.
Qed.









Lemma slice_to_is_firstn {A} (l : list A) k :
  exists n, Py.slice_to l k = firstn n l.
Proof. unfold Py.slice_to. now eexists. Qed.


Example text_search_three :
  snd (RAGPipeline._basic_text_search pipeline_three (Py.lit "The Sky") 5
         world0)
  = inr [RAGPipeline.entry chunk_sky 1%float;
         RAGPipeline.entry chunk_sea 0.5%float].
Proof. vm_compute. reflexivity. Qed.


(** *** The empty question *)

Lemma text_matches_empty chunks :
  RAGPipeline.text_matches [] chunks
  = map (fun chunk => RAGPipeline.entry chunk 1%float) chunks.
Proof.
  induction chunks as [|chunk rest IH]; cbn [RAGPipeline.text_matches map];
    [reflexivity|].
  now rewrite contains_empty, IH.
Qed.

Lemma sort_desc_all_exact chunks :
  sort_desc (map (fun chunk => RAGPipeline.entry chunk 1%float) chunks)
  = map (fun chunk => RAGPipeline.entry chunk 1%float) chunks.
Proof.
  induction chunks as [|chunk rest IH]; [reflexivity|].
  cbn [map sort_desc fold_right].
  fold (sort_desc (map (fun chunk => RAGPipeline.entry chunk 1%float) rest)).
  rewrite IH. apply insert_desc_exact; [reflexivity|].
  apply Forall_map, Forall_forall. intros c _. now left.
Qed.

(** C10: the lexical search gives every stored chunk the score 1.0 for
    the empty question, because the empty string occurs in every
    string; so on an initialized pipeline, when the service gives no
    embedding for the empty question, [query] with [top_k >= 0] returns
    as sources the first [top_k] stored chunks, each with score 1.0:
    not the empty list when the store holds a chunk and [top_k >= 1]. *)
Theorem query_empty_question_returns_first_chunks
    (embed_api : nat -> Py.str -> option (list float))
    (chat_api : nat -> Py.str -> Py.str + Py.str)
    (argsort : list float -> list nat)
    (self : RAGPipeline.t) (top_k : Z) (w : World) :
  RAGPipeline.is_initialized self = true ->
  truthy (embed_api (embed_calls w) []) = false ->
  0 <= top_k ->
  RAGPipeline.text_matches (Py.lower [])
    (SimpleVectorStore.chunks (RAGPipeline.vector_store self))
  = map (fun chunk => RAGPipeline.entry chunk 1%float)
      (SimpleVectorStore.chunks (RAGPipeline.vector_store self)) /\
  exists w' response,
    RAGPipeline.query embed_api chat_api argsort self [] top_k w
      = (w', inr response) /\
    QueryResponse.sources response
    = map (fun chunk => RAGPipeline.entry chunk 1%float)
        (firstn (Z.to_nat top_k)
           (SimpleVectorStore.chunks (RAGPipeline.vector_store self))) /\
    (SimpleVectorStore.chunks (RAGPipeline.vector_store self) <> [] ->
     1 <= top_k -> QueryResponse.sources response <> []).
Proof.
  intros Hinit Hfail Hk. split; [apply text_matches_empty|].
  destruct (query_falls_back embed_api chat_api argsort self [] top_k w
              Hinit Hfail) as (w' & answer & _ & Hrun & _).
  do 2 eexists. split; [exact Hrun|]. cbn [QueryResponse.sources].
  unfold text_search_result. cbn [Py.lower map].
  rewrite text_matches_empty, sort_desc_all_exact, slice_to_firstn by exact Hk.
  rewrite firstn_map. split; [reflexivity|].
  intros Hne Hk1.
  destruct (SimpleVectorStore.chunks (RAGPipeline.vector_store self));
    [congruence|].
  destruct (Z.to_nat top_k) eqn:Hn; [lia|]. discriminate.
Qed.

Lemma query_empty_question_returns_first_chunks_witness :
  exists w' response,
    RAGPipeline.query api_down chat_down stable_argsort pipeline_basic [] 1
      world0 = (w', inr response) /\
    QueryResponse.sources response = [RAGPipeline.entry chunk_alpha 1%float].
Proof.
  destruct (query_empty_question_returns_first_chunks api_down chat_down
              stable_argsort pipeline_basic 1 world0 eq_refl eq_refl)
    as (_ & w' & response & Hrun & Hsources & _); [lia|].
  exists w', response. split; [exact Hrun | exact Hsources].
Defined.

(* ================================================================== *)
(** ** Part III. Further properties of the code                        *)
(* ================================================================== *)

(** *** Stripping and slicing *)

Lemma lstrip_split s :
  exists pre, s = pre ++ Py.lstrip s /\
              Forall (fun c => Py.isspace c = true) pre.
Proof.
  induction s as [|c s (pre & Heq & Hpre)]; simpl.
  - exists []. split; [reflexivity | constructor].
  - destruct (Py.isspace c) eqn:Hc.
    + exists (c :: pre). split; [simpl; now f_equal | now constructor].
    + exists []. split; [reflexivity | constructor].
Qed.

Lemma lstrip_head s :
  match Py.lstrip s with
  | [] => True
  | c :: _ => Py.isspace c = false
  end.
Proof.
  induction s as [|c s IH]; simpl; [exact I|].
  destruct (Py.isspace c) eqn:Hc; [exact IH | exact Hc].
Qed.

Lemma lstrip_fixed s :
  match s with [] => True | c :: _ => Py.isspace c = false end ->
  Py.lstrip s = s.
Proof. destruct s as [|c s]; simpl; [reflexivity|]. now intros ->. Qed.

Lemma lstrip_idem s : Py.lstrip (Py.lstrip s) = Py.lstrip s.
Proof. apply lstrip_fixed, lstrip_head. Qed.

Lemma rstrip_split s :
  exists post, s = Py.rstrip s ++ post /\
               Forall (fun c => Py.isspace c = true) post.
Proof.
  unfold Py.rstrip. destruct (lstrip_split (rev s)) as (pre & Heq & Hpre).
  exists (rev pre). split.
  - rewrite <- rev_app_distr, <- Heq. now rewrite rev_involutive.
  - now apply Forall_rev.
Qed.

Lemma rstrip_idem s : Py.rstrip (Py.rstrip s) = Py.rstrip s.
Proof. unfold Py.rstrip. now rewrite rev_involutive, lstrip_idem. Qed.

(** Stripping the right end keeps a first character that is no space. *)
Lemma rstrip_keeps_head s :
  match s with [] => True | c :: _ => Py.isspace c = false end ->
  match Py.rstrip s with [] => True | c :: _ => Py.isspace c = false end.
Proof.
  destruct (rstrip_split s) as (post & Heq & _).
  destruct (Py.rstrip s) as [|c r]; [trivial|].
  rewrite Heq. simpl. trivial.
Qed.

Lemma strip_idem s : Py.strip (Py.strip s) = Py.strip s.
Proof.
  unfold Py.strip.
  rewrite (lstrip_fixed (Py.rstrip (Py.lstrip s)))
    by apply rstrip_keeps_head, lstrip_head.
  apply rstrip_idem.
Qed.

Lemma occurs_trans a b c : occurs a b -> occurs b c -> occurs a c.
Proof.
  intros (p1 & q1 & ->) (p2 & q2 & ->).
  exists (p2 ++ p1), (q1 ++ q2). now rewrite <- !app_assoc.
Qed.

Lemma strip_occurs s : occurs (Py.strip s) s.
Proof.
  unfold Py.strip.
  destruct (lstrip_split s) as (pre & Hs & _).
  destruct (rstrip_split (Py.lstrip s)) as (post & Hl & _).
  exists pre, post. now rewrite <- Hl.
Qed.

Lemma strip_length s : (length (Py.strip s) <= length s)%nat.
Proof.
  destruct (strip_occurs s) as (pre & post & Heq).
  rewrite Heq at 2. rewrite !length_app. lia.
Qed.

(** White space only strips to nothing. *)
Lemma strip_blank s :
  Forall (fun c => Py.isspace c = true) s -> Py.strip s = [].
Proof.
  intro H. unfold Py.strip.
  assert (Hl : Py.lstrip s = []).
  { induction H as [|c s Hc _ IH]; simpl; [reflexivity|]. now rewrite Hc. }
  now rewrite Hl.
Qed.

Lemma slice_occurs {A} (l : list A) i j :
  exists pre post, l = pre ++ Py.slice l i j ++ post.
Proof.
  unfold Py.slice.
  set (lo := Z.to_nat (Py.clamp (Py.len l) i)).
  set (hi := Z.to_nat (Py.clamp (Py.len l) j)).
  exists (firstn lo (firstn hi l)), (skipn hi l).
  now rewrite app_assoc, firstn_skipn, firstn_skipn.
Qed.

Lemma clamp_range n i : 0 <= n -> 0 <= Py.clamp n i <= n.
Proof. intro Hn. unfold Py.clamp. destruct (Z.ltb_spec i 0); lia. Qed.

Lemma clamp_nonneg n i : 0 <= i -> Py.clamp n i = Z.min i n.
Proof. intro Hi. unfold Py.clamp. destruct (Z.ltb_spec i 0); [lia|reflexivity]. Qed.

Lemma slice_length {A} (l : list A) i j :
  0 <= i -> 0 <= j -> Py.len (Py.slice l i j) <= Z.max 0 (j - i).
Proof.
  intros Hi Hj. unfold Py.slice, Py.len.
  rewrite length_skipn, length_firstn, !clamp_nonneg by assumption.
  fold (Py.len l). unfold Py.len. lia.
Qed.

(** A slice of white space is white space. *)
Lemma slice_Forall {A} (P : A -> Prop) (l : list A) i j :
  Forall P l -> Forall P (Py.slice l i j).
Proof.
  intro H. destruct (slice_occurs l i j) as (pre & post & Heq).
  rewrite Heq in H. apply Forall_app in H as [_ H].
  now apply Forall_app in H as [H _].
Qed.

(** *** [rfind] *)

Lemma rfind_aux_spec c s : forall i lo hi acc,
  Py.rfind_aux c s i lo hi acc = acc \/
  (lo <= Py.rfind_aux c s i lo hi acc < hi /\
   i <= Py.rfind_aux c s i lo hi acc /\
   nth_error s (Z.to_nat (Py.rfind_aux c s i lo hi acc - i)) = Some c).
Proof.
  induction s as [|x s IH]; intros i lo hi acc; simpl; [now left|].
  destruct ((lo <=? i) && (i <? hi) && Ascii.eqb x c) eqn:Hhit.
  - apply andb_true_iff in Hhit as [Hrange Hx].
    apply andb_true_iff in Hrange as [Hlo Hhi].
    apply Ascii.eqb_eq in Hx as ->.
    destruct (IH (i + 1) lo hi i) as [Heq | (Hr & Hi & Hnth)].
    + right. rewrite Heq. split; [lia|]. split; [lia|].
      now rewrite Z.sub_diag.
    + right. split; [exact Hr|]. split; [lia|].
      replace (Z.to_nat (Py.rfind_aux c s (i + 1) lo hi i - i))
        with (S (Z.to_nat (Py.rfind_aux c s (i + 1) lo hi i - (i + 1))))
        by lia.
      exact Hnth.
  - destruct (IH (i + 1) lo hi acc) as [Heq | (Hr & Hi & Hnth)];
      [now left|].
    right. split; [exact Hr|]. split; [lia|].
    replace (Z.to_nat (Py.rfind_aux c s (i + 1) lo hi acc - i))
      with (S (Z.to_nat (Py.rfind_aux c s (i + 1) lo hi acc - (i + 1))))
      by lia.
    exact Hnth.
Qed.

(** [rfind] answers [-1] or a position of the slice that holds the
    character. *)
Lemma rfind_spec s c start end_ :
  Py.rfind s c start end_ = -1 \/
  (Py.clamp (Py.len s) start <= Py.rfind s c start end_
     < Py.clamp (Py.len s) end_ /\
   nth_error s (Z.to_nat (Py.rfind s c start end_)) = Some c).
Proof.
  unfold Py.rfind.
  destruct (rfind_aux_spec c s 0 (Py.clamp (Py.len s) start)
              (Py.clamp (Py.len s) end_) (-1)) as [H | (Hr & _ & Hnth)];
    [now left|].
  right. split; [exact Hr|]. now rewrite Z.sub_0_r in Hnth.
Qed.

(** *** The chunks of a document *)

Section ChunkFacts.
Variable self : TextChunker.t.
Variable document : Document.t.

Let content := Document.content document.

(** What holds of [start] and [chunks] before a pass and is kept by the
    body holds when the loop ends. *)
Lemma loop_invariant (Inv : Z -> list Chunk.t -> Prop) :
  (forall start chunks,
     start < Py.len content -> Inv start chunks ->
     Inv (fst (TextChunker.loop_body self document start chunks))
         (snd (TextChunker.loop_body self document start chunks))) ->
  forall fuel start chunks passes chunks' n,
    Inv start chunks ->
    TextChunker.loop self document fuel start chunks passes
      = Some (chunks', n) ->
    exists start', Inv start' chunks'.
Proof.
  intros Hkeep. induction fuel as [|fuel IH];
    intros start chunks passes chunks' n Hinv; rewrite loop_unfold;
    fold content; destruct (Z.ltb_spec start (Py.len content)) as [Hlt|Hge];
    try discriminate.
  - intros [= <- _]. now exists start.
  - intro Hrun. eapply IH; [|exact Hrun]. now apply Hkeep.
  - intros [= <- _]. now exists start.
Qed.

Lemma run_invariant (Inv : Z -> list Chunk.t -> Prop) :
  (forall start chunks,
     start < Py.len content -> Inv start chunks ->
     Inv (fst (TextChunker.loop_body self document start chunks))
         (snd (TextChunker.loop_body self document start chunks))) ->
  Inv 0 [] ->
  exists start',
    Inv start' (TextChunker._split_single_document self document).
Proof.
  intros Hkeep H0.
  destruct (loop_enough_fuel self document
              (length (Document.content document)) 0 [] 0)
    as (chunks & n & Hrun & _); [unfold Py.len; lia|].
  unfold TextChunker._split_single_document, TextChunker.run.
  rewrite Hrun. eapply loop_invariant; eassumption.
Qed.

(** A window is either whole or cut just behind a boundary character
    that lies after its start. *)
Lemma window_end_cases start :
  0 <= start ->
  TextChunker.window_end self document start
    = start + TextChunker.chunk_size self \/
  (start + 1 < TextChunker.window_end self document start /\
   TextChunker.window_end self document start - 1
     < Py.clamp (Py.len content) (start + TextChunker.chunk_size self) /\
   exists c,
     nth_error content
       (Z.to_nat (TextChunker.window_end self document start - 1)) = Some c /\
     is_boundary c).
Proof.
  intro Hstart. unfold TextChunker.window_end. fold content.
  destruct (_ <? Py.len content); [|now left].
  set (end_ := start + TextChunker.chunk_size self).
  destruct (Z.ltb_spec start
              (Z.max (Z.max (Py.rfind content "."%char start end_)
                            (Py.rfind content "!"%char start end_))
                     (Py.rfind content "?"%char start end_)))
    as [Hcut|_]; [|now left].
  right. split; [lia|].
  assert (Hcase :
    forall c, is_boundary c ->
      start < Py.rfind content c start end_ ->
      Py.rfind content c start end_ < Py.clamp (Py.len content) end_ /\
      exists c', nth_error content (Z.to_nat (Py.rfind content c start end_))
                 = Some c' /\ is_boundary c').
  { intros c Hc Hlt. destruct (rfind_spec content c start end_)
      as [Hnone | (Hr & Hnth)]; [lia|].
    split; [lia|]. now exists c. }
  replace (Z.max (Z.max (Py.rfind content "."%char start end_)
                        (Py.rfind content "!"%char start end_))
                 (Py.rfind content "?"%char start end_) + 1 - 1)
    with (Z.max (Z.max (Py.rfind content "."%char start end_)
                       (Py.rfind content "!"%char start end_))
                (Py.rfind content "?"%char start end_)) by lia.
  destruct (Z.max_spec (Z.max (Py.rfind content "."%char start end_)
                              (Py.rfind content "!"%char start end_))
                       (Py.rfind content "?"%char start end_))
    as [[_ Hm]|[_ Hm]]; rewrite Hm in *.
  - apply Hcase; [right; now right | exact Hcut].
  - destruct (Z.max_spec (Py.rfind content "."%char start end_)
                         (Py.rfind content "!"%char start end_))
      as [[_ Hm']|[_ Hm']]; rewrite Hm' in *.
    + apply Hcase; [right; now left | exact Hcut].
    + apply Hcase; [now left | exact Hcut].
Qed.

(** With [chunk_size >= 1] a window is not empty and not longer than
    [chunk_size]. *)
Lemma window_end_bounds start :
  1 <= TextChunker.chunk_size self -> 0 <= start ->
  start < TextChunker.window_end self document start
        <= start + TextChunker.chunk_size self.
Proof.
  intros Hcs Hstart.
  destruct (window_end_cases start Hstart) as [-> | (Hlo & Hhi & _)]; [lia|].
  rewrite clamp_nonneg in Hhi by lia. lia.
Qed.

Lemma chunks_so_far_kept start chunks :
  start < Py.len content -> chunks_so_far self document start chunks ->
  chunks_so_far self document
    (fst (TextChunker.loop_body self document start chunks))
                (snd (TextChunker.loop_body self document start chunks)).
Proof.
  intros Hlt (Hstart & Hall & Hids & Hsorted & Hbelow).
  unfold TextChunker.loop_body; cbn [fst snd]. fold content.
  assert (Hbelow' :
    Forall (fun chunk =>
              Chunk.start_char chunk
              < Z.max (start + 1)
                  (TextChunker.window_end self document start
                   - TextChunker.chunk_overlap self)) chunks).
  { eapply Forall_impl; [|exact Hbelow]. cbv beta. intros; lia. }
  destruct (Py.strip (Py.slice content start
                        (TextChunker.window_end self document start)))
    as [|c rest] eqn:Hstrip; cbn [Py.nonempty].
  - repeat split; try assumption; lia.
  - split; [lia|]. split; [|split; [|split]].
    + apply Forall_app. split; [exact Hall|]. constructor; [|constructor].
      unfold chunk_of; cbn. fold content. rewrite Hstrip.
      repeat split; try reflexivity; try lia. discriminate.
    + rewrite map_app, length_app, Hids. cbn [map length].
      rewrite Nat.add_1_r, seq_S, map_app. reflexivity.
    + rewrite map_app. apply StronglySorted_app;
        [exact Hsorted | repeat constructor |].
      cbn [map Chunk.start_char]. intros x y Hx [<-|[]].
      apply in_map_iff in Hx as (chunk & <- & Hin).
      rewrite Forall_forall in Hbelow. now apply Hbelow.
    + apply Forall_app. split; [exact Hbelow'|].
      constructor; [cbn; lia | constructor].
Qed.

Lemma split_chunks_so_far :
  exists start,
    chunks_so_far self document start
      (TextChunker._split_single_document self document).
Proof.
  apply (run_invariant (chunks_so_far self document));
    [exact chunks_so_far_kept|].
  repeat split; try constructor; lia.
Qed.

End ChunkFacts.

Lemma slice_whole {A} (l : list A) j :
  Py.len l <= j -> Py.slice l 0 j = l.
Proof.
  intro Hj. unfold Py.slice, Py.len in *.
  rewrite !clamp_nonneg by lia.
  rewrite Z.min_l, Z.min_r by lia. rewrite Nat2Z.id. simpl.
  apply firstn_all.
Qed.

(** X1: every chunk [split_documents] returns is cut from one of the
    documents: it has that document's source and metadata, starts
    inside its content, ends where the window from its start ends, and
    its content is the stripped text of that window: not empty, a
    contiguous part of the document's content, and with no white space
    at either end. *)
Theorem split_documents_chunks_of
    (self : TextChunker.t) (documents : list Document.t) (chunk : Chunk.t) :
  In chunk (TextChunker.split_documents self documents) ->
  exists document,
    In document documents /\
    chunk_of self document chunk /\
    occurs (Chunk.content chunk) (Document.content document) /\
    Py.strip (Chunk.content chunk) = Chunk.content chunk.
Proof.
  unfold TextChunker.split_documents. intro Hin.
  apply in_flat_map in Hin as (document & Hdoc & Hin).
  exists document. split; [exact Hdoc|].
  destruct (split_chunks_so_far self document) as (start & _ & Hall & _).
  rewrite Forall_forall in Hall. specialize (Hall chunk Hin).
  split; [exact Hall|].
  destruct Hall as (_ & _ & _ & _ & Hcontent & _).
  rewrite Hcontent. split; [|apply strip_idem].
  eapply occurs_trans; [apply strip_occurs | apply slice_occurs].
Qed.

Lemma split_documents_chunks_of_witness :
  exists document,
    In document [doc_blank; doc_two_parts] /\
    chunk_of TextChunker.default document
      (Chunk.mk (Py.lit "ab. cdefgh") (Py.lit "parts.txt") 0 0 1000
         [(Py.lit "filename", MStr (Py.lit "parts.txt"))]).
Proof.
  destruct (split_documents_chunks_of TextChunker.default
              [doc_blank; doc_two_parts]
              (Chunk.mk (Py.lit "ab. cdefgh") (Py.lit "parts.txt") 0 0 1000
                 [(Py.lit "filename", MStr (Py.lit "parts.txt"))]))
    as (document & Hin & Hof & _).
  - vm_compute. now left.
  - now exists document.
Defined.

(** X2: the chunks of one document are numbered 0, 1, 2, ... in the
    order of the list, and their starts are strictly increasing. *)
Theorem split_single_document_numbered
    (self : TextChunker.t) (document : Document.t) :
  map Chunk.chunk_id (TextChunker._split_single_document self document)
  = map Z.of_nat
      (seq 0 (length (TextChunker._split_single_document self document))) /\
  StronglySorted Z.lt
    (map Chunk.start_char (TextChunker._split_single_document self document)).
Proof.
  destruct (split_chunks_so_far self document)
    as (start & _ & _ & Hids & Hsorted & _).
  now split.
Qed.

(** X3: with [chunk_size >= 1] every chunk of a document spans a window
    of at least one and at most [chunk_size] characters, so its content
    has at most [chunk_size] characters; and the window is either
    [chunk_size] long or ends just behind a ".", "!" or "?". *)
Theorem split_single_document_windows
    (self : TextChunker.t) (document : Document.t) (chunk : Chunk.t) :
  1 <= TextChunker.chunk_size self ->
  In chunk (TextChunker._split_single_document self document) ->
  Chunk.start_char chunk < Chunk.end_char chunk
    <= Chunk.start_char chunk + TextChunker.chunk_size self /\
  Py.len (Chunk.content chunk) <= TextChunker.chunk_size self /\
  (Chunk.end_char chunk
     = Chunk.start_char chunk + TextChunker.chunk_size self \/
   exists c,
     nth_error (Document.content document)
       (Z.to_nat (Chunk.end_char chunk - 1)) = Some c /\
     is_boundary c).
Proof.
  intros Hcs Hin.
  destruct (split_chunks_so_far self document) as (start & _ & Hall & _).
  rewrite Forall_forall in Hall.
  destruct (Hall chunk Hin) as (_ & _ & Hstart & Hend & Hcontent & _).
  pose proof (window_end_bounds self document (Chunk.start_char chunk) Hcs
                (proj1 Hstart)) as Hb.
  rewrite <- Hend in Hb. split; [exact Hb|]. split.
  - rewrite Hcontent. unfold Py.len.
    pose proof (strip_length
                  (Py.slice (Document.content document)
                     (Chunk.start_char chunk) (Chunk.end_char chunk))).
    pose proof (slice_length (Document.content document)
                  (Chunk.start_char chunk) (Chunk.end_char chunk)).
    unfold Py.len in *. lia.
  - destruct (window_end_cases self document (Chunk.start_char chunk)
                (proj1 Hstart)) as [Hwhole | (_ & _ & c & Hc & Hb')].
    + left. now rewrite Hend.
    + right. exists c. now rewrite Hend.
Qed.

Lemma split_single_document_windows_witness :
  0 < 3 <= 0 + 4 /\
  Py.len (Py.lit "ab.") <= 4 /\
  (3 = 0 + 4 \/
   exists c,
     nth_error (Document.content doc_two_parts) (Z.to_nat (3 - 1)) = Some c /\
     is_boundary c).
Proof.
  apply (split_single_document_windows (TextChunker.mk 4 1) doc_two_parts
           (Chunk.mk (Py.lit "ab.") (Py.lit "parts.txt") 0 0 3
              [(Py.lit "filename", MStr (Py.lit "parts.txt"))])).
  - simpl. lia.
  - vm_compute. now left.
Defined.

(** X4: a document of at most [chunk_size - chunk_overlap] characters
    (with [chunk_overlap >= 0]) gives one chunk, its whole content
    stripped, numbered 0, from 0 to [chunk_size]; or no chunk when the
    content is empty or white space only. *)
Theorem split_short_document
    (self : TextChunker.t) (document : Document.t) :
  0 <= TextChunker.chunk_overlap self ->
  Py.len (Document.content document)
    <= TextChunker.chunk_size self - TextChunker.chunk_overlap self ->
  TextChunker._split_single_document self document =
  if Py.nonempty (Py.strip (Document.content document)) then
    [ {| Chunk.content := Py.strip (Document.content document);
         Chunk.source := Document.source document;
         Chunk.chunk_id := 0;
         Chunk.start_char := 0;
         Chunk.end_char := TextChunker.chunk_size self;
         Chunk.metadata := Document.metadata document |} ]
  else [].
Proof.
  intros Hov Hlen.
  unfold TextChunker._split_single_document, TextChunker.run.
  destruct (Document.content document) as [|c rest] eqn:Hcontent.
  - rewrite loop_unfold, Hcontent. reflexivity.
  - cbn [length]. rewrite loop_unfold, Hcontent.
    destruct (Z.ltb_spec 0 (Py.len (c :: rest))) as [_|Hge];
      [|unfold Py.len in Hge; simpl length in Hge; lia].
    rewrite loop_unfold, Hcontent.
    unfold TextChunker.loop_body; cbn [fst snd].
    assert (Hend : TextChunker.window_end self document 0
                   = TextChunker.chunk_size self).
    { unfold TextChunker.window_end. rewrite Hcontent.
      destruct (Z.ltb_spec (0 + TextChunker.chunk_size self)
                  (Py.len (c :: rest))); lia. }
    rewrite Hend, Hcontent, slice_whole by lia.
    destruct (Z.ltb_spec
                (Z.max (0 + 1)
                   (TextChunker.chunk_size self
                    - TextChunker.chunk_overlap self))
                (Py.len (c :: rest))) as [Hlt|_].
    + unfold Py.len in *. simpl length in *. lia.
    + destruct (Py.strip (c :: rest)); reflexivity.
Qed.

Lemma split_short_document_witness :
  TextChunker._split_single_document TextChunker.default doc_two_parts =
  [Chunk.mk (Py.lit "ab. cdefgh") (Py.lit "parts.txt") 0 0 1000
     [(Py.lit "filename", MStr (Py.lit "parts.txt"))]].
Proof.
  apply (split_short_document TextChunker.default doc_two_parts).
  - simpl. lia.
  - vm_compute. discriminate.
Defined.

(** X5: a document whose content is empty or white space only gives no
    chunk, whatever the chunk size and the overlap. *)
Theorem split_blank_document
    (self : TextChunker.t) (document : Document.t) :
  Forall (fun c => Py.isspace c = true) (Document.content document) ->
  TextChunker._split_single_document self document = [].
Proof.
  intro Hblank.
  destruct (run_invariant self document (fun _ chunks => chunks = []))
    as (_ & Hnil); [|reflexivity|exact Hnil].
  intros start chunks _ ->.
  unfold TextChunker.loop_body; cbn [snd].
  rewrite strip_blank by now apply slice_Forall.
  reflexivity.
Qed.

Lemma split_blank_document_witness :
  TextChunker._split_single_document (TextChunker.mk 2 1) doc_blank = [].
Proof.
  apply (split_blank_document (TextChunker.mk 2 1) doc_blank).
  repeat constructor.
Defined.

(** *** The store that [add_chunks] builds *)

(** X6: in every store built by [add_chunks] from the empty store the
    three lists are aligned: as many embeddings as chunks, the metadata
    list is the chunks' metadata in order, and no stored vector is
    empty. *)
Theorem built_store_aligned (self : SimpleVectorStore.t) :
  built self ->
  length (SimpleVectorStore.embeddings self)
    = length (SimpleVectorStore.chunks self) /\
  SimpleVectorStore.metadata self
    = map Chunk.metadata (SimpleVectorStore.chunks self) /\
  Forall (fun e => e <> []) (SimpleVectorStore.embeddings self).
Proof.
  induction 1 as [|self chunks embeddings _ (Hlen & Hmeta & Hne)].
  - repeat split; constructor.
  - destruct embeddings as [|e embeddings].
    + rewrite add_chunks_basic.
      cbn [SimpleVectorStore.chunks SimpleVectorStore.embeddings
           SimpleVectorStore.metadata].
      rewrite !length_app, repeat_length, map_app, Hmeta, Hlen.
      repeat split; try reflexivity.
      apply Forall_app. split; [exact Hne|].
      apply Forall_forall. intros v Hv. apply repeat_spec in Hv as ->.
      discriminate.
    + rewrite add_chunks_pairs by discriminate.
      cbn [SimpleVectorStore.chunks SimpleVectorStore.embeddings
           SimpleVectorStore.metadata].
      rewrite !length_app, !length_map, map_app, map_map, Hmeta, Hlen.
      repeat split; try reflexivity.
      apply Forall_app. split; [exact Hne|].
      apply Forall_map, Forall_forall. intros [c e'] _. cbn [snd].
      unfold stored_vector. destruct e' as [[|x v]|]; simpl; discriminate.
Qed.

Lemma built_store_aligned_witness :
  length (SimpleVectorStore.embeddings store_three)
    = length (SimpleVectorStore.chunks store_three) /\
  SimpleVectorStore.metadata store_three
    = map Chunk.metadata (SimpleVectorStore.chunks store_three) /\
  Forall (fun e => e <> []) (SimpleVectorStore.embeddings store_three).
Proof.
  apply (built_store_aligned store_three). apply built_add, built_empty.
Defined.

(** X7: [add_chunks] leaves what the store holds where it is and
    appends.  With no embeddings it appends every chunk with a
    placeholder.  With embeddings it appends the chunks and the vectors
    pairwise as far as the shorter list goes, the placeholder standing
    for an embedding that is [None] or empty: chunks beyond the
    embeddings are not stored, embeddings beyond the chunks are
    ignored. *)
Theorem add_chunks_appends
    (self : SimpleVectorStore.t) (chunks : list Chunk.t)
    (embeddings : list Embedding) :
  (embeddings = [] ->
   SimpleVectorStore.chunks
     (SimpleVectorStore.add_chunks self chunks embeddings)
   = SimpleVectorStore.chunks self ++ chunks /\
   SimpleVectorStore.embeddings
     (SimpleVectorStore.add_chunks self chunks embeddings)
   = SimpleVectorStore.embeddings self
     ++ repeat SimpleVectorStore.placeholder (length chunks)) /\
  (embeddings <> [] ->
   SimpleVectorStore.chunks
     (SimpleVectorStore.add_chunks self chunks embeddings)
   = SimpleVectorStore.chunks self ++ firstn (length embeddings) chunks /\
   SimpleVectorStore.embeddings
     (SimpleVectorStore.add_chunks self chunks embeddings)
   = SimpleVectorStore.embeddings self
     ++ map stored_vector (firstn (length chunks) embeddings)).
Proof.
  split.
  - intros ->. now rewrite add_chunks_basic.
  - intros Hne. rewrite add_chunks_pairs by exact Hne.
    cbn [SimpleVectorStore.chunks SimpleVectorStore.embeddings].
    rewrite <- (combine_snd_firstn chunks embeddings), map_map.
    rewrite combine_fst_firstn. now split.
Qed.

Lemma add_chunks_appends_witness :
  SimpleVectorStore.chunks
    (SimpleVectorStore.add_chunks store_one [chunk_alpha; chunk_beta]
       [None])
  = [chunk_alpha; chunk_alpha] /\
  SimpleVectorStore.embeddings
    (SimpleVectorStore.add_chunks store_one [chunk_alpha; chunk_beta]
       [None])
  = [[1%float]; SimpleVectorStore.placeholder].
Proof.
  apply (proj2 (add_chunks_appends store_one [chunk_alpha; chunk_beta]
                  [None])).
  discriminate.
Defined.

(** *** More on [search] *)

(** [_cosine_similarity] returns exactly when the two vectors are
    equally long. *)
Lemma cosine_outcome q e :
  (length q = length e /\
   exists s, SimpleVectorStore._cosine_similarity q e = inr s) \/
  (length q <> length e /\
   SimpleVectorStore._cosine_similarity q e
     = inl (SimpleVectorStore.shapes_not_aligned (length q) (length e))).
Proof.
  unfold SimpleVectorStore._cosine_similarity, SimpleVectorStore.dot.
  destruct (Nat.eqb_spec (length q) (length e)) as [Heq|Hne].
  - left. split; [exact Heq|]. destruct (_ || _); eexists; reflexivity.
  - right. now split.
Qed.

Lemma similarities_of_returns q embeddings : forall sims,
  SimpleVectorStore.similarities_of q embeddings = inr sims ->
  Forall2 (fun e s => SimpleVectorStore._cosine_similarity q e = inr s)
    embeddings sims.
Proof.
  induction embeddings as [|e rest IH]; simpl; intros sims H.
  - injection H as <-. constructor.
  - destruct (SimpleVectorStore._cosine_similarity q e) as [|s] eqn:Hcos;
      [discriminate|].
    destruct (SimpleVectorStore.similarities_of q rest) as [|sims'];
      [discriminate|].
    injection H as <-. constructor; [exact Hcos | now apply IH].
Qed.

(** The first loop of [search] raises at the first stored vector whose
    length is not the query's. *)
Lemma similarities_of_raises q embeddings : forall err,
  SimpleVectorStore.similarities_of q embeddings = inl err ->
  exists pre e post,
    embeddings = pre ++ e :: post /\
    Forall (fun e' => length e' = length q) pre /\
    length e <> length q /\
    err = SimpleVectorStore.shapes_not_aligned (length q) (length e).
Proof.
  induction embeddings as [|e rest IH]; simpl; intros err H;
    [discriminate|].
  destruct (cosine_outcome q e) as [(Hlen & s & Hcos) | (Hlen & Hcos)];
    rewrite Hcos in H.
  - destruct (SimpleVectorStore.similarities_of q rest) as [err'|sims'];
      [|discriminate].
    injection H as <-.
    destruct (IH err' eq_refl) as (pre & e' & post & -> & Hpre & Hne & ->).
    exists (e :: pre), e', post. repeat split; auto.
  - injection H as <-. exists [], e, rest. repeat split; auto.
Qed.

Lemma argsort_length argsort (sims : list float) :
  argsort_spec argsort -> length (argsort sims) = length sims.
Proof.
  intro Hspec. destruct (Hspec sims) as [Hperm _].
  apply Permutation_length in Hperm. now rewrite length_seq in Hperm.
Qed.

Lemma argsort_NoDup argsort (sims : list float) :
  argsort_spec argsort -> NoDup (argsort sims).
Proof.
  intro Hspec. destruct (Hspec sims) as [Hperm _].
  apply (Permutation_NoDup (Permutation_sym Hperm)), seq_NoDup.
Qed.

(** With [top_k = 0], and with [top_k] at least the number of
    similarities, the slice [[-top_k:]] keeps every sorted position. *)
Lemma top_indices_all argsort (sims : list float) (top_k : Z) :
  argsort_spec argsort ->
  top_k = 0 \/ Py.len sims <= top_k ->
  SimpleVectorStore.top_indices argsort sims top_k = rev (argsort sims).
Proof.
  intros Hspec Hk. unfold SimpleVectorStore.top_indices. f_equal.
  pose proof (argsort_length argsort sims Hspec) as Hlen.
  destruct (Z.eq_dec top_k 0) as [-> | Hk0]; [apply slice_from_minus_zero|].
  destruct Hk as [-> | Hge]; [contradiction|].
  unfold Py.len in Hge. rewrite slice_from_last by lia.
  replace (length (argsort sims) - Z.to_nat top_k)%nat with 0%nat by lia.
  reflexivity.
Qed.

(** X8: [top_k = 0] does not mean no result: [search] with [top_k = 0],
    and with any [top_k] that is at least the number of stored
    embeddings, does what it does with [top_k] equal to that number,
    which is, on a store built by [add_chunks] whose vectors have the
    length of the query vector, to return every stored entry of
    positive similarity: the positions returned are distinct and are
    exactly the stored positions whose similarity is greater than
    zero. *)
Theorem search_top_k_saturates
    (argsort : list float -> list nat) (self : SimpleVectorStore.t)
    (query_embedding : list float) (top_k : Z) :
  argsort_spec argsort ->
  top_k = 0 \/ Py.len (SimpleVectorStore.embeddings self) <= top_k ->
  SimpleVectorStore.search argsort self query_embedding top_k
  = SimpleVectorStore.search argsort self query_embedding
      (Py.len (SimpleVectorStore.embeddings self)) /\
  (built self ->
   Forall (fun e => length e = length query_embedding)
     (SimpleVectorStore.embeddings self) ->
   exists sims positions,
     Forall2
       (fun e s =>
          SimpleVectorStore._cosine_similarity query_embedding e = inr s)
       (SimpleVectorStore.embeddings self) sims /\
     NoDup positions /\
     SimpleVectorStore.search argsort self query_embedding top_k
     = inr (map (fun i => (nth i (SimpleVectorStore.chunks self) no_chunk,
                           nth i sims nan)) positions) /\
     forall i,
       In i positions <->
       (i < length sims)%nat /\ (0 <? nth i sims nan)%float = true).
Proof.
  intros Hspec Hk. split.
  - unfold SimpleVectorStore.search.
    destruct (negb _); [reflexivity|].
    destruct (SimpleVectorStore.similarities_of query_embedding
                (SimpleVectorStore.embeddings self)) as [err|sims] eqn:Hsims;
      [reflexivity|].
    apply similarities_of_returns, Forall2_length in Hsims.
    unfold Py.len in *.
    rewrite !top_indices_all; try exact Hspec; [reflexivity | right | ];
      unfold Py.len.
    + lia.
    + destruct Hk as [-> | Hk]; [now left | right; lia].
  - intros Hbuilt Hdim.
    destruct (similarities_of_defined query_embedding _ Hdim)
      as (sims & Hsims & Hall).
    pose proof (Forall2_length Hall) as Hlen.
    pose proof (built_aligned self Hbuilt) as Haligned.
    assert (Htop : SimpleVectorStore.top_indices argsort sims top_k
                   = rev (argsort sims)).
    { apply top_indices_all; [exact Hspec|]. unfold Py.len in *.
      destruct Hk as [-> | Hk]; [now left | right; lia]. }
    exists sims,
      (filter (fun i => (0 <? nth i sims nan)%float) (rev (argsort sims))).
    split; [exact Hall|]. split; [|split].
    + apply NoDup_filter, NoDup_rev, argsort_NoDup, Hspec.
    + unfold SimpleVectorStore.search.
      destruct (negb (Py.nonempty (SimpleVectorStore.embeddings self)))
        eqn:Hempty.
      * destruct (SimpleVectorStore.embeddings self); [|discriminate].
        inversion Hall; subst.
        destruct (Hspec []) as [Hperm _]. simpl in Hperm.
        apply Permutation_sym, Permutation_nil in Hperm. rewrite Hperm.
        reflexivity.
      * rewrite Hsims, Htop. rewrite collect_defined; [reflexivity|].
        apply Forall_forall. intros i Hi.
        apply in_rev, (argsort_in_range argsort Hspec) in Hi. lia.
    + intro i. rewrite filter_In, <- in_rev.
      destruct (Hspec sims) as [Hperm _].
      split; intros [Hi Hpos]; (split; [|exact Hpos]).
      * now apply (argsort_in_range argsort Hspec) in Hi.
      * apply (Permutation_in _ (Permutation_sym Hperm)), in_seq. lia.
Qed.

Lemma search_top_k_saturates_witness :
  exists sims positions,
    SimpleVectorStore.search stable_argsort store_three [1; 0]%float 0
    = inr (map (fun i => (nth i (SimpleVectorStore.chunks store_three) no_chunk,
                          nth i sims nan)) positions) /\
    forall i,
      In i positions <->
      (i < length sims)%nat /\ (0 <? nth i sims nan)%float = true.
Proof.
  destruct (proj2 (search_top_k_saturates stable_argsort store_three
                     [1; 0]%float 0 stable_argsort_meets_spec
                     (or_introl eq_refl)))
    as (sims & positions & _ & _ & Hrun & Hall).
  - apply built_add, built_empty.
  - repeat constructor.
  - now exists sims, positions.
Defined.

(** On [store_three] the query [[1.0; 0.0]] has one stored vector of
    positive similarity, and [top_k = 0] returns it. *)
Example search_three_top_k_zero :
  SimpleVectorStore.search stable_argsort store_three [1; 0]%float 0
  = inr [(chunk_alpha, 1%float)].
Proof. vm_compute. reflexivity. Qed.

Lemma StronglySorted_app_cross {A} (R : A -> A -> Prop) l1 : forall l2 x y,
  StronglySorted R (l1 ++ l2) -> In x l1 -> In y l2 -> R x y.
Proof.
  induction l1 as [|a l1 IH]; intros l2 x y Hs Hx Hy; [destruct Hx|].
  simpl in Hs. inversion Hs as [|? ? Hs' Hall]; subst.
  destruct Hx as [<- | Hx].
  - rewrite Forall_forall in Hall. apply Hall, in_or_app. now right.
  - now apply (IH l2).
Qed.

(** X9: for [top_k >= 1] and stored vectors of the query's length,
    [search] returns the entries of distinct stored positions, each
    with the similarity computed for its position, and they are the
    best: a stored position of positive similarity that is not
    returned has a similarity no greater than that of every returned
    entry. *)
Theorem search_returns_the_best
    (argsort : list float -> list nat) (self : SimpleVectorStore.t)
    (query_embedding : list float) (top_k : Z) :
  argsort_spec argsort ->
  built self ->
  Forall (fun e => length e = length query_embedding)
    (SimpleVectorStore.embeddings self) ->
  1 <= top_k ->
  exists sims positions,
    Forall2
      (fun e s =>
         SimpleVectorStore._cosine_similarity query_embedding e = inr s)
      (SimpleVectorStore.embeddings self) sims /\
    NoDup positions /\
    SimpleVectorStore.search argsort self query_embedding top_k
    = inr (map (fun i => (nth i (SimpleVectorStore.chunks self) no_chunk,
                          nth i sims nan)) positions) /\
    Forall (fun i => (i < length sims)%nat /\
                     (0 <? nth i sims nan)%float = true) positions /\
    forall j,
      (j < length sims)%nat -> ~ In j positions ->
      (0 <? nth j sims nan)%float = true ->
      forall i, In i positions ->
        (nth j sims nan <=? nth i sims nan)%float = true.
Proof.
  intros Hspec Hbuilt Hdim Hk.
  destruct (similarities_of_defined query_embedding _ Hdim)
    as (sims & Hsims & Hall).
  pose proof (Forall2_length Hall) as Hlen.
  pose proof (built_aligned self Hbuilt) as Haligned.
  set (top := SimpleVectorStore.top_indices argsort sims top_k).
  exists sims, (filter (fun i => (0 <? nth i sims nan)%float) top).
  split; [exact Hall|].
  assert (Htop : top = rev (skipn (length (argsort sims) - Z.to_nat top_k)
                              (argsort sims))).
  { unfold top, SimpleVectorStore.top_indices.
    now rewrite slice_from_last by exact Hk. }
  split; [|split; [|split]].
  - apply NoDup_filter. rewrite Htop. apply NoDup_rev.
    pose proof (argsort_NoDup argsort sims Hspec) as Hnd.
    rewrite <- (firstn_skipn (length (argsort sims) - Z.to_nat top_k)
                  (argsort sims)) in Hnd.
    now apply NoDup_app_remove_l in Hnd.
  - unfold SimpleVectorStore.search.
    destruct (negb (Py.nonempty (SimpleVectorStore.embeddings self)))
      eqn:Hempty.
    + destruct (SimpleVectorStore.embeddings self); [|discriminate].
      inversion Hall; subst. unfold top, SimpleVectorStore.top_indices.
      destruct (Hspec []) as [Hperm _]. simpl in Hperm.
      apply Permutation_sym, Permutation_nil in Hperm. rewrite Hperm.
      unfold Py.slice_from. rewrite skipn_nil. reflexivity.
    + rewrite Hsims. fold top. rewrite collect_defined; [reflexivity|].
      apply Forall_forall. intros i Hi.
      apply top_indices_in, (argsort_in_range argsort Hspec) in Hi. lia.
  - apply Forall_forall. intros i Hi. apply filter_In in Hi as [Hi Hpos].
    split; [|exact Hpos].
    now apply top_indices_in, (argsort_in_range argsort Hspec) in Hi.
  - intros j Hj Hnot Hpos i Hi.
    apply filter_In in Hi as [Hi Hipos].
    assert (Hja : In j (argsort sims)).
    { destruct (Hspec sims) as [Hperm _].
      apply (Permutation_in _ (Permutation_sym Hperm)), in_seq. lia. }
    rewrite <- (firstn_skipn (length (argsort sims) - Z.to_nat top_k)
                  (argsort sims)) in Hja.
    apply in_app_or in Hja as [Hfirst | Hlast].
    + rewrite Htop in Hi. apply in_rev in Hi.
      destruct (Hspec sims) as [_ Hsorted].
      rewrite <- (firstn_skipn (length (argsort sims) - Z.to_nat top_k)
                    (argsort sims)) in Hsorted.
      pose proof (StronglySorted_app_cross _ _ _ j i Hsorted Hfirst Hi)
        as Hfle.
      cbv beta in Hfle. unfold fle in Hfle.
      now rewrite (positive_not_nan _ Hipos) in Hfle.
    + exfalso. apply Hnot, filter_In. split; [|exact Hpos].
      rewrite Htop. now apply in_rev in Hlast.
Qed.

Lemma search_returns_the_best_witness :
  exists sims positions,
    NoDup positions /\
    SimpleVectorStore.search stable_argsort store_three [1; 0]%float 1
    = inr (map (fun i => (nth i (SimpleVectorStore.chunks store_three) no_chunk,
                          nth i sims nan)) positions).
Proof.
  destruct (search_returns_the_best stable_argsort store_three [1; 0]%float 1)
    as (sims & positions & _ & Hnd & Hrun & _).
  - exact stable_argsort_meets_spec.
  - apply built_add, built_empty.
  - repeat constructor.
  - lia.
  - now exists sims, positions.
Defined.

(** A query or stored vectors of norm zero: nothing is found. *)
Lemma search_zero_norm
    (argsort : list float -> list nat) (self : SimpleVectorStore.t)
    (query_embedding : list float) (top_k : Z) :
  argsort_spec argsort ->
  built self ->
  Forall (fun e => length e = length query_embedding)
    (SimpleVectorStore.embeddings self) ->
  (SimpleVectorStore.norm query_embedding =? 0)%float = true \/
  Forall (fun e => (SimpleVectorStore.norm e =? 0)%float = true)
    (SimpleVectorStore.embeddings self) ->
  SimpleVectorStore.search argsort self query_embedding top_k = inr [].
Proof.
  intros Hspec Hbuilt Hdim Hzero. unfold SimpleVectorStore.search.
  destruct (negb _); [reflexivity|].
  destruct (similarities_of_defined query_embedding _ Hdim)
    as (sims & Hsims & Hall).
  rewrite Hsims.
  pose proof (Forall2_length Hall) as Hlen.
  pose proof (built_aligned self Hbuilt) as Haligned.
  assert (Hsims0 : forall i, (i < length sims)%nat -> nth i sims nan = 0%float).
  { intros i Hi.
    destruct (Forall2_nth_error _ _ _ Hall i _ (nth_error_nth' sims nan Hi))
      as (e & He & Hcos).
    apply (cosine_zero_either _ _ _ Hcos).
    destruct Hzero as [Hq | Hstored]; [now left | right].
    rewrite Forall_forall in Hstored. apply Hstored.
    eapply nth_error_In, He. }
  rewrite collect_defined.
  - unfold picked. rewrite filter_none; [reflexivity|].
    apply Forall_forall. intros i Hi.
    apply top_indices_in, (argsort_in_range argsort Hspec) in Hi.
    now rewrite Hsims0.
  - apply Forall_forall. intros i Hi.
    apply top_indices_in, (argsort_in_range argsort Hspec) in Hi. lia.
Qed.

(** X10: when the query vector has norm zero, or every stored vector
    has (as the placeholders have), [search] over stored vectors of the
    query's length returns the empty list, whatever [top_k]. *)
Theorem search_zero_norm_finds_nothing
    (argsort : list float -> list nat) (self : SimpleVectorStore.t)
    (query_embedding : list float) (top_k : Z) :
  argsort_spec argsort ->
  built self ->
  Forall (fun e => length e = length query_embedding)
    (SimpleVectorStore.embeddings self) ->
  (SimpleVectorStore.norm query_embedding =? 0)%float = true \/
  Forall (fun e => (SimpleVectorStore.norm e =? 0)%float = true)
    (SimpleVectorStore.embeddings self) ->
  SimpleVectorStore.search argsort self query_embedding top_k = inr [].
Proof.
  intros Hspec Hbuilt Hdim Hzero. now apply search_zero_norm.
Qed.

Lemma search_zero_norm_finds_nothing_witness :
  SimpleVectorStore.search stable_argsort store_basic
    (repeat 1%float 1536) 0 = inr [].
Proof.
  apply (search_zero_norm_finds_nothing stable_argsort store_basic
           (repeat 1%float 1536) 0).
  - exact stable_argsort_meets_spec.
  - apply built_add, built_empty.
  - repeat constructor.
  - right. repeat constructor.
Defined.

Lemma similarities_of_raises_at q pre e post :
  Forall (fun e' => length e' = length q) pre ->
  length e <> length q ->
  SimpleVectorStore.similarities_of q (pre ++ e :: post)
  = inl (SimpleVectorStore.shapes_not_aligned (length q) (length e)).
Proof.
  intros Hpre Hne. induction Hpre as [|e' pre He' _ IH]; simpl.
  - destruct (cosine_outcome q e) as [(Hlen & _) | (_ & ->)];
      [congruence | reflexivity].
  - destruct (cosine_outcome q e') as [(_ & s & ->) | (Hlen & _)];
      [|congruence].
    now rewrite IH.
Qed.

(** X11: on a store built by [add_chunks], [search] raises exactly when
    a stored vector is not as long as the query vector, and what it
    raises is the [ValueError] of [np.dot] for the first such vector;
    [top_k] plays no part. *)
Theorem search_raises_on_length_mismatch
    (argsort : list float -> list nat) (self : SimpleVectorStore.t)
    (query_embedding : list float) (top_k : Z) (err : exn) :
  argsort_spec argsort ->
  built self ->
  SimpleVectorStore.search argsort self query_embedding top_k = inl err <->
  exists pre e post,
    SimpleVectorStore.embeddings self = pre ++ e :: post /\
    Forall (fun e' => length e' = length query_embedding) pre /\
    length e <> length query_embedding /\
    err = SimpleVectorStore.shapes_not_aligned
            (length query_embedding) (length e).
Proof.
  intros Hspec Hbuilt. unfold SimpleVectorStore.search. split.
  - destruct (negb _); [discriminate|].
    destruct (SimpleVectorStore.similarities_of query_embedding
                (SimpleVectorStore.embeddings self)) as [err'|sims] eqn:Hsims.
    + intros [= <-]. now apply similarities_of_raises.
    + pose proof (Forall2_length (similarities_of_returns _ _ _ Hsims))
        as Hlen.
      pose proof (built_aligned self Hbuilt) as Haligned.
      rewrite collect_defined; [discriminate|].
      apply Forall_forall. intros i Hi.
      apply top_indices_in, (argsort_in_range argsort Hspec) in Hi. lia.
  - intros (pre & e & post & Heq & Hpre & Hne & ->).
    rewrite Heq, similarities_of_raises_at by assumption.
    destruct pre; reflexivity.
Qed.

Lemma search_raises_on_length_mismatch_witness :
  SimpleVectorStore.search stable_argsort store_basic [1; 0]%float 5
  = inl (SimpleVectorStore.shapes_not_aligned 2 1536).
Proof.
  apply (search_raises_on_length_mismatch stable_argsort store_basic
           [1; 0]%float 5).
  - exact stable_argsort_meets_spec.
  - apply built_add, built_empty.
  - exists [], SimpleVectorStore.placeholder, [SimpleVectorStore.placeholder].
    repeat split; try constructor. vm_compute. discriminate.
Defined.

(** *** More on [initialize] *)

Lemma answers_all_succeed embed_api texts : forall n,
  (forall i text, nth_error texts i = Some text ->
     truthy (embed_api (n + i)%nat text) = true) ->
  Forall (fun e => truthy e = true) (answers embed_api n texts).
Proof.
  induction texts as [|t rest IH]; intros n H; simpl; constructor.
  - specialize (H 0%nat t eq_refl). now rewrite Nat.add_0_r in H.
  - apply IH. intros i text Hi. specialize (H (S i) text Hi).
    now replace (S n + i)%nat with (n + S i)%nat by lia.
Qed.

Lemma map_stored_vector_truthy embeddings :
  Forall (fun e => truthy e = true) embeddings ->
  map stored_vector embeddings = map vector_of embeddings.
Proof.
  induction 1 as [|e rest He _ IH]; simpl; [reflexivity|].
  unfold stored_vector at 1. now rewrite He, IH.
Qed.

(** What [initialize] returns when the embedding succeeds for every
    chunk. *)
Lemma initialize_when_all_succeed
    (embed_api : nat -> Py.str -> option (list float))
    (self : RAGPipeline.t) (documents : list Document.t) (w : World) :
  (forall i chunk,
     nth_error
       (TextChunker.split_documents (RAGPipeline.text_chunker self) documents)
       i = Some chunk ->
     truthy (embed_api (embed_calls w + i)%nat (Chunk.content chunk)) = true) ->
  RAGPipeline.initialize embed_api self documents w =
  (after_embedding w
     (map Chunk.content
        (TextChunker.split_documents (RAGPipeline.text_chunker self) documents)),
   inr {| RAGPipeline.text_chunker := RAGPipeline.text_chunker self;
          RAGPipeline.vector_store :=
            {| SimpleVectorStore.chunks :=
                 SimpleVectorStore.chunks (RAGPipeline.vector_store self)
                 ++ TextChunker.split_documents
                      (RAGPipeline.text_chunker self) documents;
               SimpleVectorStore.embeddings :=
                 SimpleVectorStore.embeddings (RAGPipeline.vector_store self)
                 ++ map vector_of
                      (answers embed_api (embed_calls w)
                         (map Chunk.content
                            (TextChunker.split_documents
                               (RAGPipeline.text_chunker self) documents)));
               SimpleVectorStore.metadata :=
                 SimpleVectorStore.metadata (RAGPipeline.vector_store self)
                 ++ map Chunk.metadata
                      (TextChunker.split_documents
                         (RAGPipeline.text_chunker self) documents) |};
          RAGPipeline.is_initialized := true |}).
Proof.
  intro Hok.
  pose proof (initialize_spec embed_api self documents w) as Hrun.
  cbv zeta in Hrun.
  set (chunks := TextChunker.split_documents (RAGPipeline.text_chunker self)
                   documents) in *.
  set (ans := answers embed_api (embed_calls w) (map Chunk.content chunks))
    in *.
  assert (Hall : Forall (fun e => truthy e = true) ans).
  { apply answers_all_succeed. intros i text Hi.
    rewrite nth_error_map in Hi.
    destruct (nth_error chunks i) as [chunk|] eqn:Hc; [|discriminate].
    injection Hi as <-. now apply Hok. }
  rewrite (filter_all _ _ Hall) in Hrun.
  assert (Hlen : length ans = length chunks).
  { unfold ans. now rewrite answers_length, length_map. }
  assert (Hstore :
    match ans with
    | [] =>
        SimpleVectorStore.add_chunks (RAGPipeline.vector_store self) chunks []
    | _ :: _ =>
        SimpleVectorStore.add_chunks (RAGPipeline.vector_store self)
          (firstn (length ans) chunks) ans
    end
    = {| SimpleVectorStore.chunks :=
           SimpleVectorStore.chunks (RAGPipeline.vector_store self) ++ chunks;
         SimpleVectorStore.embeddings :=
           SimpleVectorStore.embeddings (RAGPipeline.vector_store self)
           ++ map vector_of ans;
         SimpleVectorStore.metadata :=
           SimpleVectorStore.metadata (RAGPipeline.vector_store self)
           ++ map Chunk.metadata chunks |}).
  { clearbody ans chunks. destruct ans as [|e rest].
    - destruct chunks; [|discriminate Hlen]. now rewrite add_chunks_basic.
    - rewrite add_chunks_pairs by discriminate.
      rewrite <- (map_map snd stored_vector), <- (map_map fst Chunk.metadata).
      rewrite combine_fst_firstn, combine_snd_firstn.
      rewrite Hlen, !firstn_all, <- Hlen, firstn_all.
      now rewrite map_stored_vector_truthy. }
  rewrite Hstore in Hrun. exact Hrun.
Qed.

(** X13: when the embedding succeeds for every chunk, [initialize]
    appends to the store every chunk of the documents, in order, the
    i-th with the vector the service answered for the text of that same
    chunk, and the pipeline is initialized. *)
Theorem initialize_stores_every_chunk
    (embed_api : nat -> Py.str -> option (list float))
    (self : RAGPipeline.t) (documents : list Document.t) (w : World) :
  (forall i chunk,
     nth_error
       (TextChunker.split_documents (RAGPipeline.text_chunker self) documents)
       i = Some chunk ->
     truthy (embed_api (embed_calls w + i)%nat (Chunk.content chunk)) = true) ->
  exists w' self',
    RAGPipeline.initialize embed_api self documents w = (w', inr self') /\
    RAGPipeline.is_initialized self' = true /\
    SimpleVectorStore.chunks (RAGPipeline.vector_store self')
    = SimpleVectorStore.chunks (RAGPipeline.vector_store self)
      ++ TextChunker.split_documents (RAGPipeline.text_chunker self) documents /\
    SimpleVectorStore.embeddings (RAGPipeline.vector_store self')
    = SimpleVectorStore.embeddings (RAGPipeline.vector_store self)
      ++ map vector_of
           (answers embed_api (embed_calls w)
              (map Chunk.content
                 (TextChunker.split_documents (RAGPipeline.text_chunker self)
                    documents))) /\
    forall i chunk,
      nth_error
        (TextChunker.split_documents (RAGPipeline.text_chunker self) documents)
        i = Some chunk ->
      nth_error
        (answers embed_api (embed_calls w)
           (map Chunk.content
              (TextChunker.split_documents (RAGPipeline.text_chunker self)
                 documents))) i
      = Some (embed_api (embed_calls w + i)%nat (Chunk.content chunk)).
Proof.
  intro Hok. do 2 eexists.
  split; [now apply initialize_when_all_succeed|].
  split; [reflexivity|]. split; [reflexivity|]. split; [reflexivity|].
  intros i chunk Hi. apply answers_nth_error.
  now rewrite nth_error_map, Hi.
Qed.

Lemma initialize_stores_every_chunk_witness :
  exists w' self',
    RAGPipeline.initialize api_up RAGPipeline.new [doc_alpha; doc_beta] world0
      = (w', inr self') /\
    SimpleVectorStore.chunks (RAGPipeline.vector_store self')
      = [chunk_alpha; chunk_beta] /\
    SimpleVectorStore.embeddings (RAGPipeline.vector_store self')
      = [[1; 2]; [1; 2]]%float.
Proof.
  destruct (initialize_stores_every_chunk api_up RAGPipeline.new
              [doc_alpha; doc_beta] world0 (fun _ _ _ => eq_refl))
    as (w' & self' & Hrun & _ & Hchunks & Hembs & _).
  exists w', self'. repeat split; assumption.
Defined.

(** X14: [initialize] does not raise, makes one embedding request per
    chunk of the documents, keeps the chunker, sets the pipeline
    initialized and only appends to the store: what the store held
    stays in front, and behind it come the first [n] chunks of the
    documents, for some [n], with as many vectors. *)
Theorem initialize_appends_a_prefix
    (embed_api : nat -> Py.str -> option (list float))
    (self : RAGPipeline.t) (documents : list Document.t) (w : World) :
  exists w' self' n,
    RAGPipeline.initialize embed_api self documents w = (w', inr self') /\
    embed_calls w'
    = (embed_calls w
       + length (TextChunker.split_documents (RAGPipeline.text_chunker self)
                   documents))%nat /\
    chat_calls w' = chat_calls w /\
    RAGPipeline.text_chunker self' = RAGPipeline.text_chunker self /\
    RAGPipeline.is_initialized self' = true /\
    SimpleVectorStore.chunks (RAGPipeline.vector_store self')
    = SimpleVectorStore.chunks (RAGPipeline.vector_store self)
      ++ firstn n
           (TextChunker.split_documents (RAGPipeline.text_chunker self)
              documents) /\
    exists vectors,
      SimpleVectorStore.embeddings (RAGPipeline.vector_store self')
      = SimpleVectorStore.embeddings (RAGPipeline.vector_store self)
        ++ vectors /\
      length vectors
      = length (firstn n
                  (TextChunker.split_documents (RAGPipeline.text_chunker self)
                     documents)).
Proof.
  pose proof (initialize_spec embed_api self documents w) as Hrun.
  cbv zeta in Hrun.
  set (chunks := TextChunker.split_documents (RAGPipeline.text_chunker self)
                   documents) in *.
  set (good := filter truthy
                 (answers embed_api (embed_calls w)
                    (map Chunk.content chunks))) in *.
  assert (Hlen : (length good <= length chunks)%nat).
  { unfold good.
    rewrite <- (length_map Chunk.content chunks),
      <- (answers_length embed_api (map Chunk.content chunks) (embed_calls w)).
    apply filter_length_le. }
  clearbody good chunks.
  destruct good as [|e rest].
  - rewrite add_chunks_basic in Hrun.
    do 2 eexists. exists (length chunks). split; [exact Hrun|].
    cbn. rewrite length_map, firstn_all.
    repeat split; try reflexivity.
    eexists. split; [reflexivity|]. apply repeat_length.
  - rewrite add_chunks_pairs in Hrun by discriminate.
    do 2 eexists. exists (length (e :: rest)). split; [exact Hrun|].
    cbn [embed_calls chat_calls after_embedding RAGPipeline.text_chunker
         RAGPipeline.is_initialized RAGPipeline.vector_store
         SimpleVectorStore.chunks SimpleVectorStore.embeddings].
    rewrite length_map, combine_fst_firstn, firstn_firstn, Nat.min_id.
    repeat split; try reflexivity.
    eexists. split; [reflexivity|].
    rewrite length_map, length_combine, !length_firstn. lia.
Qed.

(** X15: [initialize] is not idempotent: with a service that succeeds
    for every text, a second [initialize] over the same documents
    stores every chunk a second time. *)
Theorem initialize_twice_duplicates
    (embed_api : nat -> Py.str -> option (list float))
    (self : RAGPipeline.t) (documents : list Document.t) (w : World) :
  (forall n text, truthy (embed_api n text) = true) ->
  exists w1 self1 w2 self2,
    RAGPipeline.initialize embed_api self documents w = (w1, inr self1) /\
    RAGPipeline.initialize embed_api self1 documents w1 = (w2, inr self2) /\
    SimpleVectorStore.chunks (RAGPipeline.vector_store self2)
    = SimpleVectorStore.chunks (RAGPipeline.vector_store self)
      ++ TextChunker.split_documents (RAGPipeline.text_chunker self) documents
      ++ TextChunker.split_documents (RAGPipeline.text_chunker self) documents /\
    length (SimpleVectorStore.embeddings (RAGPipeline.vector_store self2))
    = (length (SimpleVectorStore.embeddings (RAGPipeline.vector_store self))
       + 2 * length (TextChunker.split_documents
                       (RAGPipeline.text_chunker self) documents))%nat.
Proof.
  intro Hup. do 4 eexists.
  split; [apply initialize_when_all_succeed; intros; apply Hup|].
  split; [apply initialize_when_all_succeed; intros; apply Hup|].
  cbn [RAGPipeline.text_chunker RAGPipeline.vector_store
       SimpleVectorStore.chunks SimpleVectorStore.embeddings].
  split; [now rewrite <- app_assoc|].
  rewrite !length_app, !length_map, !answers_length, !length_map. lia.
Qed.

Lemma initialize_twice_duplicates_witness :
  exists w1 self1 w2 self2,
    RAGPipeline.initialize api_up RAGPipeline.new [doc_alpha] world0
      = (w1, inr self1) /\
    RAGPipeline.initialize api_up self1 [doc_alpha] w1 = (w2, inr self2) /\
    SimpleVectorStore.chunks (RAGPipeline.vector_store self2)
      = [chunk_alpha; chunk_alpha].
Proof.
  destruct (initialize_twice_duplicates api_up RAGPipeline.new [doc_alpha]
              world0 (fun _ _ => eq_refl))
    as (w1 & self1 & w2 & self2 & H1 & H2 & Hchunks & _).
  exists w1, self1, w2, self2. repeat split; assumption.
Defined.

(** *** More on [generate_response] *)

Lemma join_occurs sep part parts :
  In part parts -> occurs part (Py.join sep parts).
Proof.
  induction parts as [|p parts IH]; [intros []|].
  intros [<- | Hin]; destruct parts as [|p' parts'].
  - apply occurs_refl.
  - cbn [Py.join]. apply occurs_app_l, occurs_refl.
  - destruct Hin.
  - cbn [Py.join]. do 2 apply occurs_app_r. now apply IH.
Qed.

Lemma context_parts_mention retrieved : forall i r,
  In r retrieved ->
  exists part,
    In part (RAGPipeline.context_parts i retrieved) /\
    occurs (Chunk.source (Retrieved.chunk r)) part /\
    occurs (Chunk.content (Retrieved.chunk r)) part.
Proof.
  induction retrieved as [|x rest IH]; intros i r; [intros []|].
  cbn [RAGPipeline.context_parts]. intros [<- | Hin].
  - eexists. split; [now left|]. split.
    + do 3 apply occurs_app_r. apply occurs_app_l, occurs_refl.
    + do 6 apply occurs_app_r. apply occurs_refl.
  - destruct (IH (S i) r Hin) as (part & Hpart & Hs & Hc).
    exists part. split; [now right | now split].
Qed.

Lemma prompt_mentions_context question context :
  occurs context (RAGPipeline.prompt_of question context) /\
  occurs question (RAGPipeline.prompt_of question context).
Proof.
  unfold RAGPipeline.prompt_of. split.
  - do 5 apply occurs_app_r. apply occurs_app_l, occurs_refl.
  - do 9 apply occurs_app_r. apply occurs_app_l, occurs_refl.
Qed.

(** What [generate_response] does with at least one retrieved entry. *)
Lemma generate_response_run chat_api question retrieved w :
  retrieved <> [] ->
  RAGPipeline.generate_response chat_api question retrieved w =
  (after_chat w (prompt_for question retrieved),
   inr match chat_api (chat_calls w) (prompt_for question retrieved) with
       | inr content => Py.strip content
       | inl _ => RAGPipeline._format_basic_response question retrieved
       end).
Proof.
  intro Hne. unfold RAGPipeline.generate_response.
  destruct retrieved as [|x rest]; [congruence|].
  cbn [Py.nonempty negb].
  unfold try_except, RAGPipeline._generate_with_openai.
  fold (prompt_for question (x :: rest)).
  destruct (chat_api (chat_calls w) (prompt_for question (x :: rest)));
    reflexivity.
Qed.

(** X16: with at least one retrieved entry [generate_response] makes
    exactly one request to the chat service; the prompt holds the
    question and the source and the content of every retrieved entry;
    the answer is the stripped text of the service's answer, or the
    text of [_format_basic_response] when the request raises. *)
Theorem generate_response_prompts_once
    (chat_api : nat -> Py.str -> Py.str + Py.str)
    (question : Py.str) (retrieved : list Retrieved.t) (w : World) :
  retrieved <> [] ->
  exists prompt,
    RAGPipeline.generate_response chat_api question retrieved w =
    ({| embed_calls := embed_calls w;
        chat_calls := S (chat_calls w);
        trace := trace w ++ [EvChat prompt] |},
     inr match chat_api (chat_calls w) prompt with
         | inr content => Py.strip content
         | inl _ => RAGPipeline._format_basic_response question retrieved
         end) /\
    Py.contains question prompt = true /\
    forall r, In r retrieved ->
      Py.contains (Chunk.source (Retrieved.chunk r)) prompt = true /\
      Py.contains (Chunk.content (Retrieved.chunk r)) prompt = true.
Proof.
  intro Hne. exists (prompt_for question retrieved).
  split; [now apply generate_response_run|].
  rewrite contains_spec.
  destruct (prompt_mentions_context question
              (Py.join (Py.nl ++ Py.nl)
                 (RAGPipeline.context_parts 1 retrieved))) as [Hctx Hq].
  split; [exact Hq|].
  intros r Hr. rewrite !contains_spec.
  destruct (context_parts_mention retrieved 1%nat r Hr)
    as (part & Hpart & Hs & Hc).
  pose proof (join_occurs (Py.nl ++ Py.nl) part _ Hpart) as Hjoin.
  split; eapply occurs_trans; try eassumption;
    eapply occurs_trans; eassumption.
Qed.

Lemma generate_response_prompts_once_witness :
  exists prompt,
    RAGPipeline.generate_response chat_up (Py.lit "what is alpha?")
      [RAGPipeline.entry chunk_alpha 1%float] world0
    = (mkWorld 0 1 [EvChat prompt],
       inr (Py.lit "Alpha is the first letter.")) /\
    Py.contains (Py.lit "a.txt") prompt = true.
Proof.
  destruct (generate_response_prompts_once chat_up (Py.lit "what is alpha?")
              [RAGPipeline.entry chunk_alpha 1%float] world0)
    as (prompt & Hrun & _ & Hall); [discriminate|].
  exists prompt. split; [exact Hrun|].
  now destruct (Hall (RAGPipeline.entry chunk_alpha 1%float) (or_introl eq_refl)).
Defined.

(** *** More on [query] *)

Section QueryPaths.
Variable embed_api : nat -> Py.str -> option (list float).
Variable chat_api : nat -> Py.str -> Py.str + Py.str.
Variable argsort : list float -> list nat.

(** [query] when the service answers the question with a non-empty
    vector. *)
Lemma query_vector_path self question top_k w v :
  RAGPipeline.is_initialized self = true ->
  embed_api (embed_calls w) question = Some v -> v <> [] ->
  RAGPipeline.query embed_api chat_api argsort self question top_k w =
  match SimpleVectorStore.search argsort (RAGPipeline.vector_store self)
          v top_k with
  | inl err => (after_vector_search w question v top_k, inl err)
  | inr results =>
      let '(w', r) :=
        RAGPipeline.generate_response chat_api question (entries_of results)
          (after_vector_search w question v top_k) in
      (w', match r with
           | inl err => inl err
           | inr answer =>
               inr {| QueryResponse.response := answer;
                      QueryResponse.sources := entries_of results;
                      QueryResponse.question := question |}
           end)
  end.
Proof.
  intros Hinit Hv Hne. unfold RAGPipeline.query. rewrite Hinit.
  cbn [negb]. unfold bind at 1. rewrite generate_embeddings_spec.
  cbn [answers filter]. rewrite Hv.
  destruct v as [|x v]; [congruence|]. cbn [truthy negb vector_of].
  unfold bind at 1. unfold RAGPipeline.vector_search.
  unfold bind at 1. unfold log, lift, bind at 1.
  cbn [after_embedding embed_calls chat_calls trace map length].
  unfold after_vector_search.
  rewrite Nat.add_1_r, <- app_assoc. cbn [app].
  destruct (SimpleVectorStore.search argsort (RAGPipeline.vector_store self)
              (x :: v) top_k) as [err|results]; [reflexivity|].
  unfold ret at 1. unfold bind at 1. fold (entries_of results).
  destruct (RAGPipeline.generate_response chat_api question
              (entries_of results) _) as [w' [err|answer]]; reflexivity.
Qed.

(** [query] when the service gives nothing truthy for the question. *)
Lemma query_text_path self question top_k w :
  RAGPipeline.is_initialized self = true ->
  truthy (embed_api (embed_calls w) question) = false ->
  RAGPipeline.query embed_api chat_api argsort self question top_k w =
  let '(w', r) :=
    RAGPipeline.generate_response chat_api question
      (text_search_result self question top_k)
      (after_text_search w question top_k) in
  (w', match r with
       | inl err => inl err
       | inr answer =>
           inr {| QueryResponse.response := answer;
                  QueryResponse.sources :=
                    text_search_result self question top_k;
                  QueryResponse.question := question |}
       end).
Proof.
  intros Hinit Hfail. unfold RAGPipeline.query. rewrite Hinit.
  cbn [negb]. unfold bind at 1. rewrite generate_embeddings_spec.
  cbn [answers filter]. rewrite Hfail.
  unfold bind at 1. rewrite basic_text_search_run.
  cbn [after_embedding embed_calls chat_calls trace map length].
  unfold after_text_search.
  rewrite Nat.add_1_r, <- app_assoc. cbn [app].
  unfold bind at 1.
  destruct (RAGPipeline.generate_response chat_api question
              (text_search_result self question top_k) _)
    as [w' [err|answer]]; reflexivity.
Qed.

End QueryPaths.

(** X17: on an initialized pipeline, when the service answers the
    question with a non-empty vector, [query] calls the store's
    [search] with that vector and [top_k] and never the text search:
    an exception of [search] leaves [query] as it is, after the
    embedding request and with no chat request; and results of
    [search] become the sources of the response, entry by entry. *)
Theorem query_uses_vector_search_with_embedding
    (embed_api : nat -> Py.str -> option (list float))
    (chat_api : nat -> Py.str -> Py.str + Py.str)
    (argsort : list float -> list nat)
    (self : RAGPipeline.t) (question : Py.str) (top_k : Z) (w : World)
    (v : list float) :
  RAGPipeline.is_initialized self = true ->
  embed_api (embed_calls w) question = Some v -> v <> [] ->
  (forall err,
     SimpleVectorStore.search argsort (RAGPipeline.vector_store self) v top_k
       = inl err ->
     RAGPipeline.query embed_api chat_api argsort self question top_k w
     = ({| embed_calls := S (embed_calls w);
           chat_calls := chat_calls w;
           trace := trace w ++ [EvEmbed question; EvVectorSearch v top_k] |},
        inl err)) /\
  (forall results,
     SimpleVectorStore.search argsort (RAGPipeline.vector_store self) v top_k
       = inr results ->
     exists w' answer evs,
       RAGPipeline.query embed_api chat_api argsort self question top_k w
       = (w', inr {| QueryResponse.response := answer;
                     QueryResponse.sources :=
                       map (fun '(chunk, score) =>
                              RAGPipeline.entry chunk score) results;
                     QueryResponse.question := question |}) /\
       trace w'
       = trace w ++ [EvEmbed question; EvVectorSearch v top_k] ++ evs /\
       Forall is_chat evs).
Proof.
  intros Hinit Hv Hne.
  pose proof (query_vector_path embed_api chat_api argsort self question
                top_k w v Hinit Hv Hne) as Hrun.
  split.
  - intros err Herr. now rewrite Herr in Hrun.
  - intros results Hres. rewrite Hres in Hrun.
    destruct (generate_response_returns chat_api question
                (entries_of results) (after_vector_search w question v top_k))
      as (w' & answer & evs & Hgen & _ & Htrace & Hchat).
    rewrite Hgen in Hrun. exists w', answer, evs.
    split; [exact Hrun|]. split; [|exact Hchat].
    rewrite Htrace. cbn [after_vector_search trace].
    now rewrite <- app_assoc.
Qed.

Lemma query_uses_vector_search_with_embedding_witness :
  exists w' answer evs results,
    SimpleVectorStore.search stable_argsort store_three [1; 2]%float 5
      = inr results /\
    RAGPipeline.query api_up chat_down stable_argsort
      (RAGPipeline.mk TextChunker.default store_three true)
      (Py.lit "alpha") 5 world0
    = (w', inr {| QueryResponse.response := answer;
                  QueryResponse.sources :=
                    map (fun '(chunk, score) =>
                           RAGPipeline.entry chunk score) results;
                  QueryResponse.question := Py.lit "alpha" |}) /\
    trace w'
    = trace world0
      ++ [EvEmbed (Py.lit "alpha"); EvVectorSearch [1; 2]%float 5] ++ evs.
Proof.
  destruct (query_uses_vector_search_with_embedding api_up chat_down
              stable_argsort
              (RAGPipeline.mk TextChunker.default store_three true)
              (Py.lit "alpha") 5 world0 [1; 2]%float eq_refl eq_refl)
    as [_ H]; [discriminate|].
  cbn [RAGPipeline.vector_store] in H.
  destruct (SimpleVectorStore.search stable_argsort store_three
              [1; 2]%float 5) as [err|results] eqn:Hsearch.
  - vm_compute in Hsearch. discriminate Hsearch.
  - destruct (H results eq_refl) as (w' & answer & evs & Hrun & Htrace & _).
    now exists w', answer, evs, results.
Defined.

Lemma collect_In chunks sims idxs : forall results,
  SimpleVectorStore.collect chunks sims idxs = inr results ->
  Forall (fun r => In (fst r) chunks) results.
Proof.
  induction idxs as [|idx rest IH]; simpl; intros results H.
  - injection H as <-. constructor.
  - destruct (nth_error sims idx) as [sim|]; [|discriminate].
    destruct (0 <? sim)%float; [|now apply IH].
    destruct (nth_error chunks idx) as [chunk|] eqn:Hchunk; [|discriminate].
    destruct (SimpleVectorStore.collect chunks sims rest) as [|results'];
      [discriminate|].
    injection H as <-. constructor; [|now apply IH].
    eapply nth_error_In, Hchunk.
Qed.

Lemma search_In argsort self q k results :
  SimpleVectorStore.search argsort self q k = inr results ->
  Forall (fun r => In (fst r) (SimpleVectorStore.chunks self)) results.
Proof.
  unfold SimpleVectorStore.search.
  destruct (negb _); [intros [= <-]; constructor|].
  destruct (SimpleVectorStore.similarities_of q _); [discriminate|].
  apply collect_In.
Qed.

Lemma text_matches_In question_lower chunks :
  Forall (fun r => exists chunk score,
            In chunk chunks /\ r = RAGPipeline.entry chunk score)
    (RAGPipeline.text_matches question_lower chunks).
Proof.
  induction chunks as [|chunk rest IH]; cbn [RAGPipeline.text_matches];
    [constructor|].
  assert (IH' : Forall (fun r => exists chunk' score,
                          In chunk' (chunk :: rest) /\
                          r = RAGPipeline.entry chunk' score)
                  (RAGPipeline.text_matches question_lower rest)).
  { eapply Forall_impl; [|exact IH]. intros r (c & s & Hin & ->).
    exists c, s. split; [now right | reflexivity]. }
  destruct (Py.contains _ _);
    [constructor; [exists chunk, 1%float; split; [now left|reflexivity]
                  | exact IH']|].
  destruct (existsb _ _);
    [constructor; [exists chunk, 0.5%float; split; [now left|reflexivity]
                  | exact IH'] | exact IH'].
Qed.

Lemma insert_desc_perm x l : Permutation (insert_desc x l) (x :: l).
Proof.
  induction l as [|y l IH]; simpl; [reflexivity|].
  destruct (_ <? _)%float; [|reflexivity].
  rewrite IH. apply perm_swap.
Qed.

(** The sort keeps the entries, each as often as it was there. *)
Lemma sort_desc_perm l : Permutation (sort_desc l) l.
Proof.
  induction l as [|x l IH]; [reflexivity|].
  cbn [sort_desc fold_right]. fold (sort_desc l).
  rewrite insert_desc_perm. now constructor.
Qed.

Lemma text_search_result_In self question top_k :
  Forall (entry_of_store (RAGPipeline.vector_store self))
    (text_search_result self question top_k).
Proof.
  unfold text_search_result. apply Forall_forall. intros r Hr.
  destruct (slice_to_is_firstn
              (sort_desc (RAGPipeline.text_matches (Py.lower question)
                 (SimpleVectorStore.chunks (RAGPipeline.vector_store self))))
              top_k) as (n & Heq).
  rewrite Heq in Hr.
  assert (Hin : In r (sort_desc
                        (RAGPipeline.text_matches (Py.lower question)
                           (SimpleVectorStore.chunks
                              (RAGPipeline.vector_store self))))).
  { rewrite <- (firstn_skipn n). apply in_or_app. now left. }
  apply (Permutation_in _ (sort_desc_perm _)) in Hin.
  pose proof (text_matches_In (Py.lower question)
                (SimpleVectorStore.chunks (RAGPipeline.vector_store self)))
    as Hall.
  rewrite Forall_forall in Hall.
  destruct (Hall r Hin) as (chunk & score & Hchunk & ->).
  repeat split. exact Hchunk.
Qed.

(** X18: whatever [query] returns, the response carries the question as
    asked, and every source in it is an entry of a chunk that is in the
    store, with that chunk's content and source: [query] never returns
    a passage the store does not hold.  This holds for every way of
    sorting and every answer of the two services. *)
Theorem query_sources_are_stored
    (embed_api : nat -> Py.str -> option (list float))
    (chat_api : nat -> Py.str -> Py.str + Py.str)
    (argsort : list float -> list nat)
    (self : RAGPipeline.t) (question : Py.str) (top_k : Z) (w w' : World)
    (response : QueryResponse.t) :
  RAGPipeline.query embed_api chat_api argsort self question top_k w
    = (w', inr response) ->
  QueryResponse.question response = question /\
  Forall (entry_of_store (RAGPipeline.vector_store self))
    (QueryResponse.sources response).
Proof.
  intro Hrun.
  destruct (RAGPipeline.is_initialized self) eqn:Hinit.
  2:{ unfold RAGPipeline.query in Hrun. rewrite Hinit in Hrun.
      discriminate Hrun. }
  destruct (truthy (embed_api (embed_calls w) question)) eqn:Ht.
  - destruct (embed_api (embed_calls w) question) as [v|] eqn:Hv;
      [|discriminate].
    assert (Hne : v <> []) by (intros ->; discriminate).
    rewrite (query_vector_path embed_api chat_api argsort self question
               top_k w v Hinit Hv Hne) in Hrun.
    destruct (SimpleVectorStore.search argsort (RAGPipeline.vector_store self)
                v top_k) as [err|results] eqn:Hsearch; [discriminate|].
    destruct (RAGPipeline.generate_response chat_api question
                (entries_of results) _) as [w'' [err|answer]];
      [discriminate|].
    injection Hrun as _ <-. split; [reflexivity|].
    cbn [QueryResponse.sources]. unfold entries_of.
    apply Forall_map. apply search_In in Hsearch.
    eapply Forall_impl; [|exact Hsearch].
    intros [chunk score] Hin. repeat split. exact Hin.
  - rewrite (query_text_path embed_api chat_api argsort self question
               top_k w Hinit Ht) in Hrun.
    destruct (RAGPipeline.generate_response chat_api question
                (text_search_result self question top_k) _)
      as [w'' [err|answer]]; [discriminate|].
    injection Hrun as _ <-. split; [reflexivity|].
    apply text_search_result_In.
Qed.

Lemma query_sources_are_stored_witness :
  exists w' response,
    RAGPipeline.query api_down chat_down stable_argsort pipeline_three
      (Py.lit "The Sky") 5 world0 = (w', inr response) /\
    QueryResponse.question response = Py.lit "The Sky" /\
    Forall (entry_of_store (RAGPipeline.vector_store pipeline_three))
      (QueryResponse.sources response).
Proof.
  destruct (RAGPipeline.query api_down chat_down stable_argsort pipeline_three
              (Py.lit "The Sky") 5 world0) as [w' [err|response]] eqn:Hrun.
  - vm_compute in Hrun. discriminate Hrun.
  - exists w', response. split; [reflexivity|].
    exact (query_sources_are_stored api_down chat_down stable_argsort
             pipeline_three (Py.lit "The Sky") 5 world0 w' response Hrun).
Defined.

(** X19: on an initialized pipeline whose store, built by [add_chunks],
    holds placeholders only (what an [initialize] in which every
    embedding failed leaves), when the service answers the question
    with a vector of the placeholder's length, [query] finds nothing:
    it returns no sources and the fixed message, makes no chat request,
    and does not fall back to the text search. *)
Theorem query_finds_nothing_among_placeholders
    (embed_api : nat -> Py.str -> option (list float))
    (chat_api : nat -> Py.str -> Py.str + Py.str)
    (argsort : list float -> list nat)
    (self : RAGPipeline.t) (question : Py.str) (top_k : Z) (w : World)
    (v : list float) :
  argsort_spec argsort ->
  RAGPipeline.is_initialized self = true ->
  built (RAGPipeline.vector_store self) ->
  Forall (fun e => e = SimpleVectorStore.placeholder)
    (SimpleVectorStore.embeddings (RAGPipeline.vector_store self)) ->
  embed_api (embed_calls w) question = Some v ->
  length v = dimension ->
  RAGPipeline.query embed_api chat_api argsort self question top_k w =
  ({| embed_calls := S (embed_calls w);
      chat_calls := chat_calls w;
      trace := trace w ++ [EvEmbed question; EvVectorSearch v top_k] |},
   inr {| QueryResponse.response := RAGPipeline.nothing_relevant_msg;
          QueryResponse.sources := [];
          QueryResponse.question := question |}).
Proof.
  intros Hspec Hinit Hbuilt Hall Hv Hlen.
  assert (Hne : v <> []) by (intros ->; discriminate Hlen).
  rewrite (query_vector_path embed_api chat_api argsort self question
             top_k w v Hinit Hv Hne).
  rewrite (search_zero_norm argsort (RAGPipeline.vector_store self) v top_k);
    [reflexivity | exact Hspec | exact Hbuilt | |].
  - eapply Forall_impl; [|exact Hall]. intros e ->.
    now rewrite placeholder_dimension.
  - right. eapply Forall_impl; [|exact Hall]. intros e ->.
    now rewrite norm_placeholder.
Qed.

Lemma query_finds_nothing_among_placeholders_witness :
  RAGPipeline.query (fun _ _ => Some (repeat 1%float 1536)) chat_up
    stable_argsort pipeline_basic (Py.lit "alpha") 5 world0 =
  (mkWorld 1 0 [EvEmbed (Py.lit "alpha");
                EvVectorSearch (repeat 1%float 1536) 5],
   inr {| QueryResponse.response := RAGPipeline.nothing_relevant_msg;
          QueryResponse.sources := [];
          QueryResponse.question := Py.lit "alpha" |}).
Proof.
  apply (query_finds_nothing_among_placeholders
           (fun _ _ => Some (repeat 1%float 1536)) chat_up stable_argsort
           pipeline_basic (Py.lit "alpha") 5 world0 (repeat 1%float 1536)).
  - exact stable_argsort_meets_spec.
  - reflexivity.
  - apply built_add, built_empty.
  - repeat constructor.
  - reflexivity.
  - apply repeat_length.
Defined.

(** The world [generate_response] leaves: one chat request when there
    is a retrieved entry, none otherwise. *)
Lemma generate_response_world chat_api question retrieved w :
  exists answer,
    RAGPipeline.generate_response chat_api question retrieved w =
    ((if Py.nonempty retrieved
      then after_chat w (prompt_for question retrieved) else w),
     inr answer).
Proof.
  destruct retrieved as [|x rest].
  - eexists. reflexivity.
  - eexists. cbn [Py.nonempty]. now apply generate_response_run.
Qed.

(** X20: on an initialized pipeline every call of [query], whether it
    returns or raises, makes exactly one request to the embedding
    service, first of all, and at most one to the chat service; and it
    makes no chat request when it raises. *)
Theorem query_requests
    (embed_api : nat -> Py.str -> option (list float))
    (chat_api : nat -> Py.str -> Py.str + Py.str)
    (argsort : list float -> list nat)
    (self : RAGPipeline.t) (question : Py.str) (top_k : Z) (w : World) :
  RAGPipeline.is_initialized self = true ->
  exists w' outcome evs,
    RAGPipeline.query embed_api chat_api argsort self question top_k w
      = (w', outcome) /\
    embed_calls w' = S (embed_calls w) /\
    (chat_calls w <= chat_calls w' <= S (chat_calls w))%nat /\
    trace w' = trace w ++ EvEmbed question :: evs /\
    ((exists err, outcome = inl err) -> chat_calls w' = chat_calls w).
Proof.
  intro Hinit.
  destruct (truthy (embed_api (embed_calls w) question)) eqn:Ht.
  - destruct (embed_api (embed_calls w) question) as [v|] eqn:Hv;
      [|discriminate].
    assert (Hne : v <> []) by (intros ->; discriminate).
    rewrite (query_vector_path embed_api chat_api argsort self question
               top_k w v Hinit Hv Hne).
    destruct (SimpleVectorStore.search argsort (RAGPipeline.vector_store self)
                v top_k) as [err|results].
    + do 3 eexists. split; [reflexivity|].
      cbn [after_vector_search embed_calls chat_calls trace].
      repeat split; try reflexivity; lia.
    + destruct (generate_response_world chat_api question
                  (entries_of results)
                  (after_vector_search w question v top_k)) as (answer & ->).
      destruct (Py.nonempty (entries_of results));
        do 3 eexists; (split; [reflexivity|]);
        cbn [after_chat after_vector_search embed_calls chat_calls trace];
        (split; [reflexivity|]); (split; [lia|]);
        (split; [try rewrite <- app_assoc; reflexivity|]);
        intros (err & Herr); discriminate Herr.
  - rewrite (query_text_path embed_api chat_api argsort self question
               top_k w Hinit Ht).
    destruct (generate_response_world chat_api question
                (text_search_result self question top_k)
                (after_text_search w question top_k)) as (answer & ->).
    destruct (Py.nonempty (text_search_result self question top_k));
      do 3 eexists; (split; [reflexivity|]);
      cbn [after_chat after_text_search embed_calls chat_calls trace];
      (split; [reflexivity|]); (split; [lia|]);
      (split; [try rewrite <- app_assoc; reflexivity|]);
      intros (err & Herr); discriminate Herr.
Qed.

Lemma query_requests_witness :
  exists w' outcome evs,
    RAGPipeline.query api_recovers chat_down stable_argsort pipeline_basic
      (Py.lit "alpha") 5 world0 = (w', outcome) /\
    embed_calls w' = 1%nat /\
    trace w' = EvEmbed (Py.lit "alpha") :: evs.
Proof.
  destruct (query_requests api_recovers chat_down stable_argsort
              pipeline_basic (Py.lit "alpha") 5 world0 eq_refl)
    as (w' & outcome & evs & Hrun & Hcalls & _ & Htrace & _).
  now exists w', outcome, evs.
Defined.

(** *** The document loader *)

Lemma str_eqb_eq a b : DocumentLoader.str_eqb a b = true <-> a = b.
Proof.
  unfold DocumentLoader.str_eqb.
  destruct (list_eq_dec Ascii.ascii_dec a b); split; congruence.
Qed.

Example load_documents_example :
  DocumentLoader.load_documents files_example =
  [ Document.mk (Py.lit "The sky is blue. ") (Py.lit "data/notes.txt")
      (Py.lit "text")
      [(Py.lit "filename", MStr (Py.lit "notes.txt"));
       (Py.lit "size", MInt 17)];
    Document.mk
      (Py.lit "--- Page 2 ---" ++ Py.nl ++ Py.lit "Grass.")
      (Py.lit "data/paper.PDF") (Py.lit "pdf")
      [(Py.lit "filename", MStr (Py.lit "paper.PDF"));
       (Py.lit "pages", MInt 2);
       (Py.lit "size", MInt 24)];
    Document.mk (Py.lit "  ") (Py.lit "data/blank.txt") (Py.lit "text")
      [(Py.lit "filename", MStr (Py.lit "blank.txt"));
       (Py.lit "size", MInt 2)] ].
Proof. vm_compute. reflexivity. Qed.

Section LoaderFacts.
Variable files : Files.t.

(** What a document loaded from a path is. *)
Lemma load_single_document_spec file_path doc :
  DocumentLoader._load_single_document files file_path = Some doc ->
  Document.source doc = FilePath.text file_path /\
  type_of_suffix (Py.lower (FilePath.suffix file_path)) (Document.type doc) /\
  meta_get (Py.lit "filename") (Document.metadata doc)
    = Some (MStr (FilePath.name file_path)) /\
  (exists size,
     meta_get (Py.lit "size") (Document.metadata doc) = Some (MInt size) /\
     Py.len (Document.content doc) <= size /\
     (Document.type doc = Py.lit "text" ->
      size = Py.len (Document.content doc) /\
      Files.read_text files file_path = Some (Document.content doc))) /\
  (Document.type doc <> Py.lit "text" ->
   Document.content doc <> [] /\
   Py.strip (Document.content doc) = Document.content doc).
Proof.
  unfold DocumentLoader._load_single_document.
  destruct (DocumentLoader.str_eqb _ (Py.lit ".txt")) eqn:Htxt;
    [|destruct (DocumentLoader.str_eqb _ (Py.lit ".pdf")) eqn:Hpdf;
      [|destruct (DocumentLoader.str_eqb _ (Py.lit ".docx")) eqn:Hdocx;
        [|discriminate]]].
  - apply str_eqb_eq in Htxt. unfold DocumentLoader._load_text_file.
    destruct (Files.read_text files file_path) as [content|]; [|discriminate].
    intros [= <-].
    cbn [Document.content Document.source Document.type Document.metadata].
    split; [reflexivity|]. split; [left; now split|].
    split; [reflexivity|]. split.
    + exists (Py.len content). repeat split; try reflexivity; lia.
    + intro H. now contradiction H.
  - apply str_eqb_eq in Hpdf. unfold DocumentLoader._load_pdf_file.
    destruct (Files.pdf_pages files file_path) as [pages|]; [|discriminate].
    destruct (DocumentLoader.pdf_content 0 pages []) as [content|];
      [|discriminate].
    destruct (Py.strip content) as [|c rest] eqn:Hstrip; [discriminate|].
    intros [= <-].
    cbn [Document.content Document.source Document.type Document.metadata].
    split; [reflexivity|]. split; [right; left; now split|].
    split; [reflexivity|]. split.
    + exists (Py.len content). split; [reflexivity|]. split.
      * rewrite <- Hstrip. pose proof (strip_length content).
        unfold Py.len. lia.
      * intro H. discriminate H.
    + intros _. split; [discriminate|].
      rewrite <- Hstrip. apply strip_idem.
  - apply str_eqb_eq in Hdocx. unfold DocumentLoader._load_docx_file.
    destruct (Files.docx_paragraphs files file_path) as [paragraphs|];
      [|discriminate].
    destruct (Py.strip (DocumentLoader.docx_content paragraphs []))
      as [|c rest] eqn:Hstrip; [discriminate|].
    intros [= <-].
    cbn [Document.content Document.source Document.type Document.metadata].
    split; [reflexivity|]. split; [right; right; now split|].
    split; [reflexivity|]. split.
    + exists (Py.len (DocumentLoader.docx_content paragraphs [])).
      split; [reflexivity|]. split.
      * rewrite <- Hstrip.
        pose proof (strip_length (DocumentLoader.docx_content paragraphs [])).
        unfold Py.len. lia.
      * intro H. discriminate H.
    + intros _. split; [discriminate|].
      rewrite <- Hstrip. apply strip_idem.
Qed.

Lemma load_paths_In paths doc :
  In doc (DocumentLoader.load_paths files paths) ->
  exists file_path,
    In file_path paths /\
    DocumentLoader._load_single_document files file_path = Some doc.
Proof.
  induction paths as [|p rest IH]; cbn [DocumentLoader.load_paths];
    [intros []|].
  assert (IH' : In doc (DocumentLoader.load_paths files rest) ->
                exists file_path,
                  In file_path (p :: rest) /\
                  DocumentLoader._load_single_document files file_path
                    = Some doc).
  { intro H. destruct (IH H) as (q & Hq & Hload). exists q.
    split; [now right | exact Hload]. }
  destruct (DocumentLoader.supported _); [|exact IH'].
  destruct (DocumentLoader._load_single_document files p) as [d|] eqn:Hp;
    [|exact IH'].
  intros [<- | Hin]; [|now apply IH'].
  exists p. split; [now left | exact Hp].
Qed.

End LoaderFacts.

(** X21: every document [load_documents] returns comes from a listed
    path: its source is the path, its type is "text", "pdf" or "docx"
    by the lower-cased suffix ".txt", ".pdf" or ".docx", and its
    metadata name the file.  The size in the metadata is never less
    than the length of the content; for a text file it is that length
    and the content is what was read, unchanged; for a PDF or a Word
    file the content is not empty and has no white space at either
    end. *)
Theorem load_documents_sound (files : Files.t) (doc : Document.t) :
  In doc (DocumentLoader.load_documents files) ->
  exists file_path,
    In file_path (Files.listing files) /\
    Document.source doc = FilePath.text file_path /\
    type_of_suffix (Py.lower (FilePath.suffix file_path)) (Document.type doc) /\
    meta_get (Py.lit "filename") (Document.metadata doc)
      = Some (MStr (FilePath.name file_path)) /\
    (exists size,
       meta_get (Py.lit "size") (Document.metadata doc) = Some (MInt size) /\
       Py.len (Document.content doc) <= size /\
       (Document.type doc = Py.lit "text" ->
        size = Py.len (Document.content doc) /\
        Files.read_text files file_path = Some (Document.content doc))) /\
    (Document.type doc <> Py.lit "text" ->
     Document.content doc <> [] /\
     Py.strip (Document.content doc) = Document.content doc).
Proof.
  intro Hin. apply load_paths_In in Hin as (file_path & Hpath & Hload).
  exists file_path. split; [exact Hpath|].
  now apply load_single_document_spec.
Qed.

Lemma load_documents_sound_witness :
  exists file_path,
    In file_path (Files.listing files_example) /\
    FilePath.text file_path = Py.lit "data/paper.PDF" /\
    type_of_suffix (Py.lower (FilePath.suffix file_path)) (Py.lit "pdf").
Proof.
  destruct (load_documents_sound files_example
              (Document.mk
                 (Py.lit "--- Page 2 ---" ++ Py.nl ++ Py.lit "Grass.")
                 (Py.lit "data/paper.PDF") (Py.lit "pdf")
                 [(Py.lit "filename", MStr (Py.lit "paper.PDF"));
                  (Py.lit "pages", MInt 2);
                  (Py.lit "size", MInt 24)]))
    as (file_path & Hin & Hsource & Htype & _).
  - vm_compute. right. now left.
  - exists file_path. repeat split; [exact Hin | now rewrite <- Hsource | exact Htype].
Defined.

(** A string with a character that is no white space does not strip to
    nothing. *)
Lemma strip_nonempty s c :
  In c s -> Py.isspace c = false -> Py.strip s <> [].
Proof.
  intros Hin Hc Hstrip.
  destruct (lstrip_split s) as (pre & Hs & Hpre).
  destruct (rstrip_split (Py.lstrip s)) as (post & Hl & Hpost).
  unfold Py.strip in Hstrip. rewrite Hstrip in Hl. simpl in Hl.
  rewrite Hl in Hs. rewrite Hs in Hin.
  apply in_app_or in Hin as [Hin | Hin].
  - rewrite Forall_forall in Hpre. rewrite (Hpre c Hin) in Hc. discriminate.
  - rewrite Forall_forall in Hpost. rewrite (Hpost c Hin) in Hc. discriminate.
Qed.

Lemma lstrip_app_nonspace x c y :
  Py.isspace c = false ->
  exists u, Py.lstrip (x ++ c :: y) = u ++ c :: y.
Proof.
  intro Hc. induction x as [|a x (u & IH)]; simpl.
  - exists []. now rewrite Hc.
  - destruct (Py.isspace a); [now exists u | now exists (a :: x)].
Qed.

(** Stripping the right end keeps everything up to a character that is
    no white space. *)
Lemma rstrip_app_nonspace a c b :
  Py.isspace c = false ->
  exists t, Py.rstrip (a ++ c :: b) = a ++ c :: t.
Proof.
  intro Hc. unfold Py.rstrip.
  rewrite rev_app_distr. cbn [rev]. rewrite <- app_assoc. cbn [app].
  destruct (lstrip_app_nonspace (rev b) c (rev a) Hc) as (u & ->).
  exists (rev u). rewrite rev_app_distr. cbn [rev].
  now rewrite rev_involutive, <- app_assoc.
Qed.

Section PdfFacts.
Variable files : Files.t.

(** What the loop over the pages adds to [content]: nothing when no
    page has text, and otherwise a text that begins with a line feed
    and the marker of a page. *)
Lemma pdf_content_spec pages : forall page_num content result,
  DocumentLoader.pdf_content page_num pages content = Some result ->
  Forall (fun page => page <> None) pages /\
  ((Forall (fun page => page = Some []) pages /\ result = content) \/
   (Exists (fun page => exists text, page = Some text /\ text <> []) pages /\
    exists n rest,
      result = content ++ Py.nl ++ Py.lit "--- Page " ++ Py.str_of_nat n
               ++ Py.lit " ---" ++ rest)).
Proof.
  induction pages as [|page pages IH]; intros page_num content result;
    cbn [DocumentLoader.pdf_content].
  - intros [= <-]. split; [constructor|]. left. now split.
  - destruct page as [page_text|]; [|discriminate].
    intro H. apply IH in H as (Hall & Hcases).
    split; [constructor; [discriminate | exact Hall]|].
    destruct page_text as [|c page_text]; cbn [Py.nonempty] in Hcases.
    + destruct Hcases as [(Hempty & ->) | (Hex & n & rest & ->)].
      * left. split; [now constructor | reflexivity].
      * right. split; [now apply Exists_cons_tl|]. now exists n, rest.
    + right. split.
      * apply Exists_cons_hd. exists (c :: page_text). split; [reflexivity | discriminate].
      * destruct Hcases as [(_ & ->) | (_ & n & rest & ->)].
        -- exists (page_num + 1)%nat. eexists. reflexivity.
        -- exists (page_num + 1)%nat. eexists.
           rewrite <- !app_assoc. reflexivity.
Qed.

Lemma pdf_content_defined pages : forall page_num content,
  Forall (fun page => page <> None) pages ->
  exists result,
    DocumentLoader.pdf_content page_num pages content = Some result.
Proof.
  induction pages as [|page pages IH]; intros page_num content Hall;
    cbn [DocumentLoader.pdf_content]; [now eexists|].
  inversion Hall as [|? ? Hpage Hrest]; subst.
  destruct page as [page_text|]; [|congruence]. now apply IH.
Qed.

End PdfFacts.

(** X22: [_load_pdf_file] returns a document exactly when the reader
    opens the file, no page raises and some page has a non-empty text
    (white space counts as text); what it returns begins with the
    marker "--- Page ". *)
Theorem load_pdf_file_returns (files : Files.t) (file_path : FilePath.t) :
  ((exists doc, DocumentLoader._load_pdf_file files file_path = Some doc) <->
   exists pages,
     Files.pdf_pages files file_path = Some pages /\
     Forall (fun page => page <> None) pages /\
     Exists (fun page => exists text, page = Some text /\ text <> []) pages) /\
  (forall doc,
     DocumentLoader._load_pdf_file files file_path = Some doc ->
     Py.startswith (Document.content doc) (Py.lit "--- Page ") = true).
Proof.
  assert (Hmarker : forall n rest,
            exists t,
              Py.strip ([] ++ Py.nl ++ Py.lit "--- Page " ++ Py.str_of_nat n
                        ++ Py.lit " ---" ++ rest)
              = Py.lit "--- Page " ++ Py.str_of_nat n ++ Py.lit " --"
                ++ "-"%char :: t).
  { intros n rest. unfold Py.strip.
    replace (Py.lstrip ([] ++ Py.nl ++ Py.lit "--- Page " ++ Py.str_of_nat n
                        ++ Py.lit " ---" ++ rest))
      with ((Py.lit "--- Page " ++ Py.str_of_nat n ++ Py.lit " --")
            ++ "-"%char :: rest)
      by (rewrite <- !app_assoc; reflexivity).
    destruct (rstrip_app_nonspace
                (Py.lit "--- Page " ++ Py.str_of_nat n ++ Py.lit " --")
                "-"%char rest eq_refl) as (t & ->).
    exists t. now rewrite <- !app_assoc. }
  unfold DocumentLoader._load_pdf_file. split; [split|].
  - intros (doc & Hdoc).
    destruct (Files.pdf_pages files file_path) as [pages|]; [|discriminate].
    exists pages. split; [reflexivity|].
    destruct (DocumentLoader.pdf_content 0 pages []) as [content|] eqn:Hc;
      [|discriminate].
    apply pdf_content_spec in Hc as (Hall & [(Hempty & ->) | (Hex & _)]).
    + discriminate Hdoc.
    + now split.
  - intros (pages & -> & Hall & Hex).
    destruct (pdf_content_defined pages 0%nat [] Hall) as (content & Hc).
    rewrite Hc.
    destruct (pdf_content_spec pages 0%nat [] content Hc)
      as (_ & [(Hempty & _) | (_ & n & rest & ->)]).
    + exfalso. apply Exists_exists in Hex as (page & Hin & text & -> & Hne).
      rewrite Forall_forall in Hempty. specialize (Hempty _ Hin).
      congruence.
    + destruct (Hmarker n rest) as (t & ->). cbn [Py.nonempty negb].
      now eexists.
  - intros doc.
    destruct (Files.pdf_pages files file_path) as [pages|]; [|discriminate].
    destruct (DocumentLoader.pdf_content 0 pages []) as [content|] eqn:Hc;
      [|discriminate].
    apply pdf_content_spec in Hc as (_ & [(_ & ->) | (_ & n & rest & ->)]).
    + discriminate.
    + destruct (Hmarker n rest) as (t & ->). cbn [Py.nonempty negb].
      intros [= <-]. cbn [Document.content]. apply startswith_spec.
      now exists (Py.str_of_nat n ++ Py.lit " --" ++ "-"%char :: t).
Qed.

Lemma load_pdf_file_returns_witness :
  exists doc, DocumentLoader._load_pdf_file files_example path_paper = Some doc.
Proof.
  apply (proj1 (load_pdf_file_returns files_example path_paper)).
  exists [Some []; Some (Py.lit "Grass. ")]. split; [reflexivity|]. split.
  - repeat constructor; discriminate.
  - apply Exists_cons_tl, Exists_cons_hd. eexists. split; [reflexivity|].
    discriminate.
Defined.

Lemma strip_nonempty_inv s :
  Py.strip s <> [] -> exists c, In c s /\ Py.isspace c = false.
Proof.
  intro Hne.
  destruct (Forall_Exists_dec (fun c => Py.isspace c = true)
              (fun c => bool_dec (Py.isspace c) true) s) as [Hall | Hex].
  - now rewrite strip_blank in Hne.
  - apply Exists_exists in Hex as (c & Hin & Hc). exists c.
    split; [exact Hin|]. now destruct (Py.isspace c).
Qed.

(** The loop over the paragraphs adds every paragraph that is not
    blank, with a line feed behind it. *)
Lemma docx_content_spec paragraphs : forall content,
  DocumentLoader.docx_content paragraphs content
  = content
    ++ concat (map (fun text => text ++ Py.nl)
                 (filter (fun text => Py.nonempty (Py.strip text)) paragraphs)).
Proof.
  induction paragraphs as [|text rest IH]; intro content;
    cbn [DocumentLoader.docx_content filter]; [now rewrite app_nil_r|].
  rewrite IH. destruct (Py.nonempty (Py.strip text)); [|reflexivity].
  cbn [map concat]. now rewrite <- !app_assoc.
Qed.

(** X23: [_load_docx_file] returns a document exactly when the file
    opens and some paragraph is not blank; the content is then the
    paragraphs that are not blank, in order, each followed by a line
    feed, stripped as a whole; and the metadata count all paragraphs,
    blank ones too. *)
Theorem load_docx_file_returns (files : Files.t) (file_path : FilePath.t) :
  ((exists doc, DocumentLoader._load_docx_file files file_path = Some doc) <->
   exists paragraphs,
     Files.docx_paragraphs files file_path = Some paragraphs /\
     Exists (fun text => Py.strip text <> []) paragraphs) /\
  (forall doc paragraphs,
     DocumentLoader._load_docx_file files file_path = Some doc ->
     Files.docx_paragraphs files file_path = Some paragraphs ->
     Document.content doc
     = Py.strip
         (concat (map (fun text => text ++ Py.nl)
                    (filter (fun text => Py.nonempty (Py.strip text))
                       paragraphs))) /\
     meta_get (Py.lit "paragraphs") (Document.metadata doc)
     = Some (MInt (Py.len paragraphs))).
Proof.
  unfold DocumentLoader._load_docx_file. split; [split|].
  - intros (doc & Hdoc).
    destruct (Files.docx_paragraphs files file_path) as [paragraphs|];
      [|discriminate].
    exists paragraphs. split; [reflexivity|].
    rewrite docx_content_spec in Hdoc. cbn [app] in Hdoc.
    destruct (filter (fun text => Py.nonempty (Py.strip text)) paragraphs)
      as [|text kept] eqn:Hkept; [discriminate Hdoc|].
    assert (Hin : In text (filter (fun text => Py.nonempty (Py.strip text))
                             paragraphs)) by (rewrite Hkept; now left).
    apply filter_In in Hin as [Hin Hne].
    apply Exists_exists. exists text. split; [exact Hin|].
    now destruct (Py.strip text).
  - intros (paragraphs & -> & Hex).
    apply Exists_exists in Hex as (text & Hin & Hne).
    destruct (strip_nonempty_inv text Hne) as (c & Hc & Hspace).
    assert (Hcontent :
      Py.strip (DocumentLoader.docx_content paragraphs []) <> []).
    { apply (strip_nonempty _ c); [|exact Hspace].
      rewrite docx_content_spec. cbn [app].
      apply in_concat. exists (text ++ Py.nl). split.
      - apply (in_map (fun t => t ++ Py.nl)), filter_In.
        split; [exact Hin|]. now destruct (Py.strip text).
      - apply in_or_app. now left. }
    destruct (Py.strip (DocumentLoader.docx_content paragraphs []));
      [congruence|].
    cbn [Py.nonempty negb]. now eexists.
  - intros doc paragraphs Hdoc Hpars. rewrite Hpars in Hdoc.
    rewrite docx_content_spec in Hdoc. cbn [app] in Hdoc.
    destruct (negb _); [discriminate|].
    injection Hdoc as <-. split; reflexivity.
Qed.

Lemma load_docx_file_returns_witness :
  exists doc,
    DocumentLoader._load_docx_file
      (Files.mk [] (fun _ => None) (fun _ => None)
         (fun _ => Some [Py.lit "  "; Py.lit "Title"; Py.lit "Body text."]))
      path_image = Some doc.
Proof.
  apply (proj1 (load_docx_file_returns
                  (Files.mk [] (fun _ => None) (fun _ => None)
                     (fun _ => Some [Py.lit "  "; Py.lit "Title";
                                     Py.lit "Body text."]))
                  path_image)).
  eexists. split; [reflexivity|].
  apply Exists_cons_tl, Exists_cons_hd. vm_compute. discriminate.
Defined.

Lemma load_paths_app files l1 l2 :
  DocumentLoader.load_paths files (l1 ++ l2)
  = DocumentLoader.load_paths files l1 ++ DocumentLoader.load_paths files l2.
Proof.
  induction l1 as [|p l1 IH]; cbn [app DocumentLoader.load_paths];
    [reflexivity|].
  destruct (DocumentLoader.supported _); [|exact IH].
  destruct (DocumentLoader._load_single_document files p);
    [now rewrite IH | exact IH].
Qed.

(** X24: a path that is skipped changes nothing for the others: when
    its suffix is none of the three, or its text cannot be read, the
    documents loaded are those of the paths before it followed by those
    of the paths after it.  A path of another suffix is not read at
    all: the same holds whatever the readers would give for it. *)
Theorem load_documents_skips
    (files : Files.t) (before after : list FilePath.t) (file_path : FilePath.t) :
  DocumentLoader.supported (Py.lower (FilePath.suffix file_path)) = false \/
  (Py.lower (FilePath.suffix file_path) = Py.lit ".txt" /\
   Files.read_text files file_path = None) ->
  DocumentLoader.load_paths files (before ++ file_path :: after)
  = DocumentLoader.load_paths files before
    ++ DocumentLoader.load_paths files after.
Proof.
  intro Hskip. rewrite load_paths_app. f_equal.
  cbn [DocumentLoader.load_paths].
  destruct Hskip as [-> | [Hsuffix Hread]]; [reflexivity|].
  unfold DocumentLoader._load_single_document, DocumentLoader._load_text_file.
  rewrite Hsuffix, Hread.
  destruct (DocumentLoader.supported (Py.lit ".txt")); reflexivity.
Qed.

Lemma load_documents_skips_witness :
  DocumentLoader.load_paths files_example
    ([path_notes] ++ path_broken :: [path_blank])
  = DocumentLoader.load_paths files_example [path_notes]
    ++ DocumentLoader.load_paths files_example [path_blank].
Proof.
  apply (load_documents_skips files_example [path_notes] [path_blank]
           path_broken).
  right. split; reflexivity.
Defined.

(** *** From the files to the store *)

Lemma chunk_of_length self document chunk :
  1 <= TextChunker.chunk_size self ->
  chunk_of self document chunk ->
  Py.len (Chunk.content chunk) <= TextChunker.chunk_size self.
Proof.
  intros Hcs (_ & _ & Hstart & Hend & Hcontent & _).
  pose proof (window_end_bounds self document (Chunk.start_char chunk) Hcs
                (proj1 Hstart)) as Hb.
  rewrite <- Hend in Hb. rewrite Hcontent.
  pose proof (strip_length
                (Py.slice (Document.content document)
                   (Chunk.start_char chunk) (Chunk.end_char chunk))).
  pose proof (slice_length (Document.content document)
                (Chunk.start_char chunk) (Chunk.end_char chunk)).
  unfold Py.len in *. lia.
Qed.

(** X25: [initialize] on a new pipeline over the documents the loader
    returns leaves in the store only chunks of listed files with one of
    the three suffixes: the source of every stored chunk is the path of
    such a file, and its content is not empty and at most 1000
    characters long. *)
Theorem initialize_from_files
    (embed_api : nat -> Py.str -> option (list float))
    (files : Files.t) (w : World) :
  exists w' self',
    RAGPipeline.initialize embed_api RAGPipeline.new
      (DocumentLoader.load_documents files) w = (w', inr self') /\
    Forall (fun chunk =>
      Chunk.content chunk <> [] /\
      Py.len (Chunk.content chunk) <= 1000 /\
      exists file_path,
        In file_path (Files.listing files) /\
        DocumentLoader.supported (Py.lower (FilePath.suffix file_path))
          = true /\
        Chunk.source chunk = FilePath.text file_path)
      (SimpleVectorStore.chunks (RAGPipeline.vector_store self')).
Proof.
  do 2 eexists. split; [apply initialize_spec|]. cbv zeta.
  cbn [RAGPipeline.vector_store RAGPipeline.text_chunker RAGPipeline.new].
  set (chunks := TextChunker.split_documents TextChunker.default
                   (DocumentLoader.load_documents files)).
  assert (Hall : forall chunk, In chunk chunks ->
            Chunk.content chunk <> [] /\
            Py.len (Chunk.content chunk) <= 1000 /\
            exists file_path,
              In file_path (Files.listing files) /\
              DocumentLoader.supported (Py.lower (FilePath.suffix file_path))
                = true /\
              Chunk.source chunk = FilePath.text file_path).
  { intros chunk Hin. unfold chunks, TextChunker.split_documents in Hin.
    apply in_flat_map in Hin as (document & Hdoc & Hin).
    destruct (split_chunks_so_far TextChunker.default document)
      as (start & _ & Hchunks & _).
    rewrite Forall_forall in Hchunks. specialize (Hchunks chunk Hin).
    split; [apply Hchunks|].
    split; [apply (chunk_of_length TextChunker.default document);
            [simpl; lia | exact Hchunks]|].
    apply load_paths_In in Hdoc as (file_path & Hpath & Hload).
    exists file_path. split; [exact Hpath|].
    destruct (load_single_document_spec files file_path document Hload)
      as (Hsource & Htype & _).
    split.
    - destruct Htype as [[-> _] | [[-> _] | [-> _]]]; reflexivity.
    - destruct Hchunks as (-> & _). exact Hsource. }
  destruct (filter truthy _) as [|e good].
  - rewrite add_chunks_basic. cbn. now apply Forall_forall.
  - rewrite add_chunks_pairs by discriminate.
    cbn [SimpleVectorStore.chunks SimpleVectorStore.empty app].
    rewrite combine_fst_firstn, firstn_firstn, Nat.min_id.
    apply Forall_forall. intros chunk Hin.
    apply Hall. rewrite <- (firstn_skipn (length (e :: good)) chunks).
    apply in_or_app. now left.
Qed.

(** *** The loop of [main] *)

Section MainFacts.
Variable embed_api : nat -> Py.str -> option (list float).
Variable chat_api : nat -> Py.str -> Py.str + Py.str.
Variable argsort : list float -> list nat.

(** The response of [query] carries the question. *)
Lemma query_question rag question top_k w w' response :
  RAGPipeline.query embed_api chat_api argsort rag question top_k w
    = (w', inr response) ->
  QueryResponse.question response = question.
Proof.
  intro Hrun.
  destruct (RAGPipeline.is_initialized rag) eqn:Hinit.
  2:{ unfold RAGPipeline.query in Hrun. rewrite Hinit in Hrun.
      discriminate Hrun. }
  destruct (truthy (embed_api (embed_calls w) question)) eqn:Ht.
  - destruct (embed_api (embed_calls w) question) as [v|] eqn:Hv;
      [|discriminate].
    assert (Hne : v <> []) by (intros ->; discriminate).
    rewrite (query_vector_path embed_api chat_api argsort rag question
               top_k w v Hinit Hv Hne) in Hrun.
    destruct (SimpleVectorStore.search argsort _ v top_k); [discriminate|].
    destruct (RAGPipeline.generate_response chat_api question _ _)
      as [w'' [err|answer]]; [discriminate|].
    now injection Hrun as _ <-.
  - rewrite (query_text_path embed_api chat_api argsort rag question
               top_k w Hinit Ht) in Hrun.
    destruct (RAGPipeline.generate_response chat_api question _ _)
      as [w'' [err|answer]]; [discriminate|].
    now injection Hrun as _ <-.
Qed.

Lemma loop_asks rag lines : forall w w' how results,
  Main.loop embed_api chat_api argsort rag lines w = (w', (how, results)) ->
  exists later,
    asked lines = map QueryResponse.question results ++ later /\
    ((forall e, how <> Main.Raised e) -> later = []) /\
    (how = Main.Quit -> existsb is_quit lines = true) /\
    (how = Main.EndOfInput -> existsb is_quit lines = false).
Proof.
  induction lines as [|line rest IH]; intros w w' how results;
    cbn [Main.loop asked existsb].
  - intros [= <- <- <-]. exists []. repeat split; congruence.
  - change (DocumentLoader.str_eqb (Py.lower (Py.strip line))
              (Py.lit "quit")) with (is_quit line).
    destruct (is_quit line).
    + intros [= <- <- <-]. exists []. repeat split; congruence.
    + cbn [orb]. destruct (Py.nonempty (Py.strip line)).
      * destruct (RAGPipeline.query embed_api chat_api argsort rag
                    (Py.strip line) 5 w) as [w1 [err|result]] eqn:Hq.
        -- intros [= <- <- <-]. eexists. split; [reflexivity|].
           split; [|split; discriminate].
           intro H. exfalso. now apply (H err).
        -- destruct (Main.loop embed_api chat_api argsort rag rest w1)
             as [w2 [how' results']] eqn:Hloop.
           intros [= <- <- <-].
           destruct (IH _ _ _ _ Hloop) as (later & Heq & Hdone & Hquit & Hend).
           exists later. cbn [map app].
           rewrite (query_question _ _ _ _ _ _ Hq), Heq.
           repeat split; assumption.
      * apply IH.
Qed.

End MainFacts.

Lemma asked_well_formed lines :
  Forall (fun question =>
            question <> [] /\ Py.strip question = question /\
            is_quit question = false) (asked lines).
Proof.
  induction lines as [|line rest IH]; cbn [asked]; [constructor|].
  destruct (is_quit line) eqn:Hquit; [constructor|].
  destruct (Py.strip line) as [|c s] eqn:Hstrip; cbn [Py.nonempty];
    [exact IH|].
  constructor; [|exact IH]. rewrite <- Hstrip.
  split; [rewrite Hstrip; discriminate|].
  split; [apply strip_idem|].
  unfold is_quit in *. now rewrite strip_idem.
Qed.

(** X26: the questions [main] puts to [query] are the lines typed
    before the first line that reads "quit" (in any case, white space
    around it aside), stripped, the blank lines left out: an empty
    question is never asked.  The questions answered are the first of
    them, in order, and all of them when nothing raises; when [main]
    ends by quit there is a quit line, and when it ends with the input
    there is none. *)
Theorem main_asks_the_stripped_lines
    (embed_api : nat -> Py.str -> option (list float))
    (chat_api : nat -> Py.str -> Py.str + Py.str)
    (argsort : list float -> list nat)
    (files : Files.t) (lines : list Py.str) (w w' : World)
    (how : Main.ending) (results : list QueryResponse.t) :
  Main.main embed_api chat_api argsort files lines w = (w', (how, results)) ->
  (exists later,
     asked lines = map QueryResponse.question results ++ later /\
     ((forall e, how <> Main.Raised e) -> later = [])) /\
  (how = Main.Quit -> existsb is_quit lines = true) /\
  (how = Main.EndOfInput -> existsb is_quit lines = false) /\
  Forall (fun question =>
            question <> [] /\ Py.strip question = question /\
            is_quit question = false) (asked lines).
Proof.
  unfold Main.main. rewrite initialize_spec. cbv zeta. intro Hloop.
  apply loop_asks in Hloop as (later & Heq & Hdone & Hquit & Hend).
  split; [now exists later|].
  split; [exact Hquit|]. split; [exact Hend | apply asked_well_formed].
Qed.

Lemma main_asks_the_stripped_lines_witness :
  exists w' how results,
    Main.main api_down chat_down stable_argsort files_example
      [Py.lit " what is blue? "; Py.lit "  "; Py.lit " QUIT "; Py.lit "more"]
      world0 = (w', (how, results)) /\
    how = Main.Quit /\
    map QueryResponse.question results = [Py.lit "what is blue?"].
Proof.
  destruct (Main.main api_down chat_down stable_argsort files_example
              [Py.lit " what is blue? "; Py.lit "  "; Py.lit " QUIT ";
               Py.lit "more"] world0) as [w' [how results]] eqn:Hrun.
  exists w', how, results. split; [reflexivity|].
  destruct (main_asks_the_stripped_lines _ _ _ _ _ _ _ _ _ Hrun)
    as ((later & Heq & Hdone) & _).
  assert (Hhow : how = Main.Quit).
  { vm_compute in Hrun. now injection Hrun as _ <- _. }
  split; [exact Hhow|].
  rewrite Hdone in Heq by (rewrite Hhow; discriminate).
  rewrite app_nil_r in Heq. rewrite <- Heq. reflexivity.
Defined.

Section MainReturns.
Variable embed_api : nat -> Py.str -> option (list float).
Variable chat_api : nat -> Py.str -> Py.str + Py.str.
Variable argsort : list float -> list nat.
Hypothesis argsort_ok : argsort_spec argsort.
Hypothesis service_ok : service_dimension embed_api.

(** On an initialized pipeline a caller can hold, [query] returns. *)
Lemma query_returns rag question top_k w :
  reachable embed_api rag -> RAGPipeline.is_initialized rag = true ->
  exists w' response,
    RAGPipeline.query embed_api chat_api argsort rag question top_k w
      = (w', inr response).
Proof.
  intros Hreach Hinit.
  destruct (truthy (embed_api (embed_calls w) question)) eqn:Ht.
  - destruct (embed_api (embed_calls w) question) as [v|] eqn:Hv;
      [|discriminate].
    assert (Hne : v <> []) by (intros ->; discriminate).
    apply (query_by_vector embed_api chat_api argsort rag question top_k w v);
      auto.
    destruct (reachable_store_ok embed_api rag service_ok Hreach)
      as [Hlen Hall].
    split; [exact Hlen|].
    rewrite (service_ok _ _ _ Hv Hne). exact Hall.
  - destruct (query_falls_back embed_api chat_api argsort rag question
                top_k w Hinit Ht) as (w' & answer & _ & Hrun & _).
    do 2 eexists. exact Hrun.
Qed.

Lemma loop_returns rag lines : forall w w' how results,
  reachable embed_api rag -> RAGPipeline.is_initialized rag = true ->
  Main.loop embed_api chat_api argsort rag lines w = (w', (how, results)) ->
  how = Main.Quit \/ how = Main.EndOfInput.
Proof.
  intros w w' how results Hreach Hinit. revert w w' how results.
  induction lines as [|line rest IH]; intros w w' how results;
    cbn [Main.loop].
  - intros [= _ <- _]. now right.
  - destruct (DocumentLoader.str_eqb _ _); [intros [= _ <- _]; now left|].
    destruct (Py.nonempty (Py.strip line)); [|apply IH].
    destruct (query_returns rag (Py.strip line) 5 w Hreach Hinit)
      as (w1 & response & ->).
    destruct (Main.loop embed_api chat_api argsort rag rest w1)
      as [w2 [how' results']] eqn:Hloop.
    intros [= _ <- _]. eapply IH, Hloop.
Qed.

End MainReturns.

(** X27: once [RAGPipeline("data")] is constructed, and with an
    embedding service whose vectors have the length of the placeholder,
    [main] never ends by an exception of [initialize] or of [query]:
    whatever the files and the lines typed, it ends by quit or with the
    input (where [input] raises [EOFError]), and it has a result for
    every question asked. *)
Theorem main_never_raises
    (embed_api : nat -> Py.str -> option (list float))
    (chat_api : nat -> Py.str -> Py.str + Py.str)
    (argsort : list float -> list nat)
    (files : Files.t) (lines : list Py.str) (w : World) :
  argsort_spec argsort ->
  service_dimension embed_api ->
  exists w' how results,
    Main.main embed_api chat_api argsort files lines w
      = (w', (how, results)) /\
    (how = Main.Quit \/ how = Main.EndOfInput) /\
    map QueryResponse.question results = asked lines.
Proof.
  intros Hspec Hdim.
  destruct (Main.main embed_api chat_api argsort files lines w)
    as [w' [how results]] eqn:Hrun.
  exists w', how, results. split; [reflexivity|].
  unfold Main.main in Hrun.
  destruct (RAGPipeline.initialize embed_api RAGPipeline.new
              (DocumentLoader.load_documents files) w)
    as [w1 [err|rag]] eqn:Hinit;
    [rewrite initialize_spec in Hinit; discriminate Hinit|].
  assert (Hreach : reachable embed_api rag).
  { eapply reachable_initialize; [apply reachable_new | exact Hinit]. }
  assert (Hready : RAGPipeline.is_initialized rag = true).
  { rewrite initialize_spec in Hinit. now injection Hinit as _ <-. }
  pose proof (loop_returns embed_api chat_api argsort Hspec Hdim rag lines
                _ _ _ _ Hreach Hready Hrun) as Hhow.
  split; [exact Hhow|].
  apply loop_asks in Hrun as (later & Heq & Hdone & _).
  rewrite Heq, Hdone, app_nil_r; [reflexivity|].
  intros e He. destruct Hhow as [-> | ->]; discriminate He.
Qed.

(** With the service [api_ones] and the files of [files_example], both
    questions go through the vector search, and each gets the chunks of
    the two files that could be read. *)
Example main_ones_vector_path :
  let run :=
    Main.main api_ones chat_down stable_argsort files_example
      [Py.lit "sky"; Py.lit "grass"] world0 in
  fst (snd run) = Main.EndOfInput /\
  filter (fun e => match e with
                   | EvVectorSearch _ _ | EvTextSearch _ _ => true
                   | _ => false
                   end) (trace (fst run))
  = [EvVectorSearch (repeat 1%float 1536) 5;
     EvVectorSearch (repeat 1%float 1536) 5] /\
  map (fun r => length (QueryResponse.sources r)) (snd (snd run))
  = [2%nat; 2%nat].
Proof. vm_compute. repeat split. Qed.

Lemma main_never_raises_witness :
  exists w' how results,
    Main.main api_ones chat_down stable_argsort files_example
      [Py.lit "sky"; Py.lit "grass"] world0 = (w', (how, results)) /\
    (how = Main.Quit \/ how = Main.EndOfInput) /\
    map QueryResponse.question results = [Py.lit "sky"; Py.lit "grass"].
Proof.
  exact (main_never_raises api_ones chat_down stable_argsort files_example
           [Py.lit "sky"; Py.lit "grass"] world0
           stable_argsort_meets_spec api_ones_dimension).
Defined.

(** *** No text is lost between the chunks *)

(** A character at a position of the window is in the slice. *)
Lemma slice_In {A} (l : list A) i j p x :
  0 <= i <= Z.of_nat p -> Z.of_nat p < j ->
  nth_error l p = Some x -> In x (Py.slice l i j).
Proof.
  intros Hi Hj Hx.
  assert (Hp : (p < length l)%nat) by (apply nth_error_Some; congruence).
  unfold Py.slice. rewrite !clamp_nonneg by lia. unfold Py.len.
  apply (nth_error_In _ (p - Z.to_nat (Z.min i (Z.of_nat (length l))))).
  rewrite nth_error_skipn, nth_error_firstn.
  replace (Z.to_nat (Z.min i (Z.of_nat (length l)))
           + (p - Z.to_nat (Z.min i (Z.of_nat (length l)))))%nat
    with p by lia.
  destruct (Nat.ltb_spec p (Z.to_nat (Z.min j (Z.of_nat (length l)))));
    [exact Hx | lia].
Qed.

Section CoverageFacts.
Variable self : TextChunker.t.
Variable document : Document.t.
Hypothesis size_ok : 1 <= TextChunker.chunk_size self.
Hypothesis overlap_ok : 0 <= TextChunker.chunk_overlap self.

(** Every character before [start] that is no white space lies in the
    window of a chunk made so far. *)
Lemma covered_so_far_kept start chunks :
  start < Py.len (Document.content document) ->
  covered_so_far document start chunks ->
  covered_so_far document
    (fst (TextChunker.loop_body self document start chunks))
    (snd (TextChunker.loop_body self document start chunks)).
Proof.
  intros Hlt (Hstart & Hcov).
  pose proof (window_end_bounds self document start size_ok Hstart) as Hb.
  unfold TextChunker.loop_body; cbn [fst snd].
  split; [lia|]. intros p c Hp Hc Hspace.
  destruct (Z.lt_ge_cases (Z.of_nat p) start) as [Hold | Hnew].
  - destruct (Hcov p c Hold Hc Hspace) as (chunk & Hin & Hrange).
    exists chunk. split; [|exact Hrange].
    destruct (Py.nonempty _); [apply in_or_app; now left | exact Hin].
  - assert (Hin : In c (Py.slice (Document.content document) start
                          (TextChunker.window_end self document start))).
    { apply (slice_In _ _ _ p); [lia | lia | exact Hc]. }
    pose proof (strip_nonempty _ c Hin Hspace) as Hne.
    destruct (Py.strip (Py.slice (Document.content document) start
                          (TextChunker.window_end self document start)))
      as [|c' rest] eqn:Hstrip; [congruence|].
    cbn [Py.nonempty]. eexists. split; [apply in_or_app; right; now left|].
    cbn [Chunk.start_char Chunk.end_char]. lia.
Qed.

(** When the loop ends, [start] is past the content and the invariant
    still holds. *)
Lemma covered_at_the_end fuel : forall start chunks passes chunks' n,
  covered_so_far document start chunks ->
  TextChunker.loop self document fuel start chunks passes
    = Some (chunks', n) ->
  exists start',
    Py.len (Document.content document) <= start' /\
    covered_so_far document start' chunks'.
Proof.
  induction fuel as [|fuel IH];
    intros start chunks passes chunks' n Hinv; rewrite loop_unfold;
    destruct (Z.ltb_spec start (Py.len (Document.content document)))
      as [Hlt|Hge]; try discriminate.
  - intros [= <- _]. now exists start.
  - intro Hrun. eapply IH; [|exact Hrun]. now apply covered_so_far_kept.
  - intros [= <- _]. now exists start.
Qed.

End CoverageFacts.

(** X28: with [chunk_size >= 1] and [chunk_overlap >= 0] no text falls
    between the chunks of a document: every character of the content
    that is no white space lies in the window, from [start_char] to
    [end_char], of one of the chunks. *)
Theorem split_single_document_covers
    (self : TextChunker.t) (document : Document.t) (p : nat) (c : ascii) :
  1 <= TextChunker.chunk_size self ->
  0 <= TextChunker.chunk_overlap self ->
  nth_error (Document.content document) p = Some c ->
  Py.isspace c = false ->
  exists chunk,
    In chunk (TextChunker._split_single_document self document) /\
    Chunk.start_char chunk <= Z.of_nat p < Chunk.end_char chunk.
Proof.
  intros Hcs Hov Hc Hspace.
  assert (Hp : (p < length (Document.content document))%nat)
    by (apply nth_error_Some; congruence).
  destruct (loop_enough_fuel self document
              (length (Document.content document)) 0 [] 0)
    as (chunks & n & Hrun & _); [unfold Py.len; lia|].
  destruct (covered_at_the_end self document Hcs Hov
              (length (Document.content document)) 0 [] 0%nat chunks n)
    as (start & Hend & _ & Hcov); [|exact Hrun|].
  { split; [lia|]. intros q x Hq. lia. }
  unfold TextChunker._split_single_document, TextChunker.run. rewrite Hrun.
  apply (Hcov p c); [unfold Py.len in Hend; lia | exact Hc | exact Hspace].
Qed.

Lemma split_single_document_covers_witness :
  exists chunk,
    In chunk (TextChunker._split_single_document (TextChunker.mk 4 1)
                doc_two_parts) /\
    Chunk.start_char chunk <= Z.of_nat 9 < Chunk.end_char chunk.
Proof.
  apply (split_single_document_covers (TextChunker.mk 4 1) doc_two_parts
           9 "h"%char).
  - simpl. lia.
  - simpl. lia.
  - reflexivity.
  - reflexivity.
Defined.

(** *** The text search with a negative [top_k] *)

(** X29: a negative [top_k] does not make the text search raise:
    [results[:top_k]] then drops the last [-top_k] of the sorted
    entries, so that of [m] matching passages [max 0 (m + top_k)] are
    returned, the best ones first. *)
Theorem basic_text_search_negative_top_k
    (self : RAGPipeline.t) (question : Py.str) (top_k : Z) (w : World) :
  top_k < 0 ->
  let matches :=
    RAGPipeline.text_matches (Py.lower question)
      (SimpleVectorStore.chunks (RAGPipeline.vector_store self)) in
  exists results,
    snd (RAGPipeline._basic_text_search self question top_k w)
      = inr results /\
    results
      = firstn (length matches - Z.to_nat (- top_k)) (sort_desc matches) /\
    Py.len results = Z.max 0 (Py.len matches + top_k).
Proof.
  intros Hneg matches. rewrite basic_text_search_run. cbn [snd].
  eexists. split; [reflexivity|].
  pose proof (Permutation_length (sort_desc_perm matches)) as Hlen.
  unfold text_search_result. fold matches. unfold Py.slice_to, Py.clamp.
  destruct (Z.ltb_spec top_k 0) as [_|]; [|lia].
  unfold Py.len. rewrite Hlen. split.
  - f_equal. lia.
  - rewrite length_firstn, Hlen. lia.
Qed.

Lemma basic_text_search_negative_top_k_witness :
  exists results,
    snd (RAGPipeline._basic_text_search pipeline_three (Py.lit "The Sky")
           (-1) world0) = inr results /\
    results = [RAGPipeline.entry chunk_sky 1%float].
Proof.
  destruct (basic_text_search_negative_top_k pipeline_three
              (Py.lit "The Sky") (-1) world0) as (results & Hrun & Hres & _);
    [lia|].
  exists results. split; [exact Hrun|].
  rewrite Hres. vm_compute. reflexivity.
Defined.
